(** * AppBundle operator: the reconciliation engine

    A shallow embedding of [internal/controller/appbundle_controller.go]
    and of the API types of [api/v1alpha1] it works on.

    - Go's [int] is a 64-bit integer: [Z] with the wrap-around written out.
    - [appBundle *AppBundle] is mutated in place by the controller; here the
      bundle is threaded through and the final value is returned next to the
      [error].
    - The embedded [client.Client] is an interface: a type class over the
      cluster state, with every call recorded in a log.
    - [encoding/json], [sort.Slice] and [controllerutil.SetControllerReference]
      are library functions: section variables, with the documented contract
      as a hypothesis where a result needs it. *)

From Stdlib Require Import ZArith Lia List String Ascii DecimalString.
From stdpp Require Import base option gmap strings list sorting.

Local Open Scope Z_scope.
Local Open Scope string_scope.

(** ** Go values *)

Module GoInt.
(** [int] on the 64-bit platforms the operator is built for. *)
Definition min_int : Z := - 2 ^ 63.
Definition max_int : Z := 2 ^ 63 - 1.

Definition wrap (z : Z) : Z := (z + 2 ^ 63) mod 2 ^ 64 - 2 ^ 63.

Definition add (a b : Z) : Z := wrap (a + b).
Definition mul (a b : Z) : Z := wrap (a * b).

Definition in_range (z : Z) : Prop := min_int <= z <= max_int.

(** [strconv.Itoa] *)
Definition Itoa (z : Z) : string := NilZero.string_of_int (Z.to_int z).
End GoInt.

Arguments GoInt.wrap : simpl never.
Arguments GoInt.add : simpl never.
Arguments GoInt.mul : simpl never.
Arguments GoInt.Itoa : simpl never.

(** Go's [error]: the message returned by [Error()] and whether
    [errors.IsNotFound] recognises it. *)
Module error.
Record t := mk { Error : string; IsNotFound : bool }.
End error.

Definition Time := Z.
Definition Time_IsZero (t : Time) : bool := (t =? 0)%Z.

(** ** api/v1alpha1 *)

Module PorchPackageReference.
Record t := mk { Name : string; Namespace : string; Revision : string }.
End PorchPackageReference.

Module Component.
Record t := mk {
  Name : string;
  Order : Z;
  Template : list Byte.byte;   (* runtime.RawExtension.Raw *)
  PorchPackageRef : option PorchPackageReference.t }.
End Component.

Module Group.
Record t := mk {
  Name : string;
  Order : Z;
  Components : list Component.t }.
End Group.

Module PorchIntegrationSpec.
Record t := mk { Enabled : bool; Repository : string }.
End PorchIntegrationSpec.

Module AppBundleSpec.
Record t := mk {
  Groups : list Group.t;
  PorchIntegration : option PorchIntegrationSpec.t }.
End AppBundleSpec.

(** [type DeploymentPhase string] *)
Definition DeploymentPhase := string.
Definition PhasePending : DeploymentPhase := "Pending".
Definition PhaseDeploying : DeploymentPhase := "Deploying".
Definition PhaseDeployed : DeploymentPhase := "Deployed".
Definition PhaseFailed : DeploymentPhase := "Failed".

Module ResourceReference.
Record t := mk {
  APIVersion : string;
  Kind : string;
  Name : string;
  Namespace : string }.
End ResourceReference.

Module ComponentStatus.
Record t := mk {
  Name : string;
  Phase : DeploymentPhase;
  Message : string;
  ResourceRef : option ResourceReference.t }.

Definition withPhase (p : DeploymentPhase) (s : t) : t :=
  mk (Name s) p (Message s) (ResourceRef s).
Definition withMessage (m : string) (s : t) : t :=
  mk (Name s) (Phase s) m (ResourceRef s).
Definition withResourceRef (r : option ResourceReference.t) (s : t) : t :=
  mk (Name s) (Phase s) (Message s) r.
End ComponentStatus.

Module GroupStatus.
Record t := mk {
  Name : string;
  Phase : DeploymentPhase;
  Message : string;
  ComponentStatuses : list ComponentStatus.t }.

Definition withPhase (p : DeploymentPhase) (s : t) : t :=
  mk (Name s) p (Message s) (ComponentStatuses s).
Definition withMessage (m : string) (s : t) : t :=
  mk (Name s) (Phase s) m (ComponentStatuses s).
Definition appendComponentStatus (c : ComponentStatus.t) (s : t) : t :=
  mk (Name s) (Phase s) (Message s) (ComponentStatuses s ++ [c]).
End GroupStatus.

(** [metav1.Condition] *)
Module Condition.
Record t := mk {
  Type_ : string;
  Status : string;
  Reason : string;
  Message : string;
  ObservedGeneration : Z;
  LastTransitionTime : Time }.
End Condition.

Definition ConditionTrue : string := "True".
Definition ConditionFalse : string := "False".

Module AppBundleStatus.
Record t := mk {
  Phase : DeploymentPhase;
  Message : string;
  GroupStatuses : list GroupStatus.t;
  ObservedGeneration : Z;
  Conditions : list Condition.t }.

Definition withPhase (p : DeploymentPhase) (s : t) : t :=
  mk p (Message s) (GroupStatuses s) (ObservedGeneration s) (Conditions s).
Definition withMessage (m : string) (s : t) : t :=
  mk (Phase s) m (GroupStatuses s) (ObservedGeneration s) (Conditions s).
Definition withGroupStatuses (g : list GroupStatus.t) (s : t) : t :=
  mk (Phase s) (Message s) g (ObservedGeneration s) (Conditions s).
Definition withObservedGeneration (n : Z) (s : t) : t :=
  mk (Phase s) (Message s) (GroupStatuses s) n (Conditions s).
Definition withConditions (c : list Condition.t) (s : t) : t :=
  mk (Phase s) (Message s) (GroupStatuses s) (ObservedGeneration s) c.
End AppBundleStatus.

(** [metav1.ObjectMeta], the fields the controller and its libraries read. *)
Module ObjectMeta.
Record t := mk {
  Name : string;
  Namespace : string;
  UID : string;
  Generation : Z;
  Finalizers : list string;
  DeletionTimestamp : option Time }.

Definition withFinalizers (f : list string) (m : t) : t :=
  mk (Name m) (Namespace m) (UID m) (Generation m) f (DeletionTimestamp m).
End ObjectMeta.

Module AppBundle.
Record t := mk {
  Meta : ObjectMeta.t;
  Spec : AppBundleSpec.t;
  Status : AppBundleStatus.t }.

Definition Name (b : t) : string := ObjectMeta.Name (Meta b).
Definition Namespace (b : t) : string := ObjectMeta.Namespace (Meta b).
Definition Generation (b : t) : Z := ObjectMeta.Generation (Meta b).

Definition withMeta (m : ObjectMeta.t) (b : t) : t := mk m (Spec b) (Status b).
Definition withStatus (s : AppBundleStatus.t) (b : t) : t := mk (Meta b) (Spec b) s.
Definition mapStatus (f : AppBundleStatus.t -> AppBundleStatus.t) (b : t) : t :=
  withStatus (f (Status b)) b.
End AppBundle.

Module NamespacedName.
Record t := mk { Namespace : string; Name : string }.
End NamespacedName.

(** ** k8s.io/apimachinery: unstructured objects *)

Module OwnerReference.
Record t := mk {
  APIVersion : string;
  Kind : string;
  Name : string;
  UID : string;
  Controller : bool;
  BlockOwnerDeletion : bool }.
End OwnerReference.

(** [schema.GroupVersionKind], with group and version kept together as the
    [apiVersion] string they are read from. *)
Module GroupVersionKind.
Record t := mk { APIVersion : string; Kind : string }.
End GroupVersionKind.

(** [unstructured.Unstructured]: the typed accessors the controller uses, the
    type/status pairs of [status.conditions] that a Job or a Pod reports, and
    the remaining content kept as it came. *)
Module Unstructured.
Record t := mk {
  APIVersion : string;
  Kind : string;
  Name : string;
  Namespace : string;
  Annotations : gmap string string;
  Labels : gmap string string;
  ResourceVersion : string;
  OwnerReferences : list OwnerReference.t;
  StatusConditions : list (string * string);
  Rest : string }.

Definition SetAnnotations (a : gmap string string) (o : t) : t :=
  mk (APIVersion o) (Kind o) (Name o) (Namespace o) a (Labels o)
     (ResourceVersion o) (OwnerReferences o) (StatusConditions o) (Rest o).
Definition SetLabels (l : gmap string string) (o : t) : t :=
  mk (APIVersion o) (Kind o) (Name o) (Namespace o) (Annotations o) l
     (ResourceVersion o) (OwnerReferences o) (StatusConditions o) (Rest o).
Definition SetNamespace (ns : string) (o : t) : t :=
  mk (APIVersion o) (Kind o) (Name o) ns (Annotations o) (Labels o)
     (ResourceVersion o) (OwnerReferences o) (StatusConditions o) (Rest o).
Definition SetResourceVersion (rv : string) (o : t) : t :=
  mk (APIVersion o) (Kind o) (Name o) (Namespace o) (Annotations o) (Labels o)
     rv (OwnerReferences o) (StatusConditions o) (Rest o).
Definition SetOwnerReferences (r : list OwnerReference.t) (o : t) : t :=
  mk (APIVersion o) (Kind o) (Name o) (Namespace o) (Annotations o) (Labels o)
     (ResourceVersion o) r (StatusConditions o) (Rest o).

Definition GroupVersionKind (o : t) : GroupVersionKind.t :=
  GroupVersionKind.mk (APIVersion o) (Kind o).

(** The [types.NamespacedName] the controller probes with. *)
Definition Key (o : t) : NamespacedName.t :=
  NamespacedName.mk (Namespace o) (Name o).

(** What a [ResourceReference] records of an object. *)
Definition Ref (o : t) : ResourceReference.t :=
  ResourceReference.mk (APIVersion o) (Kind o) (Name o) (Namespace o).
End Unstructured.

(** ** k8s.io/apimachinery/pkg/api/meta *)

Module meta.
Definition touch (now : Time) (newCondition existing : Condition.t) : Condition.t :=
  Condition.mk
    (Condition.Type_ existing)
    (Condition.Status newCondition)
    (Condition.Reason newCondition)
    (Condition.Message newCondition)
    (Condition.ObservedGeneration newCondition)
    (if Condition.Status existing =? Condition.Status newCondition
     then Condition.LastTransitionTime existing
     else if Time_IsZero (Condition.LastTransitionTime newCondition)
          then now
          else Condition.LastTransitionTime newCondition).

Definition fresh (now : Time) (newCondition : Condition.t) : Condition.t :=
  Condition.mk
    (Condition.Type_ newCondition)
    (Condition.Status newCondition)
    (Condition.Reason newCondition)
    (Condition.Message newCondition)
    (Condition.ObservedGeneration newCondition)
    (if Time_IsZero (Condition.LastTransitionTime newCondition)
     then now
     else Condition.LastTransitionTime newCondition).

(** [meta.SetStatusCondition]: the first condition of the same type is
    updated in place (its transition time only when the status changes),
    otherwise the new condition is appended; [now] is the reading of
    [time.Now()]. *)
Fixpoint SetStatusCondition (now : Time) (conditions : list Condition.t)
    (newCondition : Condition.t) : list Condition.t :=
  match conditions with
  | [] => [fresh now newCondition]
  | c :: rest =>
      if Condition.Type_ c =? Condition.Type_ newCondition
      then touch now newCondition c :: rest
      else c :: SetStatusCondition now rest newCondition
  end.
End meta.

(** ** sigs.k8s.io/controller-runtime/pkg/controller/controllerutil *)

Module controllerutil.
Definition ContainsFinalizer (o : AppBundle.t) (finalizer : string) : bool :=
  existsb (String.eqb finalizer) (ObjectMeta.Finalizers (AppBundle.Meta o)).

Definition AddFinalizer (o : AppBundle.t) (finalizer : string) : AppBundle.t :=
  if ContainsFinalizer o finalizer then o
  else AppBundle.withMeta
         (ObjectMeta.withFinalizers
            (ObjectMeta.Finalizers (AppBundle.Meta o) ++ [finalizer])
            (AppBundle.Meta o)) o.

Definition RemoveFinalizer (o : AppBundle.t) (finalizer : string) : AppBundle.t :=
  AppBundle.withMeta
    (ObjectMeta.withFinalizers
       (List.filter (fun e => negb (e =? finalizer))
                    (ObjectMeta.Finalizers (AppBundle.Meta o)))
       (AppBundle.Meta o)) o.

(** The owner check of [SetControllerReference] as controller-runtime
    documents it: a namespaced owner cannot own a cluster-scoped object nor
    an object of another namespace. *)
Definition validateOwner (owner : ObjectMeta.t) (object : Unstructured.t)
    : option error.t :=
  let ownerNs := ObjectMeta.Namespace owner in
  if ownerNs =? "" then None
  else
    let objNs := Unstructured.Namespace object in
    if objNs =? "" then
      Some (error.mk
        ("cluster-scoped resource must not have a namespace-scoped owner, owner's namespace "
           ++ ownerNs) false)
    else if negb (ownerNs =? objNs) then
      Some (error.mk
        ("cross-namespace owner references are disallowed, owner's namespace "
           ++ ownerNs ++ ", obj's namespace " ++ objNs) false)
    else None.

(** [strings.Count(gv, "/")] *)
Fixpoint countSlashes (gv : string) : nat :=
  match gv with
  | EmptyString => 0%nat
  | String c rest =>
      if Ascii.eqb c "/"%char then S (countSlashes rest) else countSlashes rest
  end.

(** [gv[:strings.Index(gv, "/")]] *)
Fixpoint beforeSlash (gv : string) : string :=
  match gv with
  | EmptyString => ""
  | String c rest => if Ascii.eqb c "/"%char then "" else String c (beforeSlash rest)
  end.

(** The group of [schema.ParseGroupVersion]: empty for a string without a
    slash (and for the empty string and ["/"]), the text before the slash
    when there is one, an error when there are more. *)
Definition ParseGroupVersion (gv : string) : option string :=
  match countSlashes gv with
  | 0%nat => Some ""
  | 1%nat => Some (beforeSlash gv)
  | _ => None
  end.

(** Returns true if [a] and [b] point to the same object. *)
Definition referSameObject (a b : OwnerReference.t) : bool :=
  match ParseGroupVersion (OwnerReference.APIVersion a),
        ParseGroupVersion (OwnerReference.APIVersion b) with
  | Some aGroup, Some bGroup =>
      (aGroup =? bGroup)
      && (OwnerReference.Kind a =? OwnerReference.Kind b)
      && (OwnerReference.Name a =? OwnerReference.Name b)
  | _, _ => false
  end.

Definition GetControllerOf (o : Unstructured.t) : option OwnerReference.t :=
  List.find OwnerReference.Controller (Unstructured.OwnerReferences o).

Fixpoint upsert (ref : OwnerReference.t) (refs : list OwnerReference.t)
    : list OwnerReference.t :=
  match refs with
  | [] => [ref]
  | r :: rest => if referSameObject r ref then ref :: rest else r :: upsert ref rest
  end.

(** The bundle's kind as registered in the scheme. *)
Definition ownerAPIVersion : string := "app.example.com/v1alpha1".
Definition ownerKind : string := "AppBundle".

Definition controllerRef (owner : ObjectMeta.t) : OwnerReference.t :=
  OwnerReference.mk ownerAPIVersion ownerKind
    (ObjectMeta.Name owner) (ObjectMeta.UID owner) true true.

(** [controllerutil.SetControllerReference], as the library documents it. *)
Definition SetControllerReference (owner : ObjectMeta.t) (controlled : Unstructured.t)
    : error.t + Unstructured.t :=
  match validateOwner owner controlled with
  | Some err => inl err
  | None =>
      let ref := controllerRef owner in
      let set :=
        Unstructured.SetOwnerReferences
          (upsert ref (Unstructured.OwnerReferences controlled)) controlled in
      match GetControllerOf controlled with
      | Some existing =>
          if referSameObject existing ref then inr set
          else inl (error.mk
                 ("Object " ++ Unstructured.Namespace controlled ++ "/"
                    ++ Unstructured.Name controlled
                    ++ " is already owned by another "
                    ++ OwnerReference.Kind existing ++ " controller "
                    ++ OwnerReference.Name existing) false)
      | None => inr set
      end
  end.
End controllerutil.

(** ** sigs.k8s.io/controller-runtime/pkg/client *)

(** [client.Client], the calls of it a reconciler can make, over a cluster
    state [W]. Reads leave the cluster as it is; [Create] and [Update] answer
    with the object as the server stored it, which the Go client writes back
    into the object it was given. *)
Class Client (W : Type) := {
  GetBundle : NamespacedName.t -> W -> error.t + AppBundle.t;
  UpdateBundle : AppBundle.t -> W -> option error.t * W;
  StatusUpdate : AppBundle.t -> W -> option error.t * W;
  Get : GroupVersionKind.t -> NamespacedName.t -> W -> error.t + Unstructured.t;
  Create : Unstructured.t -> W -> (error.t + Unstructured.t) * W;
  Update : Unstructured.t -> W -> (error.t + Unstructured.t) * W;
  Delete : Unstructured.t -> W -> option error.t * W }.

(** The log of calls made on the client, oldest first. *)
Inductive Call :=
| CallGetBundle (key : NamespacedName.t)
| CallUpdateBundle (b : AppBundle.t)
| CallStatusUpdate (b : AppBundle.t)
| CallGet (gvk : GroupVersionKind.t) (key : NamespacedName.t)
          (answer : error.t + Unstructured.t)
| CallCreate (o : Unstructured.t)
| CallUpdate (o : Unstructured.t)
| CallDelete (o : Unstructured.t).

Definition isCreate (c : Call) : bool :=
  match c with CallCreate _ => true | _ => false end.
Definition isDelete (c : Call) : bool :=
  match c with CallDelete _ => true | _ => false end.

(** ** The reconciler's state monad *)

Record St (W : Type) := mkSt { world : W; calls : list Call }.
Arguments mkSt {W} _ _.
Arguments world {W} _.
Arguments calls {W} _.

Definition M (W A : Type) : Type := St W -> A * St W.

Definition ret {W A} (a : A) : M W A := fun s => (a, s).
Definition bind {W A B} (m : M W A) (k : A -> M W B) : M W B :=
  fun s => let (a, s') := m s in k a s'.

Notation "'let!' x ':=' m 'in' k" := (bind m (fun x => k))
  (at level 10, x pattern, m at level 100, k at level 200).

Definition logged {W} (c : Call) (s : St W) (w : W) : St W :=
  mkSt w (calls s ++ [c]).

(** ** internal/controller/appbundle_controller.go *)

Definition appBundleFinalizer : string := "app.example.com/finalizer".
(** Argo CD sync wave annotation *)
Definition argoSyncWaveAnnotation : string := "argocd.argoproj.io/sync-wave".

Section Controller.
Context {W : Type} `{!Client W}.

(** [json.Unmarshal] into an [unstructured.Unstructured]. *)
Variable json_Unmarshal : list Byte.byte -> error.t + Unstructured.t.
(** [sort.Slice], applied to a copy of the slice. *)
Variable sort_Slice : forall A : Type, (A -> A -> bool) -> list A -> list A.
(** [controllerutil.SetControllerReference] with the reconciler's scheme. *)
Variable SetControllerReference :
  ObjectMeta.t -> Unstructured.t -> error.t + Unstructured.t.

(** The calls on [r.Client], each one logged. *)
Definition r_GetBundle (key : NamespacedName.t) : M W (error.t + AppBundle.t) :=
  fun s => (GetBundle key (world s), logged (CallGetBundle key) s (world s)).
Definition r_UpdateBundle (b : AppBundle.t) : M W (option error.t) :=
  fun s => let (e, w) := UpdateBundle b (world s) in (e, logged (CallUpdateBundle b) s w).
Definition r_Status_Update (b : AppBundle.t) : M W (option error.t) :=
  fun s => let (e, w) := StatusUpdate b (world s) in (e, logged (CallStatusUpdate b) s w).
Definition r_Get (gvk : GroupVersionKind.t) (key : NamespacedName.t)
    : M W (error.t + Unstructured.t) :=
  fun s => let r := Get gvk key (world s) in (r, logged (CallGet gvk key r) s (world s)).
Definition r_Create (o : Unstructured.t) : M W (error.t + Unstructured.t) :=
  fun s => let (r, w) := Create o (world s) in (r, logged (CallCreate o) s w).
Definition r_Update (o : Unstructured.t) : M W (error.t + Unstructured.t) :=
  fun s => let (r, w) := Update o (world s) in (r, logged (CallUpdate o) s w).

(** The three assignments of a failure path of [reconcileComponent]. *)
Definition failedWith (prefix : string) (err : error.t)
    (componentStatus : ComponentStatus.t) : ComponentStatus.t * option error.t :=
  (ComponentStatus.withMessage (prefix ++ error.Error err)
     (ComponentStatus.withPhase PhaseFailed componentStatus),
   Some err).

(** The assignments of its success path. *)
Definition deployedWith (obj : Unstructured.t)
    (componentStatus : ComponentStatus.t) : ComponentStatus.t * option error.t :=
  (ComponentStatus.withResourceRef (Some (Unstructured.Ref obj))
     (ComponentStatus.withMessage "Resource deployed successfully"
        (ComponentStatus.withPhase PhaseDeployed componentStatus)),
   None).

(** reconcileComponent reconciles a single component *)
Definition reconcileComponent (appBundle : AppBundle.t) (group : Group.t)
    (component : Component.t) (baseSyncWave : Z)
    : M W (ComponentStatus.t * option error.t) :=
  let componentStatus :=
    ComponentStatus.mk (Component.Name component) PhaseDeploying "" None in
  (* Parse the template into an unstructured object *)
  match json_Unmarshal (Component.Template component) with
  | inl err => ret (failedWith "Failed to parse template: " err componentStatus)
  | inr obj =>
    (* Calculate sync wave for this component *)
    let syncWave := GoInt.add baseSyncWave (Component.Order component) in
    (* Add Argo CD sync wave annotation *)
    let annotations := Unstructured.Annotations obj in
    let annotations := <[argoSyncWaveAnnotation := GoInt.Itoa syncWave]> annotations in
    let obj := Unstructured.SetAnnotations annotations obj in
    (* Add labels for tracking *)
    let labels := Unstructured.Labels obj in
    let labels := <["app.example.com/appbundle" := AppBundle.Name appBundle]> labels in
    let labels := <["app.example.com/group" := Group.Name group]> labels in
    let labels := <["app.example.com/component" := Component.Name component]> labels in
    let obj := Unstructured.SetLabels labels obj in
    (* Set namespace if not specified *)
    let obj :=
      if (Unstructured.Namespace obj =? "") && negb (AppBundle.Namespace appBundle =? "")
      then Unstructured.SetNamespace (AppBundle.Namespace appBundle) obj
      else obj in
    (* Set owner reference *)
    match SetControllerReference (AppBundle.Meta appBundle) obj with
    | inl err => ret (failedWith "Failed to set owner reference: " err componentStatus)
    | inr obj =>
      (* Create or update the resource *)
      let! existing :=
        r_Get (Unstructured.GroupVersionKind obj) (Unstructured.Key obj) in
      match existing with
      | inl err =>
        if error.IsNotFound err then
          let! created := r_Create obj in
          match created with
          | inl err => ret (failedWith "Failed to create resource: " err componentStatus)
          | inr obj => ret (deployedWith obj componentStatus)
          end
        else ret (failedWith "Failed to get existing resource: " err componentStatus)
      | inr existingObj =>
        let obj :=
          Unstructured.SetResourceVersion (Unstructured.ResourceVersion existingObj) obj in
        let! updated := r_Update obj in
        match updated with
        | inl err => ret (failedWith "Failed to update resource: " err componentStatus)
        | inr obj => ret (deployedWith obj componentStatus)
        end
      end
    end
  end.

(** The [for _, component := range sortedComponents] loop of [reconcileGroup]. *)
Fixpoint reconcileComponents (appBundle : AppBundle.t) (group : Group.t)
    (baseSyncWave : Z) (sortedComponents : list Component.t)
    (groupStatus : GroupStatus.t) : M W (GroupStatus.t * option error.t) :=
  match sortedComponents with
  | [] => ret (groupStatus, None)
  | component :: rest =>
    let! (componentStatus, err) :=
      reconcileComponent appBundle group component baseSyncWave in
    match err with
    | Some err =>
      let groupStatus := GroupStatus.withPhase PhaseFailed groupStatus in
      let groupStatus :=
        GroupStatus.withMessage
          ("Failed to deploy component " ++ Component.Name component ++ ": "
             ++ error.Error err) groupStatus in
      let groupStatus := GroupStatus.appendComponentStatus componentStatus groupStatus in
      ret (groupStatus, Some err)
    | None =>
      reconcileComponents appBundle group baseSyncWave rest
        (GroupStatus.appendComponentStatus componentStatus groupStatus)
    end
  end.

Definition componentLess (a b : Component.t) : bool :=
  (Component.Order a <? Component.Order b)%Z.
Definition groupLess (a b : Group.t) : bool :=
  (Group.Order a <? Group.Order b)%Z.

(** reconcileGroup reconciles a single group of components *)
Definition reconcileGroup (appBundle : AppBundle.t) (group : Group.t)
    : M W (GroupStatus.t * option error.t) :=
  let groupStatus := GroupStatus.mk (Group.Name group) PhaseDeploying "" [] in
  (* Sort components by order *)
  let sortedComponents := sort_Slice _ componentLess (Group.Components group) in
  (* Calculate base sync wave for this group *)
  let baseSyncWave := GoInt.mul (Group.Order group) 100 in
  let! (groupStatus, err) :=
    reconcileComponents appBundle group baseSyncWave sortedComponents groupStatus in
  match err with
  | Some err => ret (groupStatus, Some err)
  | None =>
    let groupStatus := GroupStatus.withPhase PhaseDeployed groupStatus in
    let groupStatus :=
      GroupStatus.withMessage "All components deployed successfully" groupStatus in
    ret (groupStatus, None)
  end.

(** reconcilePorchPackages handles integration with Porch for package
    lifecycle management; a placeholder that always returns nil. *)
Definition reconcilePorchPackages (appBundle : AppBundle.t) : M W (option error.t) :=
  ret None.

(** finalizeAppBundle handles cleanup when AppBundle is deleted; always
    returns nil, cleanup being left to the garbage collector. *)
Definition finalizeAppBundle (appBundle : AppBundle.t) : M W (option error.t) :=
  ret None.

Definition appendGroupStatus (groupStatus : GroupStatus.t) (appBundle : AppBundle.t)
    : AppBundle.t :=
  AppBundle.mapStatus
    (fun st => AppBundleStatus.withGroupStatuses
                 (AppBundleStatus.GroupStatuses st ++ [groupStatus]) st)
    appBundle.

Definition setReadyCondition (now : Time) (status reason message : string)
    (appBundle : AppBundle.t) : AppBundle.t :=
  AppBundle.mapStatus
    (fun st => AppBundleStatus.withConditions
                 (meta.SetStatusCondition now (AppBundleStatus.Conditions st)
                    (Condition.mk "Ready" status reason message
                       (AppBundle.Generation appBundle) 0)) st)
    appBundle.

(** updateStatusWithError updates the AppBundle status with error information *)
Definition updateStatusWithError (now : Time) (appBundle : AppBundle.t) (err : error.t)
    : M W (AppBundle.t * option error.t) :=
  let appBundle := AppBundle.mapStatus (AppBundleStatus.withPhase PhaseFailed) appBundle in
  let appBundle :=
    AppBundle.mapStatus (AppBundleStatus.withMessage (error.Error err)) appBundle in
  let appBundle :=
    setReadyCondition now ConditionFalse "DeploymentFailed" (error.Error err) appBundle in
  let! statusErr := r_Status_Update appBundle in
  match statusErr with
  | Some statusErr => ret (appBundle, Some statusErr)
  | None => ret (appBundle, Some err)
  end.

(** The [for _, group := range sortedGroups] loop of [Reconcile], up to the
    point where it is left: with the failing group's status appended and its
    error, or after the last group. *)
Fixpoint reconcileGroups (appBundle : AppBundle.t) (sortedGroups : list Group.t)
    : M W (AppBundle.t * option error.t) :=
  match sortedGroups with
  | [] => ret (appBundle, None)
  | group :: rest =>
    let! (groupStatus, err) := reconcileGroup appBundle group in
    match err with
    | Some err => ret (appendGroupStatus groupStatus appBundle, Some err)
    | None => reconcileGroups (appendGroupStatus groupStatus appBundle) rest
    end
  end.

(** [Reconcile] from "Sort groups by order" to its end. *)
Definition deployGroups (now : Time) (appBundle : AppBundle.t)
    : M W (AppBundle.t * option error.t) :=
  (* Sort groups by order *)
  let sortedGroups :=
    sort_Slice _ groupLess (AppBundleSpec.Groups (AppBundle.Spec appBundle)) in
  (* Deploy resources group by group *)
  let appBundle := AppBundle.mapStatus (AppBundleStatus.withPhase PhaseDeploying) appBundle in
  let appBundle := AppBundle.mapStatus (AppBundleStatus.withGroupStatuses []) appBundle in
  let! (appBundle, err) := reconcileGroups appBundle sortedGroups in
  match err with
  | Some err => updateStatusWithError now appBundle err
  | None =>
    (* All groups deployed successfully *)
    let appBundle := AppBundle.mapStatus (AppBundleStatus.withPhase PhaseDeployed) appBundle in
    let appBundle :=
      AppBundle.mapStatus
        (AppBundleStatus.withMessage "All groups deployed successfully") appBundle in
    let appBundle :=
      AppBundle.mapStatus
        (AppBundleStatus.withObservedGeneration (AppBundle.Generation appBundle))
        appBundle in
    (* Update condition *)
    let appBundle :=
      setReadyCondition now ConditionTrue "DeploymentComplete"
        "All resources deployed successfully" appBundle in
    let! err := r_Status_Update appBundle in
    ret (appBundle, err)
  end.

Definition porchEnabled (appBundle : AppBundle.t) : bool :=
  match AppBundleSpec.PorchIntegration (AppBundle.Spec appBundle) with
  | Some p => PorchIntegrationSpec.Enabled p
  | None => false
  end.

Definition beingDeleted (appBundle : AppBundle.t) : bool :=
  match ObjectMeta.DeletionTimestamp (AppBundle.Meta appBundle) with
  | Some t => negb (Time_IsZero t)
  | None => false
  end.

(** Reconcile: one pass for the request [req]. The result is the bundle as
    the pass leaves it in memory ([None] when it could not be fetched) and
    the returned error; [now] is what [time.Now()] reads during the pass. *)
Definition Reconcile (now : Time) (req : NamespacedName.t)
    : M W (option AppBundle.t * option error.t) :=
  (* Fetch the AppBundle instance *)
  let! fetched := r_GetBundle req in
  match fetched with
  | inl err =>
    if error.IsNotFound err then ret (None, None) else ret (None, Some err)
  | inr appBundle =>
    (* Add finalizer if it doesn't exist *)
    let! (appBundle, err) :=
      (if negb (controllerutil.ContainsFinalizer appBundle appBundleFinalizer) then
         let appBundle := controllerutil.AddFinalizer appBundle appBundleFinalizer in
         let! err := r_UpdateBundle appBundle in
         ret (appBundle, err)
       else ret (appBundle, None)) in
    match err with
    | Some err => ret (Some appBundle, Some err)
    | None =>
      (* Check if the AppBundle is being deleted *)
      if beingDeleted appBundle then
        if controllerutil.ContainsFinalizer appBundle appBundleFinalizer then
          (* Run finalization logic *)
          let! err := finalizeAppBundle appBundle in
          match err with
          | Some err => ret (Some appBundle, Some err)
          | None =>
            (* Remove finalizer *)
            let appBundle := controllerutil.RemoveFinalizer appBundle appBundleFinalizer in
            let! err := r_UpdateBundle appBundle in
            ret (Some appBundle, err)
          end
        else ret (Some appBundle, None)
      else
        (* Initialize status if needed *)
        let! (appBundle, err) :=
          (if AppBundleStatus.Phase (AppBundle.Status appBundle) =? "" then
             let appBundle :=
               AppBundle.mapStatus (AppBundleStatus.withPhase PhasePending) appBundle in
             let! err := r_Status_Update appBundle in
             ret (appBundle, err)
           else ret (appBundle, None)) in
        match err with
        | Some err => ret (Some appBundle, Some err)
        | None =>
          (* Reconcile Porch packages if integration is enabled *)
          let! err :=
            (if porchEnabled appBundle then reconcilePorchPackages appBundle
             else ret None) in
          match err with
          | Some err =>
            let! (appBundle, err) := updateStatusWithError now appBundle err in
            ret (Some appBundle, err)
          | None =>
            let! (appBundle, err) := deployGroups now appBundle in
            ret (Some appBundle, err)
          end
        end
    end
  end.

End Controller.

(** ** An in-memory cluster

    A client over finite maps, in the manner of controller-runtime's fake
    client: objects are stored under apiVersion, kind, namespace and name,
    every write stamps a new resource version, a bundle's status is a
    sub-resource. It never changes an object on its own: a Job it stores
    never gains a condition. *)

Module fake.
Definition ObjKey : Type := string * string * (string * string).

Record Cluster := mk {
  bundles : gmap (string * string) AppBundle.t;
  objects : gmap ObjKey Unstructured.t;
  revision : Z }.

Definition objKey (gvk : GroupVersionKind.t) (key : NamespacedName.t) : ObjKey :=
  (GroupVersionKind.APIVersion gvk, GroupVersionKind.Kind gvk,
   (NamespacedName.Namespace key, NamespacedName.Name key)).

Definition keyOf (o : Unstructured.t) : ObjKey :=
  objKey (Unstructured.GroupVersionKind o) (Unstructured.Key o).

Definition bundleKey (b : AppBundle.t) : string * string :=
  (AppBundle.Namespace b, AppBundle.Name b).

Definition notFound (name : string) : error.t :=
  error.mk (name ++ " not found") true.
Definition alreadyExists (name : string) : error.t :=
  error.mk (name ++ " already exists") false.
Definition conflict (name : string) : error.t :=
  error.mk ("the object " ++ name ++ " has been modified") false.

Definition get (gvk : GroupVersionKind.t) (key : NamespacedName.t) (c : Cluster)
    : error.t + Unstructured.t :=
  match objects c !! objKey gvk key with
  | Some o => inr o
  | None => inl (notFound (NamespacedName.Name key))
  end.

Definition store (o : Unstructured.t) (c : Cluster) : Unstructured.t * Cluster :=
  let rv := revision c + 1 in
  let o' := Unstructured.SetResourceVersion (GoInt.Itoa rv) o in
  (o', mk (bundles c) (<[keyOf o := o']> (objects c)) rv).

Definition create (o : Unstructured.t) (c : Cluster)
    : (error.t + Unstructured.t) * Cluster :=
  match objects c !! keyOf o with
  | Some _ => (inl (alreadyExists (Unstructured.Name o)), c)
  | None => let (o', c') := store o c in (inr o', c')
  end.

Definition update (o : Unstructured.t) (c : Cluster)
    : (error.t + Unstructured.t) * Cluster :=
  match objects c !! keyOf o with
  | None => (inl (notFound (Unstructured.Name o)), c)
  | Some existing =>
      if (Unstructured.ResourceVersion o =? "")
         || (Unstructured.ResourceVersion o =? Unstructured.ResourceVersion existing)
      then let (o', c') := store o c in (inr o', c')
      else (inl (conflict (Unstructured.Name o)), c)
  end.

Definition delete_ (o : Unstructured.t) (c : Cluster) : option error.t * Cluster :=
  match objects c !! keyOf o with
  | None => (Some (notFound (Unstructured.Name o)), c)
  | Some _ => (None, mk (bundles c) (delete (keyOf o) (objects c)) (revision c))
  end.

Definition getBundle (key : NamespacedName.t) (c : Cluster) : error.t + AppBundle.t :=
  match bundles c !! (NamespacedName.Namespace key, NamespacedName.Name key) with
  | Some b => inr b
  | None => inl (notFound (NamespacedName.Name key))
  end.

Definition forbidden (name : string) : error.t :=
  error.mk (name ++ " is invalid: metadata.finalizers: Forbidden: no new finalizers "
              ++ "can be added if the object is being deleted") false.

(** [b] holds a finalizer that [stored] does not. *)
Definition newFinalizers (b stored : AppBundle.t) : bool :=
  existsb (fun f => negb (controllerutil.ContainsFinalizer stored f))
          (ObjectMeta.Finalizers (AppBundle.Meta b)).

(** An update of the bundle keeps the stored status; as the API server, the
    cluster takes no new finalizer for a bundle marked for deletion; a bundle
    marked for deletion goes once its last finalizer does. *)
Definition updateBundle (b : AppBundle.t) (c : Cluster) : option error.t * Cluster :=
  match bundles c !! bundleKey b with
  | None => (Some (notFound (AppBundle.Name b)), c)
  | Some stored =>
      if beingDeleted stored && newFinalizers b stored
      then (Some (forbidden (AppBundle.Name b)), c)
      else
        let b' := AppBundle.withStatus (AppBundle.Status stored) b in
        match ObjectMeta.DeletionTimestamp (AppBundle.Meta b),
              ObjectMeta.Finalizers (AppBundle.Meta b) with
        | Some _, [] =>
            (None, mk (delete (bundleKey b) (bundles c)) (objects c) (revision c))
        | _, _ =>
            (None, mk (<[bundleKey b := b']> (bundles c)) (objects c) (revision c))
        end
  end.

(** An update of the status sub-resource keeps everything else as stored. *)
Definition statusUpdate (b : AppBundle.t) (c : Cluster) : option error.t * Cluster :=
  match bundles c !! bundleKey b with
  | None => (Some (notFound (AppBundle.Name b)), c)
  | Some stored =>
      (None,
       mk (<[bundleKey b := AppBundle.withStatus (AppBundle.Status b) stored]> (bundles c))
          (objects c) (revision c))
  end.

#[global] Instance client : Client Cluster := {|
  GetBundle := getBundle;
  UpdateBundle := updateBundle;
  StatusUpdate := statusUpdate;
  Get := get;
  Create := create;
  Update := update;
  Delete := delete_ |}.

(** A cluster holding just the bundle [b]. *)
Definition holding (b : AppBundle.t) : Cluster := mk {[bundleKey b := b]} ∅ 0.
End fake.

(** ** Go's [sort] package

    [sort.Slice] as the Go releases the operator is built with implement it
    (pattern-defeating quicksort, [zsortfunc.go] since Go 1.19), on a list
    that stands for the slice: [Less] and [Swap] go through indices, as
    [lessSwap] does. An index outside the slice, which makes Go panic and
    which the algorithm never produces, reads as not less and swaps
    nothing. Loops carry the number of rounds they can make at most. *)
Module sort.
Section Slice.
Context {A : Type} (less : A -> A -> bool).

Local Open Scope nat_scope.

Definition Less (data : list A) (i j : nat) : bool :=
  match data !! i, data !! j with
  | Some x, Some y => less x y
  | _, _ => false
  end.

Definition Swap (data : list A) (i j : nat) : list A :=
  match data !! i, data !! j with
  | Some x, Some y => <[i := y]> (<[j := x]> data)
  | _, _ => data
  end.

(** The inner loop of [insertionSort_func]:
    [for j := i; j > a && data.Less(j, j-1); j--]. *)
Fixpoint sink (rounds : nat) (data : list A) (a j : nat) : list A :=
  match rounds with
  | O => data
  | S rounds =>
      if (a <? j) && Less data j (j - 1)
      then sink rounds (Swap data j (j - 1)) a (j - 1)
      else data
  end.

(** Its outer loop: [for i := a + 1; i < b; i++]. *)
Fixpoint insertionFrom (rounds : nat) (data : list A) (a i b : nat) : list A :=
  match rounds with
  | O => data
  | S rounds =>
      if i <? b then insertionFrom rounds (sink (i - a) data a i) a (i + 1) b
      else data
  end.

(** insertionSort_func sorts data[a:b] using insertion sort. *)
Definition insertionSort_func (data : list A) (a b : nat) : list A :=
  insertionFrom (b - a) data a (a + 1) b.

(** siftDown_func implements the heap property on data[lo:hi]. *)
Fixpoint siftDown_func (rounds : nat) (data : list A) (root hi first : nat) : list A :=
  match rounds with
  | O => data
  | S rounds =>
      let child := 2 * root + 1 in
      if hi <=? child then data
      else
        let child :=
          if (child + 1 <? hi) && Less data (first + child) (first + child + 1)
          then child + 1 else child in
        if negb (Less data (first + root) (first + child)) then data
        else siftDown_func rounds (Swap data (first + root) (first + child)) child hi first
  end.

(** The indices [n-1, ..., 0] of a loop [for i := n - 1; i >= 0; i--]. *)
Definition down (n : nat) : list nat := rev (seq 0 n).

Definition heapSort_func (data : list A) (a b : nat) : list A :=
  let first := a in
  let lo := 0 in
  let hi := b - a in
  (* Build heap with greatest element at top. *)
  let data :=
    fold_left (fun data i => siftDown_func hi data i hi first)
              (down ((hi - 1) / 2 + 1)) data in
  (* Pop elements, largest first, into end of data. *)
  fold_left (fun data i => siftDown_func hi (Swap data first (first + i)) lo i first)
            (down hi) data.

(** The two scans of [partition_func]: [for i <= j && data.Less(i, a)] and
    [for i <= j && !data.Less(j, a)]. *)
Fixpoint scanUp (rounds : nat) (data : list A) (a i j : nat) : nat :=
  match rounds with
  | O => i
  | S rounds => if (i <=? j) && Less data i a then scanUp rounds data a (i + 1) j else i
  end.

Fixpoint scanDown (rounds : nat) (data : list A) (a i j : nat) : nat :=
  match rounds with
  | O => j
  | S rounds =>
      if (i <=? j) && negb (Less data j a) then scanDown rounds data a i (j - 1) else j
  end.

(** The [for] loop of [partition_func]; the result is the slice and [j]. *)
Fixpoint partitionLoop (rounds : nat) (data : list A) (a i j : nat) : list A * nat :=
  match rounds with
  | O => (data, j)
  | S rounds =>
      let i := scanUp (S (j - i)) data a i j in
      let j := scanDown (S (j - i)) data a i j in
      if j <? i then (data, j)
      else partitionLoop rounds (Swap data i j) a (i + 1) (j - 1)
  end.

(** partition_func does one quicksort partition: with [p = data[pivot]], it
    moves the elements of data[a:b] so that data[i] < p and data[j] >= p for
    i < newpivot and j > newpivot, and data[newpivot] = p. *)
Definition partition_func (data : list A) (a b pivot : nat) : list A * nat * bool :=
  let data := Swap data a pivot in
  let i := a + 1 in
  let j := b - 1 in
  let i := scanUp (S (j - i)) data a i j in
  let j := scanDown (S (j - i)) data a i j in
  if j <? i then (Swap data j a, j, true)
  else
    let data := Swap data i j in
    let '(data, j) := partitionLoop (b - a) data a (i + 1) (j - 1) in
    (Swap data j a, j, false).

(** The scans of [partitionEqual_func]. *)
Fixpoint scanUpEqual (rounds : nat) (data : list A) (a i j : nat) : nat :=
  match rounds with
  | O => i
  | S rounds =>
      if (i <=? j) && negb (Less data a i) then scanUpEqual rounds data a (i + 1) j else i
  end.

Fixpoint scanDownEqual (rounds : nat) (data : list A) (a i j : nat) : nat :=
  match rounds with
  | O => j
  | S rounds =>
      if (i <=? j) && Less data a j then scanDownEqual rounds data a i (j - 1) else j
  end.

Fixpoint partitionEqualLoop (rounds : nat) (data : list A) (a i j : nat) : list A * nat :=
  match rounds with
  | O => (data, i)
  | S rounds =>
      let i := scanUpEqual (S (j - i)) data a i j in
      let j := scanDownEqual (S (j - i)) data a i j in
      if j <? i then (data, i)
      else partitionEqualLoop rounds (Swap data i j) a (i + 1) (j - 1)
  end.

(** partitionEqual_func partitions data[a:b] into elements equal to
    data[pivot] followed by elements greater than data[pivot]. *)
Definition partitionEqual_func (data : list A) (a b pivot : nat) : list A * nat :=
  let data := Swap data a pivot in
  partitionEqualLoop (S (b - a)) data a (a + 1) (b - 1).

(** The loop [for i < b && !data.Less(i, i-1)] of [partialInsertionSort_func]. *)
Fixpoint skipOrdered (rounds : nat) (data : list A) (i b : nat) : nat :=
  match rounds with
  | O => i
  | S rounds =>
      if (i <? b) && negb (Less data i (i - 1)) then skipOrdered rounds data (i + 1) b else i
  end.

(** [for j := i - 1; j >= 1; j--]: shift the smaller one to the left. *)
Fixpoint shiftLeft (rounds : nat) (data : list A) (j : nat) : list A :=
  match rounds with
  | O => data
  | S rounds =>
      if 1 <=? j then
        if negb (Less data j (j - 1)) then data
        else shiftLeft rounds (Swap data j (j - 1)) (j - 1)
      else data
  end.

(** [for j := i + 1; j < b; j++]: shift the greater one to the right. *)
Fixpoint shiftRight (rounds : nat) (data : list A) (j b : nat) : list A :=
  match rounds with
  | O => data
  | S rounds =>
      if j <? b then
        if negb (Less data j (j - 1)) then data
        else shiftRight rounds (Swap data j (j - 1)) (j + 1) b
      else data
  end.

(** The loop [for j := 0; j < maxSteps; j++] of [partialInsertionSort_func]. *)
Fixpoint partialSteps (steps : nat) (data : list A) (a i b : nat) : list A * bool :=
  match steps with
  | O => (data, false)
  | S steps =>
      let i := skipOrdered (b - i) data i b in
      if i =? b then (data, true)
      else if b - a <? 50 (* shortestShifting *) then (data, false)
      else
        let data := Swap data i (i - 1) in
        let data := if 2 <=? i - a then shiftLeft i data (i - 1) else data in
        let data := if 2 <=? b - i then shiftRight (b - i) data (i + 1) b else data in
        partialSteps steps data a i b
  end.

(** partialInsertionSort_func partially sorts a slice, returns true if the
    slice is sorted at the end. *)
Definition partialInsertionSort_func (data : list A) (a b : nat) : list A * bool :=
  partialSteps 5 (* maxSteps *) data a (a + 1) b.

(** xorshift, on [uint64]. *)
Definition xorshift_Next (r : Z) : Z :=
  let r := Z.lxor r ((Z.shiftl r 13) mod 2 ^ 64) in
  let r := Z.lxor r (Z.shiftr r 7) in
  Z.lxor r ((Z.shiftl r 17) mod 2 ^ 64).

(** [bits.Len] *)
Definition bits_Len (x : nat) : nat :=
  match x with
  | O => 0
  | _ => S (Nat.log2 x)
  end.

Definition nextPowerOfTwo (length : nat) : nat := 2 ^ bits_Len length.

(** breakPatterns_func scatters some elements around in an attempt to break
    some patterns that might cause imbalanced partitions in quicksort. *)
Definition breakPatterns_func (data : list A) (a b : nat) : list A :=
  let length := b - a in
  if 8 <=? length then
    let modulus := nextPowerOfTwo length in
    let idx := a + (length / 4) * 2 - 1 in
    let step := fun '(data, random) (i : nat) =>
      let random := xorshift_Next random in
      let other := Z.to_nat (Z.land random (Z.of_nat modulus - 1)) in
      let other := if length <=? other then other - length else other in
      (Swap data (idx - 1 + i) (a + other), random) in
    fst (fold_left step [0; 1; 2] (data, Z.of_nat length))
  else data.

Inductive sortedHint := unknownHint | increasingHint | decreasingHint.

(** order2_func returns x, y where data[x] <= data[y], where x, y = a, b or
    x, y = b, a. *)
Definition order2_func (data : list A) (a b swaps : nat) : nat * nat * nat :=
  if Less data b a then (b, a, swaps + 1) else (a, b, swaps).

(** median_func returns x where data[x] is the median of data[a], data[b],
    data[c], where x is a, b, or c. *)
Definition median_func (data : list A) (a b c swaps : nat) : nat * nat :=
  let '(a, b, swaps) := order2_func data a b swaps in
  let '(b, c, swaps) := order2_func data b c swaps in
  let '(a, b, swaps) := order2_func data a b swaps in
  (b, swaps).

(** medianAdjacent_func finds the median of data[a - 1], data[a],
    data[a + 1]. *)
Definition medianAdjacent_func (data : list A) (a swaps : nat) : nat * nat :=
  median_func data (a - 1) a (a + 1) swaps.

(** choosePivot_func chooses a pivot in data[a:b]: a static pivot below 8
    elements, the median of three below 50, the Tukey ninther from there. *)
Definition choosePivot_func (data : list A) (a b : nat) : nat * sortedHint :=
  let l := b - a in
  let swaps := 0 in
  let i := a + l / 4 * 1 in
  let j := a + l / 4 * 2 in
  let k := a + l / 4 * 3 in
  let '(j, swaps) :=
    if 8 <=? l then
      let '(i, j, k, swaps) :=
        if 50 (* shortestNinther *) <=? l then
          let '(i, swaps) := medianAdjacent_func data i swaps in
          let '(j, swaps) := medianAdjacent_func data j swaps in
          let '(k, swaps) := medianAdjacent_func data k swaps in
          (i, j, k, swaps)
        else (i, j, k, swaps) in
      median_func data i j k swaps
    else (j, swaps) in
  if swaps =? 0 then (j, increasingHint)
  else if swaps =? 4 * 3 (* maxSwaps *) then (j, decreasingHint)
  else (j, unknownHint).

(** [for i < j { data.Swap(i, j); i++; j-- }] *)
Fixpoint reverseLoop (rounds : nat) (data : list A) (i j : nat) : list A :=
  match rounds with
  | O => data
  | S rounds => if i <? j then reverseLoop rounds (Swap data i j) (i + 1) (j - 1) else data
  end.

Definition reverseRange_func (data : list A) (a b : nat) : list A :=
  reverseLoop (b - a) data a (b - 1).

Definition isIncreasing (hint : sortedHint) : bool :=
  match hint with increasingHint => true | _ => false end.

(** pdqsort_func sorts data[a:b]: the [for] loop, entered with the flags
    [wasBalanced] and [wasPartitioned]; [limit] is the number of allowed bad
    pivots before falling back to heapsort. *)
Fixpoint pdqsort_loop (rounds : nat) (data : list A) (a b limit : nat)
    (wasBalanced wasPartitioned : bool) : list A :=
  match rounds with
  | O => data
  | S rounds =>
    let length := b - a in
    if length <=? 12 (* maxInsertion *) then insertionSort_func data a b
    else if limit =? 0 then
      (* Fall back to heapsort if too many bad choices were made. *)
      heapSort_func data a b
    else
      (* If the last partitioning was imbalanced, we need to breakPatterns. *)
      let '(data, limit) :=
        if negb wasBalanced then (breakPatterns_func data a b, limit - 1)
        else (data, limit) in
      let '(pivot, hint) := choosePivot_func data a b in
      let '(data, pivot, hint) :=
        match hint with
        | decreasingHint =>
            (reverseRange_func data a b, (b - 1) - (pivot - a), increasingHint)
        | _ => (data, pivot, hint)
        end in
      (* The slice is likely already sorted. *)
      let '(data, sorted) :=
        if wasBalanced && wasPartitioned && isIncreasing hint
        then partialInsertionSort_func data a b
        else (data, false) in
      if sorted then data
      else if (0 <? a) && negb (Less data (a - 1) pivot) then
        (* Probably the slice contains many duplicate elements. *)
        let '(data, mid) := partitionEqual_func data a b pivot in
        pdqsort_loop rounds data mid b limit wasBalanced wasPartitioned
      else
        let '(data, mid, alreadyPartitioned) := partition_func data a b pivot in
        let wasPartitioned := alreadyPartitioned in
        let leftLen := mid - a in
        let rightLen := b - mid in
        let balanceThreshold := length / 8 in
        if leftLen <? rightLen then
          let wasBalanced := balanceThreshold <=? leftLen in
          let data := pdqsort_loop rounds data a mid limit true true in
          pdqsort_loop rounds data (mid + 1) b limit wasBalanced wasPartitioned
        else
          let wasBalanced := balanceThreshold <=? rightLen in
          let data := pdqsort_loop rounds data (mid + 1) b limit true true in
          pdqsort_loop rounds data a mid limit wasBalanced wasPartitioned
  end.

Definition pdqsort_func (data : list A) (a b limit : nat) : list A :=
  pdqsort_loop (S (b - a)) data a b limit true true.
End Slice.

(** Slice sorts the slice x given the provided less function. *)
Definition Slice (A : Type) (less : A -> A -> bool) (x : list A) : list A :=
  let length := List.length x in
  let limit := bits_Len length in
  pdqsort_func less x 0 length limit.
End sort.

(** ** Stand-ins for the libraries, to run the controller *)

Module demo.
(** Insertion sort as Go's [sort] package writes it (and uses it for short
    slices), on a list: each element in turn moves left past the elements
    it is less than. *)
Fixpoint insert {A} (less : A -> A -> bool) (x : A) (sortedRev : list A) : list A :=
  match sortedRev with
  | [] => [x]
  | y :: rest => if less x y then y :: insert less x rest else x :: sortedRev
  end.

(** [sortedRev] holds the sorted prefix, last element first. *)
Fixpoint insertionSortFrom {A} (less : A -> A -> bool) (sortedRev l : list A) : list A :=
  match l with
  | [] => rev sortedRev
  | x :: rest => insertionSortFrom less (insert less x sortedRev) rest
  end.

Definition insertionSort (A : Type) (less : A -> A -> bool) (l : list A) : list A :=
  insertionSortFrom less [] l.

(** A decoder for manifests written as [apiVersion|kind|namespace|name],
    standing in for [json.Unmarshal]; anything else is a syntax error. *)
Fixpoint fields (cur : string) (s : string) : list string :=
  match s with
  | EmptyString => [cur]
  | String c rest =>
      if Ascii.eqb c "|"%char then cur :: fields "" rest
      else fields (cur ++ String c EmptyString) rest
  end.

Definition decode (raw : list Byte.byte) : error.t + Unstructured.t :=
  match fields "" (string_of_list_byte raw) with
  | [apiVersion; kind; namespace; name] =>
      if kind =? "" then inl (error.mk "Object 'Kind' is missing" false)
      else inr (Unstructured.mk apiVersion kind name namespace ∅ ∅ "" [] [] "")
  | _ => inl (error.mk "invalid character looking for beginning of value" false)
  end.

Definition manifest (s : string) : list Byte.byte := list_byte_of_string s.

Definition run {A} (m : M fake.Cluster A) (c : fake.Cluster) : A * St fake.Cluster :=
  m (mkSt c []).

Definition Reconcile :=
  Reconcile (W := fake.Cluster) decode insertionSort controllerutil.SetControllerReference.
Definition reconcileComponent :=
  reconcileComponent (W := fake.Cluster) decode controllerutil.SetControllerReference.
Definition emptyStatus : AppBundleStatus.t := AppBundleStatus.mk "" "" [] 0 [].

Definition bundle (name namespace : string) (finalizers : list string)
    (deletion : option Time) (porch : option PorchIntegrationSpec.t)
    (groups : list Group.t) : AppBundle.t :=
  AppBundle.mk (ObjectMeta.mk name namespace "uid-1" 1 finalizers deletion)
               (AppBundleSpec.mk groups porch) emptyStatus.

Definition component (name : string) (order : Z) (template : string) : Component.t :=
  Component.mk name order (manifest template) None.

Definition req (b : AppBundle.t) : NamespacedName.t :=
  NamespacedName.mk (AppBundle.Namespace b) (AppBundle.Name b).
End demo.

(** Scenario A of the specification: a Namespace in group 0 and a Deployment
    in group 1. *)
Module scenarioA.
Definition b : AppBundle.t :=
  demo.bundle "shop" "default" [] None None
    [ Group.mk "application" 1 [demo.component "web" 0 "apps/v1|Deployment||web"];
      Group.mk "infrastructure" 0 [demo.component "ns" 0 "v1|Namespace||shop"] ].

Definition pass1 := demo.run (demo.Reconcile 1000 (demo.req b)) (fake.holding b).
End scenarioA.

(** ** Sync waves *)

(** The wave [reconcileGroup] and [reconcileComponent] compute between them
    for a component of a group: [baseSyncWave := group.Order * 100], then
    [syncWave := baseSyncWave + component.Order]. *)
Definition syncWave (group : Group.t) (component : Component.t) : Z :=
  GoInt.add (GoInt.mul (Group.Order group) 100) (Component.Order component).

(** Every wave of [g1] is below every wave of [g2]. *)
Definition wavesSeparated (g1 g2 : Group.t) : Prop :=
  forall c1 c2,
    In c1 (Group.Components g1) -> In c2 (Group.Components g2) ->
    syncWave g1 c1 < syncWave g2 c2.

Definition ordersBelow100 (g : Group.t) : Prop :=
  forall c, In c (Group.Components g) -> 0 <= Component.Order c < 100.

Module waves.
(** One component each; the first group's component has order 100. *)
Definition g1 : Group.t := Group.mk "first" 0 [demo.component "late" 100 "v1|ConfigMap||a"].
Definition g2 : Group.t := Group.mk "second" 1 [demo.component "early" 0 "v1|ConfigMap||b"].
(** Orders as the documentation uses them. *)
Definition g3 : Group.t :=
  Group.mk "third" 2 [demo.component "x" 3 "v1|ConfigMap||x";
                      demo.component "y" 99 "v1|ConfigMap||y"].
Definition g10 : Group.t := Group.mk "tenth" 10 [demo.component "z" 1 "v1|ConfigMap||z"].
End waves.

(** ** The steps of [reconcileComponent], named *)

(** What [reconcileComponent] does to the parsed manifest before the owner
    reference: the sync wave annotation, the tracking labels, the namespace
    defaulted to the bundle's. The resolved namespace is the namespace of
    the result. *)
Definition decorate (appBundle : AppBundle.t) (group : Group.t)
    (component : Component.t) (baseSyncWave : Z) (obj : Unstructured.t)
    : Unstructured.t :=
  let obj :=
    Unstructured.SetAnnotations
      (<[argoSyncWaveAnnotation :=
           GoInt.Itoa (GoInt.add baseSyncWave (Component.Order component))]>
         (Unstructured.Annotations obj)) obj in
  let obj :=
    Unstructured.SetLabels
      (<["app.example.com/component" := Component.Name component]>
         (<["app.example.com/group" := Group.Name group]>
            (<["app.example.com/appbundle" := AppBundle.Name appBundle]>
               (Unstructured.Labels obj)))) obj in
  if (Unstructured.Namespace obj =? "") && negb (AppBundle.Namespace appBundle =? "")
  then Unstructured.SetNamespace (AppBundle.Namespace appBundle) obj
  else obj.

Definition initialStatus (component : Component.t) : ComponentStatus.t :=
  ComponentStatus.mk (Component.Name component) PhaseDeploying "" None.

Section Apply.
Context {W : Type} `{!Client W}.

(** "Create or update the resource" and what follows it. *)
Definition applyObject (obj : Unstructured.t) (componentStatus : ComponentStatus.t)
    : M W (ComponentStatus.t * option error.t) :=
  let! existing := r_Get (Unstructured.GroupVersionKind obj) (Unstructured.Key obj) in
  match existing with
  | inl err =>
    if error.IsNotFound err then
      let! created := r_Create obj in
      match created with
      | inl err => ret (failedWith "Failed to create resource: " err componentStatus)
      | inr obj => ret (deployedWith obj componentStatus)
      end
    else ret (failedWith "Failed to get existing resource: " err componentStatus)
  | inr existingObj =>
    let obj :=
      Unstructured.SetResourceVersion (Unstructured.ResourceVersion existingObj) obj in
    let! updated := r_Update obj in
    match updated with
    | inl err => ret (failedWith "Failed to update resource: " err componentStatus)
    | inr obj => ret (deployedWith obj componentStatus)
    end
  end.

(** The probe for [obj] on the cluster [w]. *)
Definition probe (obj : Unstructured.t) (w : W) : error.t + Unstructured.t :=
  Get (Unstructured.GroupVersionKind obj) (Unstructured.Key obj) w.

(** The outcome of a probe and a write that both succeed on [w]: the write
    made, the object as stored, the cluster after it. *)
Definition appliedOn (obj : Unstructured.t) (w : W)
    : option (Call * Unstructured.t * W) :=
  match probe obj w with
  | inl err =>
      if error.IsNotFound err then
        match Create obj w with
        | (inr stored, w') => Some (CallCreate obj, stored, w')
        | (inl _, _) => None
        end
      else None
  | inr existingObj =>
      let obj :=
        Unstructured.SetResourceVersion (Unstructured.ResourceVersion existingObj) obj in
      match Update obj w with
      | (inr stored, w') => Some (CallUpdate obj, stored, w')
      | (inl _, _) => None
      end
  end.
End Apply.

Definition jobComplete (o : Unstructured.t) : Prop :=
  In ("Complete", "True") (Unstructured.StatusConditions o).

Definition hasController (owner : ObjectMeta.t) (o : Unstructured.t) : Prop :=
  In (controllerutil.controllerRef owner) (Unstructured.OwnerReferences o).

(** ** Bundles to run *)

Definition phasesOf (b : AppBundle.t) : list (string * list (string * string)) :=
  map (fun g => (GroupStatus.Phase g,
                 map (fun c => (ComponentStatus.Name c, ComponentStatus.Phase c))
                     (GroupStatus.ComponentStatuses g)))
      (AppBundleStatus.GroupStatuses (AppBundle.Status b)).

Definition isGet (c : Call) : bool :=
  match c with CallGet _ _ _ => true | _ => false end.

Definition writtenKinds (log : list Call) : list string :=
  flat_map (fun c => match c with
                     | CallCreate o | CallUpdate o => [Unstructured.Kind o]
                     | _ => []
                     end) log.

(** A bundle with one Job. *)
Module jobs.
Definition c : Component.t := demo.component "migrate" 0 "batch/v1|Job||migrate".
Definition g : Group.t := Group.mk "jobs" 0 [c].
Definition b : AppBundle.t := demo.bundle "batch" "default" [] None None [g].
Definition pass := demo.run (demo.Reconcile 1000 (demo.req b)) (fake.holding b).
Definition jobKey : NamespacedName.t := NamespacedName.mk "default" "migrate".
Definition jobGVK : GroupVersionKind.t := GroupVersionKind.mk "batch/v1" "Job".
End jobs.

(** A bundle with package integration enabled and a component that
    references a package. *)
Module packaged.
Definition c : Component.t :=
  Component.mk "db" 0 (demo.manifest "v1|ConfigMap||db-config")
    (Some (PorchPackageReference.mk "mongodb" "porch" "v1")).
Definition g : Group.t := Group.mk "database" 1 [c].
Definition b : AppBundle.t :=
  demo.bundle "shop" "default" [appBundleFinalizer] None
    (Some (PorchIntegrationSpec.mk true "deployments")) [g].
Definition pass := demo.run (demo.Reconcile 1000 (demo.req b)) (fake.holding b).
End packaged.

(** Scenario D of the specification: a Namespace and a Deployment are
    deployed, then the bundle is marked for deletion. *)
Module deletion.
Definition live : AppBundle.t :=
  demo.bundle "shop" "default" [] None None
    [ Group.mk "infrastructure" 0 [demo.component "ns" 0 "v1|Namespace||shop"];
      Group.mk "application" 1 [demo.component "web" 0 "apps/v1|Deployment||web"] ].

Definition deployed : fake.Cluster :=
  world (snd (demo.run (demo.Reconcile 1000 (demo.req live)) (fake.holding live))).

(** What the server does on a delete request while finalizers remain. *)
Definition markDeleted (t : Time) (key : string * string) (c : fake.Cluster)
    : fake.Cluster :=
  fake.mk
    (alter (fun b =>
              AppBundle.withMeta
                (ObjectMeta.mk (AppBundle.Name b) (AppBundle.Namespace b)
                   (ObjectMeta.UID (AppBundle.Meta b)) (AppBundle.Generation b)
                   (ObjectMeta.Finalizers (AppBundle.Meta b)) (Some t)) b)
           key (fake.bundles c))
    (fake.objects c) (fake.revision c).

Definition deleting : fake.Cluster := markDeleted 1500 ("default", "shop") deployed.
Definition pass := demo.run (demo.Reconcile 2000 (demo.req live)) deleting.
Definition nsKey : NamespacedName.t := NamespacedName.mk "default" "shop".
Definition nsGVK : GroupVersionKind.t := GroupVersionKind.mk "v1" "Namespace".
End deletion.

(** A bundle whose second group holds a template that does not parse,
    between two that do; a third group follows. *)
Module broken.
Definition good1 : Component.t := demo.component "config" 0 "v1|ConfigMap||settings".
Definition bad : Component.t := demo.component "oops" 1 "{not a manifest".
Definition good2 : Component.t := demo.component "web" 2 "apps/v1|Deployment||web".
Definition g0 : Group.t :=
  Group.mk "infrastructure" 0 [demo.component "ns" 0 "v1|Namespace||shop"].
Definition g1 : Group.t := Group.mk "application" 1 [good2; bad; good1].
Definition g2 : Group.t :=
  Group.mk "routing" 2 [demo.component "ingress" 0 "networking.k8s.io/v1|Ingress||web"].
Definition b : AppBundle.t :=
  demo.bundle "shop" "default" [appBundleFinalizer] None None [g2; g1; g0].
Definition s0 : St fake.Cluster := mkSt (fake.holding b) [].
Definition deploy :=
  deployGroups (W := fake.Cluster) demo.decode demo.insertionSort
    controllerutil.SetControllerReference 1000 b s0.
End broken.

(** ** The pass, looked at from outside *)

(** A call on a component's object. *)
Definition objectCall (c : Call) : Prop :=
  match c with
  | CallGet _ _ _ | CallCreate _ | CallUpdate _ => True
  | _ => False
  end.

(** What a call of a pass over a live bundle may be once the finalizer is in
    place, [fin] being the bundle with it: a probe, a create or an update of
    an object, or a write of the status sub-resource that carries the spec
    and the metadata of [fin]; never a fetch, an update of the bundle object
    or a delete. *)
Definition afterFinalizer (fin : AppBundle.t) (c : Call) : Prop :=
  match c with
  | CallGet _ _ _ | CallCreate _ | CallUpdate _ => True
  | CallStatusUpdate x =>
      AppBundle.Spec x = AppBundle.Spec fin /\ AppBundle.Meta x = AppBundle.Meta fin
  | CallGetBundle _ | CallUpdateBundle _ | CallDelete _ => False
  end.

(** The observed generation and the conditions of [st] are those of the
    fetched bundle [b], carried over or updated: the observed generation is
    the one fetched, or the bundle's generation once the phase is Deployed;
    the conditions are those fetched, or those with the Ready condition set
    at [now] for the bundle's generation. *)
Definition carriedOver (now : Time) (b : AppBundle.t) (st : AppBundleStatus.t) : Prop :=
  (AppBundleStatus.ObservedGeneration st
     = AppBundleStatus.ObservedGeneration (AppBundle.Status b)
   \/ AppBundleStatus.Phase st = PhaseDeployed
      /\ AppBundleStatus.ObservedGeneration st = AppBundle.Generation b)
  /\ (AppBundleStatus.Conditions st = AppBundleStatus.Conditions (AppBundle.Status b)
      \/ exists status reason message,
           AppBundleStatus.Conditions st
           = meta.SetStatusCondition now (AppBundleStatus.Conditions (AppBundle.Status b))
               (Condition.mk "Ready" status reason message (AppBundle.Generation b) 0)).

Definition onlyStatusWritten (log : list Call) : Prop :=
  Forall (fun c => match c with CallUpdateBundle _ => False | _ => True end) log.

(** The bundle with its previous phase, message and group statuses replaced. *)
Definition withPrevious (p : DeploymentPhase) (m : string) (gs : list GroupStatus.t)
    (b : AppBundle.t) : AppBundle.t :=
  AppBundle.withStatus
    (AppBundleStatus.mk p m gs
       (AppBundleStatus.ObservedGeneration (AppBundle.Status b))
       (AppBundleStatus.Conditions (AppBundle.Status b))) b.

Definition appendGroupStatuses (sts : list GroupStatus.t) (b : AppBundle.t) : AppBundle.t :=
  AppBundle.mapStatus
    (fun st => AppBundleStatus.withGroupStatuses
                 (AppBundleStatus.GroupStatuses st ++ sts) st) b.

Section Collect.
Context {W : Type} `{!Client W}.
Variable json_Unmarshal : list Byte.byte -> error.t + Unstructured.t.
Variable sort_Slice : forall A : Type, (A -> A -> bool) -> list A -> list A.
Variable SetControllerReference :
  ObjectMeta.t -> Unstructured.t -> error.t + Unstructured.t.

(** The group statuses the loop of [Reconcile] appends, in order, and the
    error it is left with. *)
Fixpoint collectGroupStatuses (appBundle : AppBundle.t) (sortedGroups : list Group.t)
    : M W (list GroupStatus.t * option error.t) :=
  match sortedGroups with
  | [] => ret ([], None)
  | group :: rest =>
    let! (groupStatus, err) :=
      reconcileGroup json_Unmarshal sort_Slice SetControllerReference appBundle group in
    match err with
    | Some err => ret ([groupStatus], Some err)
    | None =>
      let! (statuses, err) := collectGroupStatuses appBundle rest in
      ret (groupStatus :: statuses, err)
    end
  end.
End Collect.

(** ** Processing order *)

(** What the documentation of [sort.Slice] promises for a comparison by an
    integer key: the result is a rearrangement of the slice in which no
    element is followed by one of a smaller key. The order of elements of
    equal key is left open ("not guaranteed to be stable"). *)
Definition sortContract
    (sort_Slice : forall A : Type, (A -> A -> bool) -> list A -> list A) : Prop :=
  forall (A : Type) (key : A -> Z) (l : list A),
    let sorted := sort_Slice A (fun a b => (key a <? key b)%Z) l in
    Permutation sorted l
    /\ StronglySorted (fun a b => key a <= key b) sorted.

(** [all] is [l] rearranged by ascending key. *)
Definition ascendingBy {A} (key : A -> Z) (l all : list A) : Prop :=
  Permutation all l /\ StronglySorted (fun a b => key a <= key b) all.

(** The component statuses of [st] are those of the components of [g], taken
    by ascending order, up to the one the group stopped at. *)
Definition processedGroup (g : Group.t) (st : GroupStatus.t) : Prop :=
  GroupStatus.Name st = Group.Name g
  /\ exists processed rest,
       ascendingBy Component.Order (Group.Components g) (processed ++ rest)
       /\ map ComponentStatus.Name (GroupStatus.ComponentStatuses st)
          = map Component.Name processed
       /\ (GroupStatus.Phase st = PhaseDeployed -> rest = []).

(** The group statuses of [status] are those of the groups of the bundle,
    taken by ascending order, up to the one the pass stopped at. *)
Definition processedInOrder (groups : list Group.t) (status : AppBundleStatus.t) : Prop :=
  exists processed rest,
    ascendingBy Group.Order groups (processed ++ rest)
    /\ Forall2 processedGroup processed (AppBundleStatus.GroupStatuses status)
    /\ (AppBundleStatus.Phase status = PhaseDeployed -> rest = []).

(** Thirteen groups of one component each: twelve of order 1, then one of
    order 0. *)
Module thirteen.
Definition group (name : string) (order : Z) : Group.t :=
  Group.mk name order [demo.component "c" 0 ("v1|ConfigMap||" ++ name)].
Definition groups : list Group.t :=
  map (fun name => group name 1)
      ["g01"; "g02"; "g03"; "g04"; "g05"; "g06"; "g07"; "g08"; "g09"; "g10"; "g11"; "g12"]
  ++ [group "g13" 0].
Definition bundle : AppBundle.t :=
  demo.bundle "thirteen" "default" [appBundleFinalizer] None None groups.
Definition s0 : St fake.Cluster := mkSt (fake.holding bundle) [].
Definition deploy :=
  deployGroups (W := fake.Cluster) demo.decode sort.Slice
    controllerutil.SetControllerReference 1000 bundle s0.
Definition processed (b : AppBundle.t) : list string :=
  map GroupStatus.Name (AppBundleStatus.GroupStatuses (AppBundle.Status b)).
End thirteen.

(** The log of [s'] is the log of [s] and then calls that all satisfy [P]. *)
Definition grownBy {W} (P : Call -> Prop) (s s' : St W) : Prop :=
  exists l, calls s' = (calls s ++ l)%list /\ Forall P l.

(** A call of the deployment of [b]: on an object, or a status update that
    carries the spec and the metadata of [b]. *)
Definition deployCall (b : AppBundle.t) (c : Call) : Prop :=
  objectCall c
  \/ exists x, c = CallStatusUpdate x
               /\ AppBundle.Spec x = AppBundle.Spec b
               /\ AppBundle.Meta x = AppBundle.Meta b.

(** ** A second pass *)

Section Redeploy.
Context {W : Type} `{!Client W}.
Variable json_Unmarshal : list Byte.byte -> error.t + Unstructured.t.
Variable sort_Slice : forall A : Type, (A -> A -> bool) -> list A -> list A.
Variable SetControllerReference :
  ObjectMeta.t -> Unstructured.t -> error.t + Unstructured.t.

(** The object [reconcileComponent] probes for and applies, when the
    template parses and the owner reference is accepted. *)
Definition desired (appBundle : AppBundle.t) (group : Group.t) (component : Component.t)
    : option Unstructured.t :=
  match json_Unmarshal (Component.Template component) with
  | inl _ => None
  | inr parsed =>
      match SetControllerReference (AppBundle.Meta appBundle)
              (decorate appBundle group component
                 (GoInt.mul (Group.Order group) 100) parsed) with
      | inl _ => None
      | inr obj => Some obj
      end
  end.

(** The components of a bundle in the order a pass takes them. *)
Definition plan (appBundle : AppBundle.t) : list (Group.t * Component.t) :=
  flat_map
    (fun group =>
       map (pair group) (sort_Slice _ componentLess (Group.Components group)))
    (sort_Slice _ groupLess (AppBundleSpec.Groups (AppBundle.Spec appBundle))).

(** The log of a pass that, for each component in turn, probes for its
    object, finds it, and updates it with the resource version found. *)
Inductive updatedInPlace (appBundle : AppBundle.t)
    : list (Group.t * Component.t) -> list Call -> Prop :=
| updatedInPlace_nil : updatedInPlace appBundle [] []
| updatedInPlace_cons group component obj existing todo log :
    desired appBundle group component = Some obj ->
    updatedInPlace appBundle todo log ->
    updatedInPlace appBundle ((group, component) :: todo)
      (CallGet (Unstructured.GroupVersionKind obj) (Unstructured.Key obj) (inr existing)
       :: CallUpdate
            (Unstructured.SetResourceVersion (Unstructured.ResourceVersion existing) obj)
       :: log).

(** A call that writes no object but the template of one of the components
    [todo], decorated and owned (the resource version apart), and deletes
    nothing. *)
Definition writesTemplate (appBundle : AppBundle.t)
    (todo : list (Group.t * Component.t)) (c : Call) : Prop :=
  match c with
  | CallCreate o | CallUpdate o =>
      exists group component obj,
        In (group, component) todo
        /\ desired appBundle group component = Some obj
        /\ Unstructured.SetResourceVersion (Unstructured.ResourceVersion o) obj = o
  | CallDelete _ => False
  | _ => True
  end.
(** The status of a component deployed under the apiVersion, kind, name and
    namespace of the object sent for it, and of a group of such components. *)
Definition deployedComponent (appBundle : AppBundle.t) (group : Group.t)
    (component : Component.t) : ComponentStatus.t :=
  ComponentStatus.mk (Component.Name component) PhaseDeployed
    "Resource deployed successfully"
    (Unstructured.Ref <$> desired appBundle group component).

Definition deployedGroup (appBundle : AppBundle.t) (group : Group.t) : GroupStatus.t :=
  GroupStatus.mk (Group.Name group) PhaseDeployed "All components deployed successfully"
    (map (deployedComponent appBundle group)
         (sort_Slice _ componentLess (Group.Components group))).

(** How a cluster that holds the objects of [todo] answers a pass over them,
    from [w] on: for each component in turn the probe finds an object, and
    the update with the version found is accepted and answered with the
    object under the apiVersion, kind, name and namespace it was sent under.
    [w'] is the cluster after the last update. *)
Inductive inPlace (appBundle : AppBundle.t)
    : list (Group.t * Component.t) -> W -> W -> Prop :=
| inPlace_nil w : inPlace appBundle [] w w
| inPlace_cons group component obj existing answered todo w w1 w' :
    desired appBundle group component = Some obj ->
    probe obj w = inr existing ->
    Update (Unstructured.SetResourceVersion (Unstructured.ResourceVersion existing) obj) w
    = (inr answered, w1) ->
    Unstructured.Ref answered = Unstructured.Ref obj ->
    inPlace appBundle todo w1 w' ->
    inPlace appBundle ((group, component) :: todo) w w'.
End Redeploy.

Module twice.
Definition s1 : St fake.Cluster := snd scenarioA.pass1.
Definition b1 : option AppBundle.t := fst (fst scenarioA.pass1).
Definition pass2 :=
  demo.Reconcile 2000 (demo.req scenarioA.b) (mkSt (world s1) []).
End twice.

(** The sync wave annotations of the objects a log creates, by kind. *)
Definition createdWaves (log : list Call) : list (string * option string) :=
  flat_map (fun c => match c with
                     | CallCreate o =>
                         [(Unstructured.Kind o,
                           Unstructured.Annotations o !! argoSyncWaveAnnotation)]
                     | _ => []
                     end) log.


(** ** The runs above, named step by step *)

Definition found {A} (r : error.t + A) : bool :=
  match r with inr _ => true | inl _ => false end.

Definition notFoundAnswer {A} (r : error.t + A) : bool :=
  match r with inr _ => false | inl err => error.IsNotFound err end.

Definition conditionsOf (r : error.t + Unstructured.t) : option (list (string * string)) :=
  match r with
  | inr o => Some (Unstructured.StatusConditions o)
  | inl _ => None
  end.

Module jobsRun.
Definition s : St fake.Cluster := mkSt (fake.holding jobs.b) [].
Definition parsed : Unstructured.t :=
  Unstructured.mk "batch/v1" "Job" "migrate" "" ∅ ∅ "" [] [] "".
Definition job : Unstructured.t :=
  Unstructured.SetOwnerReferences
    [controllerutil.controllerRef (AppBundle.Meta jobs.b)]
    (decorate jobs.b jobs.g jobs.c 0 parsed).
Definition stored : Unstructured.t := Unstructured.SetResourceVersion "1" job.
Definition after : fake.Cluster := snd (fake.store job (fake.holding jobs.b)).
End jobsRun.

Module brokenRun.
Definition start : AppBundle.t :=
  AppBundle.mapStatus (AppBundleStatus.withGroupStatuses [])
    (AppBundle.mapStatus (AppBundleStatus.withPhase PhaseDeploying) broken.b).
Definition groupsBefore :=
  reconcileGroups (W := fake.Cluster) demo.decode demo.insertionSort
    controllerutil.SetControllerReference start [broken.g0] broken.s0.
Definition b1 : AppBundle.t := fst (fst groupsBefore).
Definition s1 : St fake.Cluster := snd groupsBefore.
Definition componentsBefore :=
  reconcileComponents (W := fake.Cluster) demo.decode
    controllerutil.SetControllerReference b1 broken.g1 100 [broken.good1]
    (GroupStatus.mk "application" PhaseDeploying "" []) s1.
Definition gs1 : GroupStatus.t := fst (fst componentsBefore).
Definition s2 : St fake.Cluster := snd componentsBefore.
Definition err : error.t :=
  error.mk "invalid character looking for beginning of value" false.
Definition cst : ComponentStatus.t :=
  ComponentStatus.mk "oops" PhaseFailed
    "Failed to parse template: invalid character looking for beginning of value" None.
End brokenRun.

Module deletionRun.
Definition fetched : AppBundle.t :=
  match fake.getBundle (demo.req deletion.live) deletion.deleting with
  | inr b => b
  | inl _ => deletion.live
  end.
End deletionRun.

Module twiceRun.
Definition deployed : AppBundle.t := default scenarioA.b twice.b1.
End twiceRun.

(** The basic example of the README: a bundle in namespace [default] that
    creates the namespace [my-app] and deploys a ConfigMap and a Deployment
    into it. *)
Module readme.
Definition namespace : Component.t := demo.component "namespace" 0 "v1|Namespace||my-app".
Definition configmap : Component.t :=
  demo.component "configmap" 1 "v1|ConfigMap|my-app|app-config".
Definition deployment : Component.t :=
  demo.component "deployment" 0 "apps/v1|Deployment|my-app|my-app".
Definition infrastructure : Group.t := Group.mk "infrastructure" 0 [namespace; configmap].
Definition application : Group.t := Group.mk "application" 1 [deployment].
Definition b : AppBundle.t :=
  demo.bundle "my-app" "default" [] None None [infrastructure; application].
Definition pass := demo.run (demo.Reconcile 1000 (demo.req b)) (fake.holding b).
Definition parsed : Unstructured.t :=
  Unstructured.mk "v1" "ConfigMap" "app-config" "my-app" ∅ ∅ "" [] [] "".
Definition run :=
  demo.run (demo.reconcileComponent b infrastructure configmap 0) (fake.holding b).
Definition bundlePhase (r : option AppBundle.t) : option DeploymentPhase :=
  option_map (fun b => AppBundleStatus.Phase (AppBundle.Status b)) r.
End readme.

(** ** The outcome of a deployment, as recorded *)

(** The prefixes [reconcileComponent] puts before an error in a message. *)
Definition failurePrefixes : list string :=
  ["Failed to parse template: "; "Failed to set owner reference: ";
   "Failed to get existing resource: "; "Failed to create resource: ";
   "Failed to update resource: "].

Definition componentDeployed (st : ComponentStatus.t) : Prop :=
  ComponentStatus.Phase st = PhaseDeployed
  /\ ComponentStatus.Message st = "Resource deployed successfully"
  /\ is_Some (ComponentStatus.ResourceRef st).

Definition componentFailed (msg : string) (st : ComponentStatus.t) : Prop :=
  ComponentStatus.Phase st = PhaseFailed
  /\ ComponentStatus.ResourceRef st = None
  /\ exists prefix,
       In prefix failurePrefixes /\ ComponentStatus.Message st = prefix ++ msg.

Definition groupDeployed (st : GroupStatus.t) : Prop :=
  GroupStatus.Phase st = PhaseDeployed
  /\ GroupStatus.Message st = "All components deployed successfully"
  /\ Forall componentDeployed (GroupStatus.ComponentStatuses st).

(** A failed group: components deployed up to the one that failed, which is
    the last recorded. *)
Definition groupFailed (msg : string) (st : GroupStatus.t) : Prop :=
  GroupStatus.Phase st = PhaseFailed
  /\ exists deployed failed,
       GroupStatus.ComponentStatuses st = (deployed ++ [failed])%list
       /\ Forall componentDeployed deployed
       /\ componentFailed msg failed
       /\ GroupStatus.Message st
          = "Failed to deploy component " ++ ComponentStatus.Name failed ++ ": " ++ msg.

(** What a deployment leaves as status: all groups deployed, or groups
    deployed up to the one that failed, which is the last recorded. *)
Definition deployedOrFailed (st : AppBundleStatus.t) : Prop :=
  (AppBundleStatus.Phase st = PhaseDeployed
   /\ AppBundleStatus.Message st = "All groups deployed successfully"
   /\ Forall groupDeployed (AppBundleStatus.GroupStatuses st))
  \/ (AppBundleStatus.Phase st = PhaseFailed
      /\ exists deployed failed,
           AppBundleStatus.GroupStatuses st = (deployed ++ [failed])%list
           /\ Forall groupDeployed deployed
           /\ groupFailed (AppBundleStatus.Message st) failed).

(** The phases a log writes to the status sub-resource, oldest first. *)
Definition writtenPhases (log : list Call) : list DeploymentPhase :=
  flat_map (fun c => match c with
                     | CallStatusUpdate b => [AppBundleStatus.Phase (AppBundle.Status b)]
                     | _ => []
                     end) log.


(** The labels [reconcileComponent] sets for tracking. *)
Definition trackingLabels : list string :=
  ["app.example.com/appbundle"; "app.example.com/group"; "app.example.com/component"].

(** The object [o] is the manifest [parsed] of the component [c] of the
    group [g] with the tracking labels and the sync wave annotation set,
    and the other labels and annotations, the apiVersion, the kind and the
    name as the manifest has them. *)
Definition tracked (b : AppBundle.t) (g : Group.t) (c : Component.t)
    (parsed o : Unstructured.t) : Prop :=
  Unstructured.Labels o !! "app.example.com/appbundle" = Some (AppBundle.Name b)
  /\ Unstructured.Labels o !! "app.example.com/group" = Some (Group.Name g)
  /\ Unstructured.Labels o !! "app.example.com/component" = Some (Component.Name c)
  /\ (forall k, ~ In k trackingLabels ->
        Unstructured.Labels o !! k = Unstructured.Labels parsed !! k)
  /\ Unstructured.Annotations o !! argoSyncWaveAnnotation
     = Some (GoInt.Itoa (syncWave g c))
  /\ (forall k, k <> argoSyncWaveAnnotation ->
        Unstructured.Annotations o !! k = Unstructured.Annotations parsed !! k)
  /\ Unstructured.APIVersion o = Unstructured.APIVersion parsed
  /\ Unstructured.Kind o = Unstructured.Kind parsed
  /\ Unstructured.Name o = Unstructured.Name parsed.

(** The object [o] has the bundle as controlling owner and carries, in its
    metadata, the namespace its manifest names, which for a bundle in a
    namespace is the bundle's. *)
Definition ownedInNamespace (b : AppBundle.t) (parsed o : Unstructured.t) : Prop :=
  hasController (AppBundle.Meta b) o
  /\ (Unstructured.Namespace parsed <> "" ->
        Unstructured.Namespace o = Unstructured.Namespace parsed)
  /\ (AppBundle.Namespace b <> "" -> Unstructured.Namespace o = AppBundle.Namespace b).

(** A call that creates or updates no object but one that satisfies [P]
    for the manifest of one of the components [todo], and deletes nothing. *)
Definition writesOnly (json_Unmarshal : list Byte.byte -> error.t + Unstructured.t)
    (P : Group.t -> Component.t -> Unstructured.t -> Unstructured.t -> Prop)
    (todo : list (Group.t * Component.t)) (call : Call) : Prop :=
  match call with
  | CallCreate o | CallUpdate o =>
      exists g c parsed,
        In (g, c) todo
        /\ json_Unmarshal (Component.Template c) = inr parsed
        /\ P g c parsed o
  | CallDelete _ => False
  | _ => True
  end.

(** [meta.FindStatusCondition] *)
Definition FindStatusCondition (conditions : list Condition.t) (conditionType : string)
    : option Condition.t :=
  List.find (fun c => Condition.Type_ c =? conditionType) conditions.

(** A call on one of the bundle's components' objects. *)
Definition touchesObject (c : Call) : bool :=
  match c with
  | CallGet _ _ _ | CallCreate _ | CallUpdate _ | CallDelete _ => true
  | _ => false
  end.


(** The sync waves of components, in the order given. *)
Definition wavesOf (todo : list (Group.t * Component.t)) : list Z :=
  map (fun gc => syncWave (fst gc) (snd gc)) todo.

(** Orders as the API validates and the documentation bounds them: not
    negative, component orders below 100, and the wave within an [int]. *)
Definition ordersInBounds (g : Group.t) : Prop :=
  0 <= Group.Order g
  /\ Group.Order g * 100 + 99 <= GoInt.max_int
  /\ ordersBelow100 g.


(** A bundle marked for deletion that another finalizer keeps, and that
    does not hold the controller's. *)
Module unguarded.
Definition b : AppBundle.t :=
  demo.bundle "shop" "default" ["foregroundDeletion"] (Some 1500) None
    [Group.mk "infrastructure" 0 [demo.component "ns" 0 "v1|Namespace||shop"]].
Definition s : St fake.Cluster := mkSt (fake.holding b) [].
Definition guarded : AppBundle.t := controllerutil.AddFinalizer b appBundleFinalizer.
End unguarded.

(** A request for a bundle the cluster does not hold. *)
Module missing.
Definition req : NamespacedName.t := NamespacedName.mk "default" "gone".
Definition s : St fake.Cluster := mkSt (fake.mk ∅ ∅ 0) [].
End missing.

(** * The controller's later revision: readiness checks and cleanup

    [docs/DEPLOYMENT.md] carries the controller as it is once it waits for
    the resources it applies and deletes them when the bundle goes (the
    first of the two revisions listed there). Its readiness checks read the
    content of an object as [json.Unmarshal] leaves it in
    [Unstructured.Object]; its cleanup works on the types and the client
    above. *)

(** ** k8s.io/apimachinery/pkg/apis/meta/v1/unstructured: nested fields *)

Module unstructured.
(** The values of a [map[string]interface{}] decoded from JSON; a float is
    kept as its bits. *)
#[warnings="-register-all"]
Inductive value :=
| Nil
| Bool (b : bool)
| Int64 (i : Z)
| Float64 (bits : Z)
| Str (s : string)
| Slice (l : list value)
| Map (m : gmap string value).

(** [Unstructured.Object] *)
Abbreviation Object := (gmap string value).

(** [%T] *)
Definition typeName (val : value) : string :=
  match val with
  | Nil => "<nil>"
  | Bool _ => "bool"
  | Int64 _ => "int64"
  | Float64 _ => "float64"
  | Str _ => "string"
  | Slice _ => "[]interface {}"
  | Map _ => "map[string]interface {}"
  end.

Definition jsonPath (fields : list string) : string :=
  "." ++ String.concat "." fields.

Section Accessors.
(** What [fmt] prints for a value under [%v]. *)
Variable Sprint : value -> string.

Definition accessorError (fields : list string) (val : value) (expected : string)
    : error.t :=
  error.mk (jsonPath fields ++ " accessor error: " ++ Sprint val
              ++ " is of the type " ++ typeName val ++ ", expected " ++ expected)
           false.

(** The loop of [NestedFieldNoCopy]: [seen] are the fields already
    followed, [val] is what they led to. The answer is an error, or the
    value when it is found. *)
Fixpoint nestedFrom (val : value) (seen fields : list string)
    : error.t + option value :=
  match fields with
  | [] => inr (Some val)
  | field :: rest =>
      match val with
      | Nil => inr None
      | Map m =>
          match m !! field with
          | Some val => nestedFrom val (seen ++ [field]) rest
          | None => inr None
          end
      | _ => inl (accessorError (seen ++ [field]) val "map[string]interface{}")
      end
  end.

Definition NestedFieldNoCopy (obj : Object) (fields : list string)
    : error.t + option value :=
  nestedFrom (Map obj) [] fields.

Definition NestedInt64 (obj : Object) (fields : list string) : error.t + option Z :=
  match NestedFieldNoCopy obj fields with
  | inl err => inl err
  | inr None => inr None
  | inr (Some (Int64 i)) => inr (Some i)
  | inr (Some val) => inl (accessorError fields val "int64")
  end.

Definition NestedString (obj : Object) (fields : list string)
    : error.t + option string :=
  match NestedFieldNoCopy obj fields with
  | inl err => inl err
  | inr None => inr None
  | inr (Some (Str s)) => inr (Some s)
  | inr (Some val) => inl (accessorError fields val "string")
  end.

Definition NestedSlice (obj : Object) (fields : list string)
    : error.t + option (list value) :=
  match NestedFieldNoCopy obj fields with
  | inl err => inl err
  | inr None => inr None
  | inr (Some (Slice l)) => inr (Some l)
  | inr (Some val) => inl (accessorError fields val "[]interface{}")
  end.
End Accessors.
End unstructured.

(** ** The readiness checks *)

Module later.
Import unstructured.

Section Readiness.
Variable Sprint : value -> string.

Local Abbreviation NestedInt64 := (NestedInt64 Sprint).
Local Abbreviation NestedString := (NestedString Sprint).
Local Abbreviation NestedSlice := (NestedSlice Sprint).

(** isDeploymentReady checks if a Deployment is ready *)
Definition isDeploymentReady (obj : Object) : bool * option error.t :=
  (* Get desired replicas *)
  match NestedInt64 obj ["spec"; "replicas"] with
  | inl err => (false, Some err)
  | inr found =>
    let replicas := default 1 found in (* Default to 1 if not specified *)
    (* Get status *)
    match NestedInt64 obj ["status"; "readyReplicas"] with
    | inl err => (false, Some err)
    | inr found =>
      let readyReplicas := default 0 found in
      match NestedInt64 obj ["status"; "updatedReplicas"] with
      | inl err => (false, Some err)
      | inr found =>
        let updatedReplicas := default 0 found in
        match NestedInt64 obj ["status"; "availableReplicas"] with
        | inl err => (false, Some err)
        | inr found =>
          let availableReplicas := default 0 found in
          let ready :=
            (readyReplicas =? replicas)%Z
            && (updatedReplicas =? replicas)%Z
            && (availableReplicas =? replicas)%Z in
          (ready, None)
        end
      end
    end
  end.

(** isStatefulSetReady checks if a StatefulSet is ready *)
Definition isStatefulSetReady (obj : Object) : bool * option error.t :=
  match NestedInt64 obj ["spec"; "replicas"] with
  | inl err => (false, Some err)
  | inr found =>
    let replicas := default 1 found in
    match NestedInt64 obj ["status"; "readyReplicas"] with
    | inl err => (false, Some err)
    | inr found =>
      let readyReplicas := default 0 found in
      ((readyReplicas =? replicas)%Z, None)
    end
  end.

(** isDaemonSetReady checks if a DaemonSet is ready *)
Definition isDaemonSetReady (obj : Object) : bool * option error.t :=
  match NestedInt64 obj ["status"; "desiredNumberScheduled"] with
  | inl err => (false, Some err)
  | inr found =>
    match found with
    | None => (false, None)
    | Some desiredNumberScheduled =>
      if (desiredNumberScheduled =? 0)%Z then (false, None)
      else
        match NestedInt64 obj ["status"; "numberReady"] with
        | inl err => (false, Some err)
        | inr found =>
          let numberReady := default 0 found in
          ((numberReady =? desiredNumberScheduled)%Z, None)
        end
    end
  end.

(** The [for _, condition := range conditions] loop of [isJobComplete]. *)
Fixpoint jobConditions (conditions : list value) : bool * option error.t :=
  match conditions with
  | [] => (false, None)
  | condition :: rest =>
    match condition with
    | Map condMap =>
      match NestedString condMap ["type"] with
      | inr (Some condType) =>
        match NestedString condMap ["status"] with
        | inr (Some status) =>
          if (condType =? "Complete") && (status =? "True") then (true, None)
          else if (condType =? "Failed") && (status =? "True")
               then (false, Some (error.mk "job failed" false))
               else jobConditions rest
        | _ => jobConditions rest
        end
      | _ => jobConditions rest
      end
    | _ => jobConditions rest
    end
  end.

(** isJobComplete checks if a Job is complete *)
Definition isJobComplete (obj : Object) : bool * option error.t :=
  match NestedSlice obj ["status"; "conditions"] with
  | inl err => (false, Some err)
  | inr None => (false, None)
  | inr (Some conditions) => jobConditions conditions
  end.

(** The [for _, condition := range conditions] loop of [isPodReady]. *)
Fixpoint podConditions (conditions : list value) : bool * option error.t :=
  match conditions with
  | [] => (false, None)
  | condition :: rest =>
    match condition with
    | Map condMap =>
      match NestedString condMap ["type"] with
      | inr (Some condType) =>
        match NestedString condMap ["status"] with
        | inr (Some status) =>
          if (condType =? "Ready") && (status =? "True") then (true, None)
          else podConditions rest
        | _ => podConditions rest
        end
      | _ => podConditions rest
      end
    | _ => podConditions rest
    end
  end.

(** isPodReady checks if a Pod is ready *)
Definition isPodReady (obj : Object) : bool * option error.t :=
  match NestedSlice obj ["status"; "conditions"] with
  | inl err => (false, Some err)
  | inr None => (false, None)
  | inr (Some conditions) => podConditions conditions
  end.
End Readiness.

(** ** Cleanup *)

Section Cleanup.
Context {W : Type} `{!Client W}.
Variable json_Unmarshal : list Byte.byte -> error.t + Unstructured.t.
Variable sort_Slice : forall A : Type, (A -> A -> bool) -> list A -> list A.

Definition r_Delete (o : Unstructured.t) : M W (option error.t) :=
  fun s => let (e, w) := Delete o (world s) in (e, logged (CallDelete o) s w).

Definition componentAfter (a b : Component.t) : bool :=
  (Component.Order a >? Component.Order b)%Z.
Definition groupAfter (a b : Group.t) : bool :=
  (Group.Order a >? Group.Order b)%Z.

(** The [for _, component := range sortedComponents] loop of
    [finalizeAppBundle]; what a delete answers is logged at most. *)
Fixpoint deleteComponents (appBundle : AppBundle.t) (sortedComponents : list Component.t)
    : M W unit :=
  match sortedComponents with
  | [] => ret tt
  | component :: rest =>
    (* Parse the template to get resource info *)
    match json_Unmarshal (Component.Template component) with
    | inl err => deleteComponents appBundle rest
    | inr obj =>
      (* Set namespace if not specified in template *)
      let obj :=
        if (Unstructured.Namespace obj =? "") && negb (AppBundle.Namespace appBundle =? "")
        then Unstructured.SetNamespace (AppBundle.Namespace appBundle) obj
        else obj in
      (* Try to delete the resource (ignore NotFound errors) *)
      let! err := r_Delete obj in
      (* Continue with other resources even if one fails *)
      deleteComponents appBundle rest
    end
  end.

(** The [for _, group := range sortedGroups] loop. *)
Fixpoint deleteGroups (appBundle : AppBundle.t) (sortedGroups : list Group.t)
    : M W unit :=
  match sortedGroups with
  | [] => ret tt
  | group :: rest =>
    (* Sort components in reverse order *)
    let sortedComponents := sort_Slice _ componentAfter (Group.Components group) in
    let! done := deleteComponents appBundle sortedComponents in
    deleteGroups appBundle rest
  end.

(** finalizeAppBundle handles cleanup when AppBundle is deleted *)
Definition finalizeAppBundle (appBundle : AppBundle.t) : M W (option error.t) :=
  (* Delete resources in reverse order (reverse of groups and components) *)
  let sortedGroups :=
    sort_Slice _ groupAfter (AppBundleSpec.Groups (AppBundle.Spec appBundle)) in
  let! done := deleteGroups appBundle sortedGroups in
  ret None.
End Cleanup.
End later.

(** The entry [val] of [status.conditions] is a condition of type [t] with
    status [st]. *)
Definition conditionIs (t st : string) (val : unstructured.value) : Prop :=
  exists m, val = unstructured.Map m
            /\ m !! "type" = Some (unstructured.Str t)
            /\ m !! "status" = Some (unstructured.Str st).


(** What the loops read of an entry of [status.conditions]. *)
Definition typeAndStatus (val : unstructured.value) : option (string * string) :=
  match val with
  | unstructured.Map m =>
      match m !! "type", m !! "status" with
      | Some (unstructured.Str t), Some (unstructured.Str st) => Some (t, st)
      | _, _ => None
      end
  | _ => None
  end.

(** The object cleanup deletes for a component: its manifest, in the
    bundle's namespace when it names none. *)
Definition resolved (json_Unmarshal : list Byte.byte -> error.t + Unstructured.t)
    (appBundle : AppBundle.t) (component : Component.t) : option Unstructured.t :=
  match json_Unmarshal (Component.Template component) with
  | inl _ => None
  | inr obj =>
      Some (if (Unstructured.Namespace obj =? "")
               && negb (AppBundle.Namespace appBundle =? "")
            then Unstructured.SetNamespace (AppBundle.Namespace appBundle) obj
            else obj)
  end.

(** The components of a bundle in the order cleanup takes them. *)
Definition cleanupPlan
    (sort_Slice : forall A : Type, (A -> A -> bool) -> list A -> list A)
    (appBundle : AppBundle.t) : list (Group.t * Component.t) :=
  flat_map
    (fun group =>
       map (pair group) (sort_Slice _ later.componentAfter (Group.Components group)))
    (sort_Slice _ later.groupAfter (AppBundleSpec.Groups (AppBundle.Spec appBundle))).

(** The contract of [sort.Slice] for a comparison by an integer key, larger
    first. *)
Definition descendingContract
    (sort_Slice : forall A : Type, (A -> A -> bool) -> list A -> list A) : Prop :=
  forall (A : Type) (key : A -> Z) (l : list A),
    let sorted := sort_Slice A (fun a b => (key a >? key b)%Z) l in
    Permutation sorted l
    /\ StronglySorted (fun a b => key b <= key a) sorted.


(** Objects to check, and a stand-in for [fmt]'s rendering. *)
Module samples.
Import unstructured.

Definition Sprint (val : value) : string :=
  match val with
  | Str s => s
  | _ => typeName val
  end.

Definition condition (t st : string) : value :=
  Map {[ "type" := Str t; "status" := Str st ]}.

(** Three replicas asked for, three ready, updated and available. *)
Definition workload : Object :=
  {[ "spec" := Map {[ "replicas" := Int64 3 ]};
     "status" := Map {[ "readyReplicas" := Int64 3;
                        "updatedReplicas" := Int64 3;
                        "availableReplicas" := Int64 3 ]} ]}.

(** A Job that is suspended no more and complete. *)
Definition jobConditions : list value :=
  [condition "Suspended" "False"; condition "Complete" "True"].
Definition job : Object :=
  {[ "status" := Map {[ "conditions" := Slice jobConditions ]} ]}.

(** A Pod that is scheduled and ready. *)
Definition podConditions : list value :=
  [condition "PodScheduled" "True"; condition "Ready" "True"].
Definition pod : Object :=
  {[ "status" := Map {[ "conditions" := Slice podConditions ]} ]}.
End samples.

(** * The controller's latest revision: readiness gates, packages, cleanup

    The last of the revisions in [docs/DEPLOYMENT.md], the one the
    specification describes: a component is waited for after it is applied,
    a component that references a package becomes a PackageVariant with a
    pipeline of mutators, and finalization deletes what was deployed. It
    reads fields of [PorchPackageReference] that the declaration under
    [api/v1alpha1] does not have yet ([PackageName], [Repository]); they are
    parameters here. Its readiness checks are those of the revision before,
    word for word. *)

Module time.
(** [time.Duration], in nanoseconds. *)
Definition Duration : Type := Z.
Definition Second : Duration := 1000000000.
Definition Minute : Duration := 60 * Second.
End time.

Module context.
(** [context.DeadlineExceeded] *)
Definition DeadlineExceeded : error.t := error.mk "context deadline exceeded" false.
End context.

Module unstructuredSet.
Import unstructured.

(** The loop of [setNestedFieldNoCopy]: the maps on the way are created
    when missing; a value on the way that is not a map is an error. It is
    never called without a field (Go would panic). *)
Fixpoint setNestedFrom (obj : Object) (val : value) (seen fields : list string)
    : error.t + Object :=
  match fields with
  | [] => inr obj
  | [field] => inr (<[field := val]> obj)
  | field :: rest =>
      match obj !! field with
      | Some (Map m) =>
          match setNestedFrom m val (seen ++ [field]) rest with
          | inl err => inl err
          | inr m => inr (<[field := Map m]> obj)
          end
      | Some _ =>
          inl (error.mk ("value cannot be set because " ++ jsonPath (seen ++ [field])
                           ++ " is not a map[string]interface{}") false)
      | None =>
          match setNestedFrom ∅ val (seen ++ [field]) rest with
          | inl err => inl err
          | inr m => inr (<[field := Map m]> obj)
          end
      end
  end.

(** [unstructured.SetNestedMap] *)
Definition SetNestedMap (obj : Object) (val : gmap string value) (fields : list string)
    : error.t + Object :=
  setNestedFrom obj (Map val) [] fields.
End unstructuredSet.

Module latest.
Import unstructured.

(** ** Objects, the cluster and the reconciler's monad *)

(** [unstructured.Unstructured] with its content: [Typed] is what the typed
    accessors (apiVersion, kind and the metadata) read and write, as in the
    first revision; [Object] is the content they leave alone (spec, status
    and the like), which the nested-field helpers read and write. *)
Record Obj := mkObj { Typed : Unstructured.t; Object : unstructured.Object }.

Definition GetAPIVersion (o : Obj) : string := Unstructured.APIVersion (Typed o).
Definition GetKind (o : Obj) : string := Unstructured.Kind (Typed o).
Definition GetName (o : Obj) : string := Unstructured.Name (Typed o).
Definition GetNamespace (o : Obj) : string := Unstructured.Namespace (Typed o).
Definition GetAnnotations (o : Obj) : gmap string string :=
  Unstructured.Annotations (Typed o).
Definition GetLabels (o : Obj) : gmap string string := Unstructured.Labels (Typed o).
Definition GetResourceVersion (o : Obj) : string :=
  Unstructured.ResourceVersion (Typed o).
Definition GroupVersionKind (o : Obj) : GroupVersionKind.t :=
  Unstructured.GroupVersionKind (Typed o).
Definition Key (o : Obj) : NamespacedName.t := Unstructured.Key (Typed o).

Definition SetAnnotations (a : gmap string string) (o : Obj) : Obj :=
  mkObj (Unstructured.SetAnnotations a (Typed o)) (Object o).
Definition SetLabels (l : gmap string string) (o : Obj) : Obj :=
  mkObj (Unstructured.SetLabels l (Typed o)) (Object o).
Definition SetNamespace (ns : string) (o : Obj) : Obj :=
  mkObj (Unstructured.SetNamespace ns (Typed o)) (Object o).
Definition SetResourceVersion (rv : string) (o : Obj) : Obj :=
  mkObj (Unstructured.SetResourceVersion rv (Typed o)) (Object o).
Definition withObject (content : unstructured.Object) (o : Obj) : Obj :=
  mkObj (Typed o) content.

(** [&unstructured.Unstructured{}] after [SetAPIVersion], [SetKind],
    [SetName] and [SetNamespace]. *)
Definition named (apiVersion kind name namespace : string) : Obj :=
  mkObj (Unstructured.mk apiVersion kind name namespace ∅ ∅ "" [] [] "") ∅.

(** The cluster as the reconciler meets it: the calls of [client.Client],
    with [Get] and [List] leaving the cluster as it is; what [time.Now()]
    reads; and what becomes of the cluster while the reconciler waits for a
    duration, the other controllers being at work. *)
Class Cluster (W : Type) := {
  GetBundle : NamespacedName.t -> W -> error.t + AppBundle.t;
  UpdateBundle : AppBundle.t -> W -> option error.t * W;
  StatusUpdate : AppBundle.t -> W -> option error.t * W;
  Get : GroupVersionKind.t -> NamespacedName.t -> W -> error.t + Obj;
  List : GroupVersionKind.t -> string -> W -> error.t + list Obj;
  Create : Obj -> W -> (error.t + Obj) * W;
  Update : Obj -> W -> (error.t + Obj) * W;
  Delete : Obj -> W -> option error.t * W;
  Now : W -> Time;
  Sleep : time.Duration -> W -> W }.

(** What a pass does, oldest first: its calls on the client and its waits. *)
Inductive Event :=
| EvGetBundle (key : NamespacedName.t)
| EvUpdateBundle (b : AppBundle.t)
| EvStatusUpdate (b : AppBundle.t)
| EvGet (gvk : GroupVersionKind.t) (key : NamespacedName.t) (answer : error.t + Obj)
| EvList (gvk : GroupVersionKind.t) (namespace : string) (answer : error.t + list Obj)
| EvCreate (o : Obj)
| EvUpdate (o : Obj)
| EvDelete (o : Obj)
| EvWait (d : time.Duration).

Record Run (W : Type) := mkRun { cluster : W; events : list Event }.
Arguments mkRun {W} _ _.
Arguments cluster {W} _.
Arguments events {W} _.

Definition T (W A : Type) : Type := Run W -> A * Run W.

Definition ret {W A} (a : A) : T W A := fun s => (a, s).
Definition bind {W A B} (m : T W A) (k : A -> T W B) : T W B :=
  fun s => let (a, s') := m s in k a s'.

#[warnings="-notation-overridden"]
Notation "'let!' x ':=' m 'in' k" := (bind m (fun x => k))
  (at level 10, x pattern, m at level 100, k at level 200).

Definition noted {W} (e : Event) (s : Run W) (w : W) : Run W :=
  mkRun w (events s ++ [e]).

Section Calls.
Context {W : Type} `{!Cluster W}.

Definition r_GetBundle (key : NamespacedName.t) : T W (error.t + AppBundle.t) :=
  fun s => (GetBundle key (cluster s), noted (EvGetBundle key) s (cluster s)).
Definition r_UpdateBundle (b : AppBundle.t) : T W (option error.t) :=
  fun s => let (e, w) := UpdateBundle b (cluster s) in (e, noted (EvUpdateBundle b) s w).
Definition r_Status_Update (b : AppBundle.t) : T W (option error.t) :=
  fun s => let (e, w) := StatusUpdate b (cluster s) in (e, noted (EvStatusUpdate b) s w).
Definition r_Get (gvk : GroupVersionKind.t) (key : NamespacedName.t)
    : T W (error.t + Obj) :=
  fun s => let r := Get gvk key (cluster s) in (r, noted (EvGet gvk key r) s (cluster s)).
Definition r_List (gvk : GroupVersionKind.t) (namespace : string)
    : T W (error.t + list Obj) :=
  fun s => let r := List gvk namespace (cluster s) in
           (r, noted (EvList gvk namespace r) s (cluster s)).
Definition r_Create (o : Obj) : T W (error.t + Obj) :=
  fun s => let (r, w) := Create o (cluster s) in (r, noted (EvCreate o) s w).
Definition r_Update (o : Obj) : T W (error.t + Obj) :=
  fun s => let (r, w) := Update o (cluster s) in (r, noted (EvUpdate o) s w).
Definition r_Delete (o : Obj) : T W (option error.t) :=
  fun s => let (e, w) := Delete o (cluster s) in (e, noted (EvDelete o) s w).

(** [time.Now()] *)
Definition time_Now : T W Time := fun s => (Now (cluster s), s).

(** The reconciler blocked for [d]. *)
Definition wait (d : time.Duration) : T W unit :=
  fun s => (tt, noted (EvWait d) s (Sleep d (cluster s))).

(** ** k8s.io/apimachinery/pkg/util/wait *)

(** The loop of [wait.PollUntilContextTimeout], [elapsed] after its start,
    for a context that nothing else cancels and a condition that answers
    within the interval: the condition is tried; when it neither holds nor
    fails the reconciler is blocked until the next tick of the interval, or
    until the deadline if that comes first or at the same time, and then the
    deadline's error is returned. *)
Fixpoint pollFrom (rounds : nat) (interval timeout elapsed : time.Duration)
    (condition : T W (bool * option error.t)) : T W (option error.t) :=
  match rounds with
  | O => ret (Some context.DeadlineExceeded)
  | S rounds =>
      let! (ok, err) := condition in
      match err with
      | Some err => ret (Some err)
      | None =>
          if ok then ret None
          else if (elapsed + interval <? timeout)%Z then
            let! blocked := wait interval in
            pollFrom rounds interval timeout (elapsed + interval) condition
          else
            let! blocked := wait (timeout - elapsed) in
            ret (Some context.DeadlineExceeded)
      end
  end.

(** [wait.PollUntilContextTimeout], for a positive interval. *)
Definition PollUntilContextTimeout (interval timeout : time.Duration) (immediate : bool)
    (condition : T W (bool * option error.t)) : T W (option error.t) :=
  let rounds := S (Z.to_nat (timeout / interval)) in
  if immediate then pollFrom rounds interval timeout 0 condition
  else if (interval <? timeout)%Z then
    let! blocked := wait interval in
    pollFrom rounds interval timeout interval condition
  else
    let! blocked := wait timeout in
    ret (Some context.DeadlineExceeded).
End Calls.

(** ** The controller *)

(** The double quote and the line feed, to write the script. *)
Definition dq : string := String "034"%char "".
Definition nl : string := String "010"%char "".

(** The Starlark program [buildWaitJobMutator] writes with [fmt.Sprintf]:
    its lines, with the arguments where the format has its [%s]. *)
Definition starlarkScript
    (namespace syncWave appBundleName groupName componentName randomSuffix : string)
    : string :=
  String.concat nl [
    "def transform(resource_list):";
    "    # Determine the target namespace from resources in the package";
    "    target_namespace = None";
    "    specific_wait_commands = []";
    "    ";
    "    # Scan all resources in the package to determine namespace and specific resources";
    "    for resource in resource_list[" ++ dq ++ "items" ++ dq ++ "]:";
    "        kind = resource.get(" ++ dq ++ "kind" ++ dq ++ ", " ++ dq ++ dq ++ ")";
    "        metadata = resource.get(" ++ dq ++ "metadata" ++ dq ++ ", {})";
    "        name = metadata.get(" ++ dq ++ "name" ++ dq ++ ", " ++ dq ++ dq ++ ")";
    "        ns = metadata.get(" ++ dq ++ "namespace" ++ dq ++ ", " ++ dq ++ dq ++ ")";
    "        ";
    "        # Store the target namespace from the first namespaced resource";
    "        if ns and not target_namespace:";
    "            target_namespace = ns";
    "        ";
    "        # Collect specific wait commands for known workload resources";
    "        # Note: Starlark doesn't support f-strings, use string concatenation";
    "        if kind == " ++ dq ++ "Deployment" ++ dq ++ " and name and ns:";
    "            specific_wait_commands.append(" ++ dq
      ++ "kubectl rollout status deployment/" ++ dq ++ " + name + " ++ dq ++ " -n " ++ dq
      ++ " + ns + " ++ dq ++ " --timeout=15m" ++ dq ++ ")";
    "        elif kind == " ++ dq ++ "StatefulSet" ++ dq ++ " and name and ns:";
    "            specific_wait_commands.append(" ++ dq
      ++ "kubectl rollout status statefulset/" ++ dq ++ " + name + " ++ dq ++ " -n " ++ dq
      ++ " + ns + " ++ dq ++ " --timeout=15m" ++ dq ++ ")";
    "        elif kind == " ++ dq ++ "DaemonSet" ++ dq ++ " and name and ns:";
    "            specific_wait_commands.append(" ++ dq
      ++ "kubectl rollout status daemonset/" ++ dq ++ " + name + " ++ dq ++ " -n " ++ dq
      ++ " + ns + " ++ dq ++ " --timeout=15m" ++ dq ++ ")";
    "    ";
    "    # If no specific namespace found, use default";
    "    if not target_namespace:";
    "        target_namespace = " ++ dq ++ namespace ++ dq;
    "    ";
    "    # Build wait script - always create a wait job";
    "    # If we found specific resources, wait for them. Otherwise, use a simple delay";
    "    if specific_wait_commands:";
    "        wait_script = " ++ dq ++ " && " ++ dq ++ ".join(specific_wait_commands)";
    "    else:";
    "        # Generic wait: just add a delay to ensure resources have time to deploy";
    "        # This is a fallback when we can't detect specific resources in the package";
    "        wait_script = " ++ dq
      ++ "echo 'Waiting for resources to be created in namespace " ++ dq
      ++ " + target_namespace + " ++ dq
      ++ "...' && sleep 10 && echo 'Proceeding to next group'" ++ dq;
    "    ";
    "    # Always create wait job to ensure sequential deployment";
    "    # First, create ServiceAccount";
    "    sa_yaml = {";
    "        " ++ dq ++ "apiVersion" ++ dq ++ ": " ++ dq ++ "v1" ++ dq ++ ",";
    "        " ++ dq ++ "kind" ++ dq ++ ": " ++ dq ++ "ServiceAccount" ++ dq ++ ",";
    "        " ++ dq ++ "metadata" ++ dq ++ ": {";
    "            " ++ dq ++ "name" ++ dq ++ ": " ++ dq ++ "appbundle-wait-reader" ++ dq ++ ",";
    "            " ++ dq ++ "namespace" ++ dq ++ ": target_namespace,";
    "            " ++ dq ++ "annotations" ++ dq ++ ": {";
    "                " ++ dq ++ "argocd.argoproj.io/sync-wave" ++ dq ++ ": " ++ dq
      ++ syncWave ++ dq;
    "            },";
    "            " ++ dq ++ "labels" ++ dq ++ ": {";
    "                " ++ dq ++ "app.example.com/appbundle" ++ dq ++ ": " ++ dq
      ++ appBundleName ++ dq ++ ",";
    "                " ++ dq ++ "app.example.com/wait-job" ++ dq ++ ": " ++ dq ++ "true" ++ dq;
    "            }";
    "        }";
    "    }";
    "    resource_list[" ++ dq ++ "items" ++ dq ++ "].append(sa_yaml)";
    "    ";
    "    # Create ClusterRole for reading resource status";
    "    clusterrole_yaml = {";
    "        " ++ dq ++ "apiVersion" ++ dq ++ ": " ++ dq ++ "rbac.authorization.k8s.io/v1"
      ++ dq ++ ",";
    "        " ++ dq ++ "kind" ++ dq ++ ": " ++ dq ++ "ClusterRole" ++ dq ++ ",";
    "        " ++ dq ++ "metadata" ++ dq ++ ": {";
    "            " ++ dq ++ "name" ++ dq ++ ": " ++ dq ++ "appbundle-wait-reader-" ++ dq
      ++ " + target_namespace,";
    "            " ++ dq ++ "annotations" ++ dq ++ ": {";
    "                " ++ dq ++ "argocd.argoproj.io/sync-wave" ++ dq ++ ": " ++ dq
      ++ syncWave ++ dq;
    "            },";
    "            " ++ dq ++ "labels" ++ dq ++ ": {";
    "                " ++ dq ++ "app.example.com/appbundle" ++ dq ++ ": " ++ dq
      ++ appBundleName ++ dq ++ ",";
    "                " ++ dq ++ "app.example.com/wait-job" ++ dq ++ ": " ++ dq ++ "true" ++ dq;
    "            }";
    "        },";
    "        " ++ dq ++ "rules" ++ dq ++ ": [";
    "            {";
    "                " ++ dq ++ "apiGroups" ++ dq ++ ": [" ++ dq ++ "apps" ++ dq ++ "],";
    "                " ++ dq ++ "resources" ++ dq ++ ": [" ++ dq ++ "deployments" ++ dq
      ++ ", " ++ dq ++ "deployments/status" ++ dq ++ ", " ++ dq ++ "statefulsets" ++ dq
      ++ ", " ++ dq ++ "statefulsets/status" ++ dq ++ ", " ++ dq ++ "daemonsets" ++ dq
      ++ ", " ++ dq ++ "daemonsets/status" ++ dq ++ "],";
    "                " ++ dq ++ "verbs" ++ dq ++ ": [" ++ dq ++ "get" ++ dq ++ ", " ++ dq
      ++ "list" ++ dq ++ ", " ++ dq ++ "watch" ++ dq ++ "]";
    "            },";
    "            {";
    "                " ++ dq ++ "apiGroups" ++ dq ++ ": [" ++ dq ++ "batch" ++ dq ++ "],";
    "                " ++ dq ++ "resources" ++ dq ++ ": [" ++ dq ++ "jobs" ++ dq ++ ", "
      ++ dq ++ "jobs/status" ++ dq ++ "],";
    "                " ++ dq ++ "verbs" ++ dq ++ ": [" ++ dq ++ "get" ++ dq ++ ", " ++ dq
      ++ "list" ++ dq ++ ", " ++ dq ++ "watch" ++ dq ++ "]";
    "            },";
    "            {";
    "                " ++ dq ++ "apiGroups" ++ dq ++ ": [" ++ dq ++ dq ++ "],";
    "                " ++ dq ++ "resources" ++ dq ++ ": [" ++ dq ++ "pods" ++ dq ++ ", "
      ++ dq ++ "pods/status" ++ dq ++ ", " ++ dq ++ "services" ++ dq ++ "],";
    "                " ++ dq ++ "verbs" ++ dq ++ ": [" ++ dq ++ "get" ++ dq ++ ", " ++ dq
      ++ "list" ++ dq ++ ", " ++ dq ++ "watch" ++ dq ++ "]";
    "            }";
    "        ]";
    "    }";
    "    resource_list[" ++ dq ++ "items" ++ dq ++ "].append(clusterrole_yaml)";
    "    ";
    "    # Create ClusterRoleBinding";
    "    clusterrolebinding_yaml = {";
    "        " ++ dq ++ "apiVersion" ++ dq ++ ": " ++ dq ++ "rbac.authorization.k8s.io/v1"
      ++ dq ++ ",";
    "        " ++ dq ++ "kind" ++ dq ++ ": " ++ dq ++ "ClusterRoleBinding" ++ dq ++ ",";
    "        " ++ dq ++ "metadata" ++ dq ++ ": {";
    "            " ++ dq ++ "name" ++ dq ++ ": " ++ dq ++ "appbundle-wait-reader-" ++ dq
      ++ " + target_namespace,";
    "            " ++ dq ++ "annotations" ++ dq ++ ": {";
    "                " ++ dq ++ "argocd.argoproj.io/sync-wave" ++ dq ++ ": " ++ dq
      ++ syncWave ++ dq;
    "            },";
    "            " ++ dq ++ "labels" ++ dq ++ ": {";
    "                " ++ dq ++ "app.example.com/appbundle" ++ dq ++ ": " ++ dq
      ++ appBundleName ++ dq ++ ",";
    "                " ++ dq ++ "app.example.com/wait-job" ++ dq ++ ": " ++ dq ++ "true" ++ dq;
    "            }";
    "        },";
    "        " ++ dq ++ "roleRef" ++ dq ++ ": {";
    "            " ++ dq ++ "apiGroup" ++ dq ++ ": " ++ dq ++ "rbac.authorization.k8s.io"
      ++ dq ++ ",";
    "            " ++ dq ++ "kind" ++ dq ++ ": " ++ dq ++ "ClusterRole" ++ dq ++ ",";
    "            " ++ dq ++ "name" ++ dq ++ ": " ++ dq ++ "appbundle-wait-reader-" ++ dq
      ++ " + target_namespace";
    "        },";
    "        " ++ dq ++ "subjects" ++ dq ++ ": [";
    "            {";
    "                " ++ dq ++ "kind" ++ dq ++ ": " ++ dq ++ "ServiceAccount" ++ dq ++ ",";
    "                " ++ dq ++ "name" ++ dq ++ ": " ++ dq ++ "appbundle-wait-reader" ++ dq
      ++ ",";
    "                " ++ dq ++ "namespace" ++ dq ++ ": target_namespace";
    "            }";
    "        ]";
    "    }";
    "    resource_list[" ++ dq ++ "items" ++ dq ++ "].append(clusterrolebinding_yaml)";
    "    ";
    "    # Finally, create the wait Job";
    "    job_yaml = {";
    "        " ++ dq ++ "apiVersion" ++ dq ++ ": " ++ dq ++ "batch/v1" ++ dq ++ ",";
    "        " ++ dq ++ "kind" ++ dq ++ ": " ++ dq ++ "Job" ++ dq ++ ",";
    "        " ++ dq ++ "metadata" ++ dq ++ ": {";
    "            " ++ dq ++ "name" ++ dq ++ ": " ++ dq ++ "wait-" ++ groupName ++ "-"
      ++ componentName ++ "-" ++ randomSuffix ++ dq ++ ",";
    "            " ++ dq ++ "namespace" ++ dq ++ ": target_namespace,";
    "            " ++ dq ++ "annotations" ++ dq ++ ": {";
    "                " ++ dq ++ "argocd.argoproj.io/hook" ++ dq ++ ": " ++ dq ++ "Sync"
      ++ dq ++ ",";
    "                " ++ dq ++ "argocd.argoproj.io/sync-wave" ++ dq ++ ": " ++ dq
      ++ syncWave ++ dq;
    "            },";
    "            " ++ dq ++ "labels" ++ dq ++ ": {";
    "                " ++ dq ++ "app.example.com/appbundle" ++ dq ++ ": " ++ dq
      ++ appBundleName ++ dq ++ ",";
    "                " ++ dq ++ "app.example.com/group" ++ dq ++ ": " ++ dq ++ groupName
      ++ dq ++ ",";
    "                " ++ dq ++ "app.example.com/component" ++ dq ++ ": " ++ dq
      ++ componentName ++ dq ++ ",";
    "                " ++ dq ++ "app.example.com/wait-job" ++ dq ++ ": " ++ dq ++ "true" ++ dq;
    "            }";
    "        },";
    "        " ++ dq ++ "spec" ++ dq ++ ": {";
    "            " ++ dq ++ "ttlSecondsAfterFinished" ++ dq ++ ": 300,";
    "            " ++ dq ++ "backoffLimit" ++ dq ++ ": 3,";
    "            " ++ dq ++ "template" ++ dq ++ ": {";
    "                " ++ dq ++ "spec" ++ dq ++ ": {";
    "                    " ++ dq ++ "restartPolicy" ++ dq ++ ": " ++ dq ++ "Never" ++ dq ++ ",";
    "                    " ++ dq ++ "serviceAccountName" ++ dq ++ ": " ++ dq
      ++ "appbundle-wait-reader" ++ dq ++ ",";
    "                    " ++ dq ++ "containers" ++ dq ++ ": [{";
    "                        " ++ dq ++ "name" ++ dq ++ ": " ++ dq ++ "wait" ++ dq ++ ",";
    "                        " ++ dq ++ "image" ++ dq ++ ": " ++ dq
      ++ "bitnami/kubectl:latest" ++ dq ++ ",";
    "                        " ++ dq ++ "command" ++ dq ++ ": [" ++ dq ++ "sh" ++ dq ++ ", "
      ++ dq ++ "-c" ++ dq ++ "],";
    "                        " ++ dq ++ "args" ++ dq ++ ": [wait_script]";
    "                    }]";
    "                }";
    "            }";
    "        }";
    "    }";
    "    resource_list[" ++ dq ++ "items" ++ dq ++ "].append(job_yaml)";
    "    ";
    "    return resource_list";
    "";
    "# Call the transform function";
    "transform(resource_list)";
    ""
  ].

(** Resources that don't need readiness checks *)
Definition immediatelyReadyKinds : gmap string bool :=
  {[ "Namespace" := true; "ConfigMap" := true; "Secret" := true; "Service" := true;
     "PersistentVolumeClaim" := true; "ServiceAccount" := true; "Role" := true;
     "RoleBinding" := true; "ClusterRole" := true; "ClusterRoleBinding" := true;
     "Ingress" := true; "NetworkPolicy" := true ]}.

Definition infraKinds : gmap string bool :=
  {[ "Namespace" := true; "ConfigMap" := true; "Secret" := true;
     "ServiceAccount" := true; "Role" := true; "RoleBinding" := true;
     "ClusterRole" := true; "ClusterRoleBinding" := true;
     "CustomResourceDefinition" := true; "ResourceQuota" := true;
     "LimitRange" := true ]}.

(** isInfrastructureResource checks if a resource kind is infrastructure
    (non-workload). *)
Definition isInfrastructureResource (kind : string) : bool :=
  default false (infraKinds !! kind).

Definition packageVariantGVK : GroupVersionKind.t :=
  GroupVersionKind.mk "config.porch.kpt.dev/v1alpha1" "PackageVariant".
Definition packageRevisionListGVK : GroupVersionKind.t :=
  GroupVersionKind.mk "porch.kpt.dev/v1alpha1" "PackageRevisionList".

(** [fmt.Errorf] with [%w]: the message is extended, and [errors.IsNotFound]
    still sees the error wrapped. *)
Definition wrapError (prefix : string) (err : error.t) : error.t :=
  error.mk (prefix ++ error.Error err) (error.IsNotFound err).

Section Controller.
Context {W : Type} `{!Cluster W}.

(** [encoding/json]'s [Unmarshal] into an [unstructured.Unstructured]. *)
Variable json_Unmarshal : list Byte.byte -> error.t + Obj.
(** [sort.Slice], applied to a copy of the slice. *)
Variable sort_Slice : forall A : Type, (A -> A -> bool) -> list A -> list A.
(** [controllerutil.SetControllerReference] with the reconciler's scheme. *)
Variable SetControllerReference : ObjectMeta.t -> Obj -> error.t + Obj.
(** What [fmt] prints for a value under [%v]. *)
Variable Sprint : value -> string.
(** The fields [PackageName] and [Repository] of [PorchPackageReference]. *)
Variable PackageName : PorchPackageReference.t -> string.
Variable Repository : PorchPackageReference.t -> string.

Local Abbreviation NestedString := (NestedString Sprint).
Local Abbreviation NestedSlice := (NestedSlice Sprint).

(** The assignments of a failure path: the phase, the message, and the
    error that is returned with the status. *)
Definition failedWith (prefix : string) (err : error.t)
    (componentStatus : ComponentStatus.t) : ComponentStatus.t * option error.t :=
  (ComponentStatus.withMessage (prefix ++ error.Error err)
     (ComponentStatus.withPhase PhaseFailed componentStatus),
   Some err).

(** The condition [waitForResourceReady] polls. *)
Definition resourceReady (kind : string) (obj : Obj) : T W (bool * option error.t) :=
  (* Fetch the latest version of the resource *)
  let! current := r_Get (GroupVersionKind obj) (Key obj) in
  match current with
  | inl err => if error.IsNotFound err then ret (false, None) else ret (false, Some err)
  | inr current =>
    (* Check readiness based on resource kind *)
    if kind =? "Deployment" then ret (later.isDeploymentReady Sprint (Object current))
    else if kind =? "StatefulSet" then ret (later.isStatefulSetReady Sprint (Object current))
    else if kind =? "DaemonSet" then ret (later.isDaemonSetReady Sprint (Object current))
    else if kind =? "Job" then ret (later.isJobComplete Sprint (Object current))
    else if kind =? "Pod" then ret (later.isPodReady Sprint (Object current))
    else (* For unknown types, just check if they exist *) ret (true, None)
  end.

(** waitForResourceReady waits for a resource to become ready based on its
    kind *)
Definition waitForResourceReady (obj : Obj) : T W (option error.t) :=
  let kind := GetKind obj in
  (* Define timeout and poll interval *)
  let timeout := 5 * time.Minute in
  let pollInterval := 2 * time.Second in
  (* If it's an immediately ready resource, return success *)
  if default false (immediatelyReadyKinds !! kind) then ret None
  else
    (* For resources that need readiness checks *)
    PollUntilContextTimeout pollInterval timeout true (resourceReady kind obj).

(** The [for _, condition := range conditions] loop of
    [waitForPackageVariantReady]. *)
Fixpoint readyCondition (conditions : list value) : bool :=
  match conditions with
  | [] => false
  | condition :: rest =>
    match condition with
    | Map condMap =>
      match NestedString condMap ["type"] with
      | inr (Some condType) =>
        match NestedString condMap ["status"] with
        | inr (Some status) =>
          if (condType =? "Ready") && (status =? "True") then true
          else readyCondition rest
        | _ => readyCondition rest
        end
      | _ => readyCondition rest
      end
    | _ => readyCondition rest
    end
  end.

(** The condition [waitForPackageVariantReady] polls. *)
Definition packageVariantReady (name namespace : string) : T W (bool * option error.t) :=
  let! pv := r_Get packageVariantGVK (NamespacedName.mk namespace name) in
  match pv with
  | inl err => if error.IsNotFound err then ret (false, None) else ret (false, Some err)
  | inr pv =>
    (* Check if PackageVariant is ready *)
    match NestedSlice (Object pv) ["status"; "conditions"] with
    | inr (Some conditions) => ret (readyCondition conditions, None)
    | _ => ret (false, None)
    end
  end.

(** waitForPackageVariantReady waits for a PackageVariant to become ready *)
Definition waitForPackageVariantReady (name namespace : string) : T W (option error.t) :=
  let timeout := 5 * time.Minute in
  let pollInterval := 2 * time.Second in
  PollUntilContextTimeout pollInterval timeout true (packageVariantReady name namespace).

(** The first PackageRevision of the list that belongs to the downstream
    package. *)
Fixpoint targetPackageRevision (items : list Obj) (packageVariantName downstreamRepo : string)
    : option Obj :=
  match items with
  | [] => None
  | pr :: rest =>
    match NestedString (Object pr) ["spec"; "packageName"] with
    | inr (Some specPackage) =>
      match NestedString (Object pr) ["spec"; "repositoryName"] with
      | inr (Some specRepo) =>
        if (specPackage =? packageVariantName) && (specRepo =? downstreamRepo)
        then Some pr
        else targetPackageRevision rest packageVariantName downstreamRepo
      | _ => targetPackageRevision rest packageVariantName downstreamRepo
      end
    | _ => targetPackageRevision rest packageVariantName downstreamRepo
    end
  end.

(** Parse each resource into an unstructured object, the workloads only. *)
Fixpoint discovered (resources : list value) : list Obj :=
  match resources with
  | [] => []
  | res :: rest =>
    match res with
    | Map resMap =>
      (* Get the resource data/content *)
      match NestedString resMap ["data"] with
      | inr (Some content) =>
        match json_Unmarshal (list_byte_of_string content) with
        | inl err => discovered rest
        | inr obj =>
          (* Filter out non-workload resources *)
          let kind := GetKind obj in
          if negb (kind =? "") && negb (isInfrastructureResource kind)
          then obj :: discovered rest
          else discovered rest
        end
      | _ => discovered rest
      end
    | _ => discovered rest
    end
  end.

(** discoverPackageVariantResources discovers resources deployed by a
    PackageVariant *)
Definition discoverPackageVariantResources
    (packageVariantName pvNamespace downstreamRepo : string)
    : T W (error.t + list Obj) :=
  (* Get the PackageVariant to find the downstream PackageRevision *)
  let! pv := r_Get packageVariantGVK (NamespacedName.mk pvNamespace packageVariantName) in
  match pv with
  | inl err => ret (inl (wrapError "failed to get PackageVariant: " err))
  | inr pv =>
    (* Get the downstream package name from PackageVariant status *)
    match NestedString (Object pv) ["status"; "downstreamTargets"; "0"; "name"] with
    | inr (Some downstreamPkgName) =>
      (* List PackageRevisions matching our downstream package *)
      let! prList := r_List packageRevisionListGVK pvNamespace in
      match prList with
      | inl err => ret (inl (wrapError "failed to list PackageRevisions: " err))
      | inr items =>
        match targetPackageRevision items packageVariantName downstreamRepo with
        | None =>
          ret (inl (error.mk "packageRevision not found for downstream package" false))
        | Some targetPR =>
          (* Get the resources from the PackageRevision *)
          match NestedSlice (Object targetPR) ["spec"; "resources"] with
          | inl err =>
            ret (inl (wrapError "failed to get resources from PackageRevision: " err))
          | inr None => ret (inr [])
          | inr (Some resources) => ret (inr (discovered resources))
          end
        end
      end
    | _ => ret (inl (error.mk "downstream package not found in status" false))
    end
  end.

(** buildWaitJobMutator creates a Starlark mutator that injects a wait Job.
    [now] is what [time.Now()] reads. *)
Definition buildWaitJobMutator (now : Time) (appBundle : AppBundle.t) (group : Group.t)
    (component : Component.t) (packageName syncWave : string) : gmap string value :=
  (* Determine namespace for the wait job *)
  let namespace := AppBundle.Namespace appBundle in
  let namespace := if namespace =? "" then "default" else namespace in
  (* Generate a random suffix for the job name to avoid conflicts *)
  let randomSuffix := GoInt.Itoa (Z.rem now 100000) in
  (* Build the Starlark script that injects the wait Job *)
  let starlarkScript :=
    starlarkScript namespace syncWave (AppBundle.Name appBundle) (Group.Name group)
      (Component.Name component) randomSuffix in
  {[ "image" := Str "gcr.io/kpt-fn/starlark:v0.4.3";
     "configMap" := Map {[ "source" := Str starlarkScript ]} ]}.

(** The [for _, obj := range resourcesToMonitor] loop of
    [reconcileComponentWithPorch]: a resource that does not become ready is
    logged, no more. *)
Fixpoint monitorResources (resourcesToMonitor : list Obj) : T W unit :=
  match resourcesToMonitor with
  | [] => ret tt
  | obj :: rest =>
    let! err := waitForResourceReady obj in
    monitorResources rest
  end.

(** "Build mutators list" *)
Definition pipelineMutators (now : Time) (appBundle : AppBundle.t) (group : Group.t)
    (component : Component.t) (baseSyncWave : Z) (packageVariantName : string)
    : list value :=
  (* Calculate sync wave *)
  let syncWave := GoInt.add baseSyncWave (Component.Order component) in
  let syncWaveStr := GoInt.Itoa syncWave in
  (* Calculate wait job sync wave (between current and next group) *)
  let waitSyncWave := GoInt.add baseSyncWave 50 in
  let waitSyncWaveStr := GoInt.Itoa waitSyncWave in
  [ (* Mutator 1: Set sync wave annotations on all resources *)
    Map {[ "image" := Str "gcr.io/kpt-fn/set-annotations:v0.1.4";
           "configMap" := Map {[ argoSyncWaveAnnotation := Str syncWaveStr ]} ]};
    (* Mutator 2: Add AppBundle tracking labels to all resources *)
    Map {[ "image" := Str "gcr.io/kpt-fn/set-labels:v0.2.0";
           "configMap" :=
             Map {[ "app.example.com/appbundle" := Str (AppBundle.Name appBundle);
                    "app.example.com/group" := Str (Group.Name group);
                    "app.example.com/component" := Str (Component.Name component) ]} ]};
    (* Mutator 3: Inject wait Job using Starlark *)
    Map (buildWaitJobMutator now appBundle group component packageVariantName
           waitSyncWaveStr) ].

Definition packageVariantNameOf (ref : PorchPackageReference.t) : string :=
  "appbundle-" ++ PackageName ref.
Definition pvNamespaceOf (ref : PorchPackageReference.t) : string :=
  if negb (PorchPackageReference.Namespace ref =? "")
  then PorchPackageReference.Namespace ref else "default".
Definition downstreamRepoOf (appBundle : AppBundle.t) : string :=
  match AppBundleSpec.PorchIntegration (AppBundle.Spec appBundle) with
  | Some p =>
      if negb (PorchIntegrationSpec.Repository p =? "")
      then PorchIntegrationSpec.Repository p else "mgmt"
  | None => "mgmt"
  end.

(** [reconcileComponentWithPorch] from "Create PackageVariant CRD" to "Add
    labels": the PackageVariant it builds, or the error of [SetNestedMap].
    [now] is what [time.Now()] reads. *)
Definition packageVariantFor (now : Time) (appBundle : AppBundle.t) (group : Group.t)
    (component : Component.t) (baseSyncWave : Z) (ref : PorchPackageReference.t)
    : error.t + Obj :=
  (* Create PackageVariant name (custom format: appbundle-<package>) *)
  let packageVariantName := packageVariantNameOf ref in
  (* Determine namespace for PackageVariant (default to "default") *)
  let pvNamespace := pvNamespaceOf ref in
  (* Determine downstream repo (default to "mgmt" or use from spec) *)
  let downstreamRepo := downstreamRepoOf appBundle in
  (* Determine revision (default to "main") *)
  let revision :=
    if negb (PorchPackageReference.Revision ref =? "")
    then PorchPackageReference.Revision ref else "main" in
  (* Create PackageVariant CRD *)
  let packageVariant :=
    named "config.porch.kpt.dev/v1alpha1" "PackageVariant" packageVariantName
      pvNamespace in
  (* Calculate sync wave *)
  let syncWave := GoInt.add baseSyncWave (Component.Order component) in
  (* Build mutators list *)
  let mutators :=
    pipelineMutators now appBundle group component baseSyncWave packageVariantName in
  (* Set PackageVariant spec with pipeline mutators *)
  let spec : gmap string value :=
    {[ "upstream" := Map {[ "repo" := Str (Repository ref);
                            "package" := Str (PackageName ref);
                            "revision" := Str revision ]};
       "downstream" := Map {[ "repo" := Str downstreamRepo;
                              "package" := Str packageVariantName ]};
       "annotations" := Map {[ "approval.nephio.org/policy" := Str "initial" ]};
       "adoptionPolicy" := Str "adoptExisting";
       "deletionPolicy" := Str "delete";
       (* Pipeline mutators to inject annotations and wait Job *)
       "pipeline" := Map {[ "mutators" := Slice mutators ]} ]} in
  match unstructuredSet.SetNestedMap (Object packageVariant) spec ["spec"] with
  | inl err => inl err
  | inr content =>
    let packageVariant := withObject content packageVariant in
    (* Add annotations to metadata *)
    let packageVariant :=
      SetAnnotations {[ argoSyncWaveAnnotation := GoInt.Itoa syncWave ]} packageVariant in
    (* Add labels *)
    inr (SetLabels {[ "app.example.com/appbundle" := AppBundle.Name appBundle;
                      "app.example.com/group" := Group.Name group;
                      "app.example.com/component" := Component.Name component ]}
                   packageVariant)
  end.

(** "Create or update PackageVariant": the prefix of the message and the
    error, if any. *)
Definition ensurePackageVariant (packageVariant : Obj) (ref : PorchPackageReference.t)
    : T W (option (string * error.t)) :=
  let! existingPV :=
    r_Get (GroupVersionKind packageVariant)
          (NamespacedName.mk (pvNamespaceOf ref) (packageVariantNameOf ref)) in
  match existingPV with
  | inl err =>
    if error.IsNotFound err then
      let! created := r_Create packageVariant in
      match created with
      | inl err => ret (Some ("Failed to create PackageVariant: ", err))
      | inr _ => ret None
      end
    else ret (Some ("Failed to get PackageVariant: ", err))
  | inr _ =>
    (* Update if needed (for now, skip update to avoid conflicts with Porch) *)
    ret None
  end.

(** "Auto-discover and monitor resources from the deployed package" *)
Definition resourcesToMonitor (appBundle : AppBundle.t) (component : Component.t)
    (ref : PorchPackageReference.t) : T W (list Obj) :=
  if (0 <? length (Component.Template component))%nat then
    (* If template is provided, use it (backward compatibility) *)
    match json_Unmarshal (Component.Template component) with
    | inr obj =>
      (* Set the correct namespace (default to AppBundle namespace) *)
      let obj :=
        if GetNamespace obj =? ""
        then SetNamespace (AppBundle.Namespace appBundle) obj else obj in
      ret [obj]
    | inl _ => ret []
    end
  else
    (* Auto-discover resources from the PackageVariant *)
    let! discoveredResources :=
      discoverPackageVariantResources (packageVariantNameOf ref) (pvNamespaceOf ref)
        (downstreamRepoOf appBundle) in
    match discoveredResources with
    | inl err => ret []
    | inr discoveredResources => ret discoveredResources
    end.

(** reconcileComponentWithPorch reconciles a component that uses a Porch
    package *)
Definition reconcileComponentWithPorch (appBundle : AppBundle.t) (group : Group.t)
    (component : Component.t) (baseSyncWave : Z)
    : T W (ComponentStatus.t * option error.t) :=
  let componentStatus :=
    ComponentStatus.mk (Component.Name component) PhaseDeploying "" None in
  match Component.PorchPackageRef component with
  | None =>
    ret (ComponentStatus.withMessage "PorchPackageRef is nil"
           (ComponentStatus.withPhase PhaseFailed componentStatus),
         Some (error.mk "porchPackageRef is nil" false))
  | Some ref =>
    let packageVariantName := packageVariantNameOf ref in
    let pvNamespace := pvNamespaceOf ref in
    let! now := time_Now in
    match packageVariantFor now appBundle group component baseSyncWave ref with
    | inl err => ret (failedWith "Failed to set PackageVariant spec: " err componentStatus)
    | inr packageVariant =>
      (* Create or update PackageVariant *)
      let! err := ensurePackageVariant packageVariant ref in
      match err with
      | Some (prefix, err) => ret (failedWith prefix err componentStatus)
      | None =>
        (* Wait for PackageVariant to be ready *)
        let! err := waitForPackageVariantReady packageVariantName pvNamespace in
        match err with
        | Some err => ret (failedWith "PackageVariant not ready: " err componentStatus)
        | None =>
          (* Auto-discover and monitor resources from the deployed package *)
          let! resourcesToMonitor := resourcesToMonitor appBundle component ref in
          (* Wait for discovered/specified resources to be ready *)
          let! monitored := monitorResources resourcesToMonitor in
          ret (ComponentStatus.mk (Component.Name component) PhaseDeployed
                 ("PackageVariant deployed successfully via Porch ("
                    ++ GoInt.Itoa (Z.of_nat (length resourcesToMonitor))
                    ++ " resources monitored)")
                 (Some (ResourceReference.mk "config.porch.kpt.dev/v1alpha1"
                          "PackageVariant" packageVariantName
                          (PorchPackageReference.Namespace ref))),
               None)
        end
      end
    end
  end.

(** The manifest with its sync wave annotation, its tracking labels, the
    namespace defaulted to the bundle's and, when its namespace is the
    bundle's, the owner reference, if the library sets it. *)
Definition prepared (appBundle : AppBundle.t) (group : Group.t)
    (component : Component.t) (baseSyncWave : Z) (obj : Obj) : Obj :=
  (* Calculate sync wave for this component *)
  let syncWave := GoInt.add baseSyncWave (Component.Order component) in
  (* Add Argo CD sync wave annotation *)
  let annotations := GetAnnotations obj in
  let annotations := <[argoSyncWaveAnnotation := GoInt.Itoa syncWave]> annotations in
  let obj := SetAnnotations annotations obj in
  (* Add labels for tracking *)
  let labels := GetLabels obj in
  let labels := <["app.example.com/appbundle" := AppBundle.Name appBundle]> labels in
  let labels := <["app.example.com/group" := Group.Name group]> labels in
  let labels := <["app.example.com/component" := Component.Name component]> labels in
  let obj := SetLabels labels obj in
  (* Set namespace if not specified *)
  let obj :=
    if (GetNamespace obj =? "") && negb (AppBundle.Namespace appBundle =? "")
    then SetNamespace (AppBundle.Namespace appBundle) obj
    else obj in
  (* Set owner reference only if the resource is in the same namespace as the
     AppBundle *)
  if negb (GetNamespace obj =? "") && (GetNamespace obj =? AppBundle.Namespace appBundle)
  then
    match SetControllerReference (AppBundle.Meta appBundle) obj with
    | inl err => (* Don't return error - continue without owner reference *) obj
    | inr obj => obj
    end
  else obj.

(** "Create or update the resource": the object as the cluster answered it,
    or the prefix of the message and the error. *)
Definition applyObject (obj : Obj) : T W (string * error.t + Obj) :=
  let! existing := r_Get (GroupVersionKind obj) (Key obj) in
  match existing with
  | inl err =>
    if error.IsNotFound err then
      (* Create the resource *)
      let! created := r_Create obj in
      match created with
      | inl err => ret (inl ("Failed to create resource: ", err))
      | inr obj => ret (inr obj)
      end
    else ret (inl ("Failed to get existing resource: ", err))
  | inr existingObj =>
    (* Update the resource *)
    let obj := SetResourceVersion (GetResourceVersion existingObj) obj in
    let! updated := r_Update obj in
    match updated with
    | inl err => ret (inl ("Failed to update resource: ", err))
    | inr obj => ret (inr obj)
    end
  end.

(** The assignments of the success path. *)
Definition deployedWith (obj : Obj) (componentStatus : ComponentStatus.t)
    : ComponentStatus.t * option error.t :=
  (ComponentStatus.withResourceRef
     (Some (ResourceReference.mk (GetAPIVersion obj) (GetKind obj) (GetName obj)
              (GetNamespace obj)))
     (ComponentStatus.withMessage "Resource deployed successfully"
        (ComponentStatus.withPhase PhaseDeployed componentStatus)),
   None).

(** reconcileComponent reconciles a single component *)
Definition reconcileComponent (appBundle : AppBundle.t) (group : Group.t)
    (component : Component.t) (baseSyncWave : Z)
    : T W (ComponentStatus.t * option error.t) :=
  let componentStatus :=
    ComponentStatus.mk (Component.Name component) PhaseDeploying "" None in
  (* If component has a Porch package reference, create PackageVariant *)
  match Component.PorchPackageRef component with
  | Some _ => reconcileComponentWithPorch appBundle group component baseSyncWave
  | None =>
    (* Validate that template is provided for non-Porch components *)
    if (length (Component.Template component) =? 0)%nat then
      ret (ComponentStatus.withMessage
             "Component must have either template or porchPackageRef specified"
             (ComponentStatus.withPhase PhaseFailed componentStatus),
           Some (error.mk ("component " ++ Component.Name component
                             ++ " has neither template nor porchPackageRef") false))
    else
      (* Parse the template into an unstructured object *)
      match json_Unmarshal (Component.Template component) with
      | inl err => ret (failedWith "Failed to parse template: " err componentStatus)
      | inr obj =>
        let obj := prepared appBundle group component baseSyncWave obj in
        (* Create or update the resource *)
        let! applied := applyObject obj in
        match applied with
        | inl (prefix, err) => ret (failedWith prefix err componentStatus)
        | inr obj =>
          (* Wait for the resource to become ready *)
          let! err := waitForResourceReady obj in
          match err with
          | Some err => ret (failedWith "Resource not ready: " err componentStatus)
          | None => ret (deployedWith obj componentStatus)
          end
        end
      end
  end.

(** The [for _, component := range sortedComponents] loop of [reconcileGroup]. *)
Fixpoint reconcileComponents (appBundle : AppBundle.t) (group : Group.t)
    (baseSyncWave : Z) (sortedComponents : list Component.t)
    (groupStatus : GroupStatus.t) : T W (GroupStatus.t * option error.t) :=
  match sortedComponents with
  | [] => ret (groupStatus, None)
  | component :: rest =>
    let! (componentStatus, err) :=
      reconcileComponent appBundle group component baseSyncWave in
    match err with
    | Some err =>
      let groupStatus := GroupStatus.withPhase PhaseFailed groupStatus in
      let groupStatus :=
        GroupStatus.withMessage
          ("Failed to deploy component " ++ Component.Name component ++ ": "
             ++ error.Error err) groupStatus in
      let groupStatus := GroupStatus.appendComponentStatus componentStatus groupStatus in
      ret (groupStatus, Some err)
    | None =>
      reconcileComponents appBundle group baseSyncWave rest
        (GroupStatus.appendComponentStatus componentStatus groupStatus)
    end
  end.

(** reconcileGroup reconciles a single group of components *)
Definition reconcileGroup (appBundle : AppBundle.t) (group : Group.t)
    : T W (GroupStatus.t * option error.t) :=
  let groupStatus := GroupStatus.mk (Group.Name group) PhaseDeploying "" [] in
  (* Sort components by order *)
  let sortedComponents := sort_Slice _ componentLess (Group.Components group) in
  (* Calculate base sync wave for this group *)
  let baseSyncWave := GoInt.mul (Group.Order group) 100 in
  let! (groupStatus, err) :=
    reconcileComponents appBundle group baseSyncWave sortedComponents groupStatus in
  match err with
  | Some err => ret (groupStatus, Some err)
  | None =>
    let groupStatus := GroupStatus.withPhase PhaseDeployed groupStatus in
    let groupStatus :=
      GroupStatus.withMessage "All components deployed successfully" groupStatus in
    ret (groupStatus, None)
  end.

(** reconcilePorchPackages handles integration with Porch for package
    lifecycle management; a placeholder that always returns nil. *)
Definition reconcilePorchPackages (appBundle : AppBundle.t) : T W (option error.t) :=
  ret None.

(** The object finalization deletes for a component, if any: the
    PackageVariant of a component that uses Porch, else the manifest, when
    there is one and it parses, in the bundle's namespace when it names
    none. *)
Definition cleanupTarget (appBundle : AppBundle.t) (component : Component.t)
    : option Obj :=
  match Component.PorchPackageRef component with
  | Some ref =>
    (* If component uses Porch, delete the PackageVariant *)
    Some (named "config.porch.kpt.dev/v1alpha1" "PackageVariant"
            (packageVariantNameOf ref) (pvNamespaceOf ref))
  | None =>
    (* For non-Porch components, parse template and delete resource *)
    if (0 <? length (Component.Template component))%nat then
      match json_Unmarshal (Component.Template component) with
      | inl err => None
      | inr obj =>
        (* Set namespace if not specified in template *)
        Some (if (GetNamespace obj =? "") && negb (AppBundle.Namespace appBundle =? "")
              then SetNamespace (AppBundle.Namespace appBundle) obj
              else obj)
      end
    else None
  end.

(** The [for _, component := range sortedComponents] loop of
    [finalizeAppBundle]; what a delete answers is logged at most. *)
Fixpoint deleteComponents (appBundle : AppBundle.t) (sortedComponents : list Component.t)
    : T W unit :=
  match sortedComponents with
  | [] => ret tt
  | component :: rest =>
    match cleanupTarget appBundle component with
    | Some obj =>
      (* Try to delete the resource (ignore NotFound errors) *)
      let! err := r_Delete obj in
      (* Continue with other resources even if one fails *)
      deleteComponents appBundle rest
    | None => deleteComponents appBundle rest
    end
  end.

(** The [for _, group := range sortedGroups] loop. *)
Fixpoint deleteGroups (appBundle : AppBundle.t) (sortedGroups : list Group.t)
    : T W unit :=
  match sortedGroups with
  | [] => ret tt
  | group :: rest =>
    (* Sort components in reverse order *)
    let sortedComponents :=
      sort_Slice _ later.componentAfter (Group.Components group) in
    let! done := deleteComponents appBundle sortedComponents in
    deleteGroups appBundle rest
  end.

(** finalizeAppBundle handles cleanup when AppBundle is deleted *)
Definition finalizeAppBundle (appBundle : AppBundle.t) : T W (option error.t) :=
  (* Delete resources in reverse order (reverse of groups and components) *)
  let sortedGroups :=
    sort_Slice _ later.groupAfter (AppBundleSpec.Groups (AppBundle.Spec appBundle)) in
  let! done := deleteGroups appBundle sortedGroups in
  ret None.

Definition setReadyCondition (status reason message : string)
    (appBundle : AppBundle.t) : T W AppBundle.t :=
  let! now := time_Now in
  ret (AppBundle.mapStatus
         (fun st => AppBundleStatus.withConditions
                      (meta.SetStatusCondition now (AppBundleStatus.Conditions st)
                         (Condition.mk "Ready" status reason message
                            (AppBundle.Generation appBundle) 0)) st)
         appBundle).

(** updateStatusWithError updates the AppBundle status with error information *)
Definition updateStatusWithError (appBundle : AppBundle.t) (err : error.t)
    : T W (AppBundle.t * option error.t) :=
  let appBundle := AppBundle.mapStatus (AppBundleStatus.withPhase PhaseFailed) appBundle in
  let appBundle :=
    AppBundle.mapStatus (AppBundleStatus.withMessage (error.Error err)) appBundle in
  let! appBundle :=
    setReadyCondition ConditionFalse "DeploymentFailed" (error.Error err) appBundle in
  let! statusErr := r_Status_Update appBundle in
  match statusErr with
  | Some statusErr => ret (appBundle, Some statusErr)
  | None => ret (appBundle, Some err)
  end.

(** The [for _, group := range sortedGroups] loop of [Reconcile]. *)
Fixpoint reconcileGroups (appBundle : AppBundle.t) (sortedGroups : list Group.t)
    : T W (AppBundle.t * option error.t) :=
  match sortedGroups with
  | [] => ret (appBundle, None)
  | group :: rest =>
    let! (groupStatus, err) := reconcileGroup appBundle group in
    match err with
    | Some err => ret (appendGroupStatus groupStatus appBundle, Some err)
    | None => reconcileGroups (appendGroupStatus groupStatus appBundle) rest
    end
  end.

(** [Reconcile] from "Sort groups by order" to its end. *)
Definition deployGroups (appBundle : AppBundle.t) : T W (AppBundle.t * option error.t) :=
  (* Sort groups by order *)
  let sortedGroups :=
    sort_Slice _ groupLess (AppBundleSpec.Groups (AppBundle.Spec appBundle)) in
  (* Deploy resources group by group *)
  let appBundle := AppBundle.mapStatus (AppBundleStatus.withPhase PhaseDeploying) appBundle in
  let appBundle := AppBundle.mapStatus (AppBundleStatus.withGroupStatuses []) appBundle in
  let! (appBundle, err) := reconcileGroups appBundle sortedGroups in
  match err with
  | Some err => updateStatusWithError appBundle err
  | None =>
    (* All groups deployed successfully *)
    let appBundle := AppBundle.mapStatus (AppBundleStatus.withPhase PhaseDeployed) appBundle in
    let appBundle :=
      AppBundle.mapStatus
        (AppBundleStatus.withMessage "All groups deployed successfully") appBundle in
    let appBundle :=
      AppBundle.mapStatus
        (AppBundleStatus.withObservedGeneration (AppBundle.Generation appBundle))
        appBundle in
    (* Update condition *)
    let! appBundle :=
      setReadyCondition ConditionTrue "DeploymentComplete"
        "All resources deployed successfully" appBundle in
    let! err := r_Status_Update appBundle in
    ret (appBundle, err)
  end.

(** Reconcile: one pass for the request [req]. The result is the bundle as
    the pass leaves it in memory ([None] when it could not be fetched) and
    the returned error. *)
Definition Reconcile (req : NamespacedName.t)
    : T W (option AppBundle.t * option error.t) :=
  (* Fetch the AppBundle instance *)
  let! fetched := r_GetBundle req in
  match fetched with
  | inl err =>
    if error.IsNotFound err then ret (None, None) else ret (None, Some err)
  | inr appBundle =>
    (* Add finalizer if it doesn't exist *)
    let! (appBundle, err) :=
      (if negb (controllerutil.ContainsFinalizer appBundle appBundleFinalizer) then
         let appBundle := controllerutil.AddFinalizer appBundle appBundleFinalizer in
         let! err := r_UpdateBundle appBundle in
         ret (appBundle, err)
       else ret (appBundle, None)) in
    match err with
    | Some err => ret (Some appBundle, Some err)
    | None =>
      (* Check if the AppBundle is being deleted *)
      if beingDeleted appBundle then
        if controllerutil.ContainsFinalizer appBundle appBundleFinalizer then
          (* Run finalization logic *)
          let! err := finalizeAppBundle appBundle in
          match err with
          | Some err => ret (Some appBundle, Some err)
          | None =>
            (* Remove finalizer *)
            let appBundle := controllerutil.RemoveFinalizer appBundle appBundleFinalizer in
            let! err := r_UpdateBundle appBundle in
            ret (Some appBundle, err)
          end
        else ret (Some appBundle, None)
      else
        (* Initialize status if needed *)
        let! (appBundle, err) :=
          (if AppBundleStatus.Phase (AppBundle.Status appBundle) =? "" then
             let appBundle :=
               AppBundle.mapStatus (AppBundleStatus.withPhase PhasePending) appBundle in
             let! err := r_Status_Update appBundle in
             ret (appBundle, err)
           else ret (appBundle, None)) in
        match err with
        | Some err => ret (Some appBundle, Some err)
        | None =>
          (* Reconcile Porch packages if integration is enabled *)
          let! err :=
            (if porchEnabled appBundle then reconcilePorchPackages appBundle
             else ret None) in
          match err with
          | Some err =>
            let! (appBundle, err) := updateStatusWithError appBundle err in
            ret (Some appBundle, err)
          | None =>
            let! (appBundle, err) := deployGroups appBundle in
            ret (Some appBundle, err)
          end
        end
    end
  end.
End Controller.
End latest.

(** ** The script of the wait Job, as a function

    [transform] of the Starlark script that [buildWaitJobMutator] writes, for
    the strings the reconciler puts into it; they stand in string literals, so
    the function is the script's meaning when they hold no double quote,
    backslash or line break (names of Kubernetes objects hold none). A
    Starlark value is written as the JSON value it is converted from and to;
    the result is [None] when Starlark stops with an error. *)

Module starlark.
Import unstructured.

(** The truth value of a value: [None], [False], zero, and the empty string,
    list and dict are false. *)
Definition truth (v : value) : bool :=
  match v with
  | Nil => false
  | Bool b => b
  | Int64 i => negb (i =? 0)%Z
  | Float64 bits => negb (Z.land bits (2 ^ 63 - 1) =? 0)%Z
  | Str s => negb (s =? "")
  | Slice l => negb (length l =? 0)%nat
  | Map m => negb (size m =? 0)%nat
  end.

(** [d.get(key, default)]; an error unless [d] is a dict. *)
Definition get (d : value) (key : string) (dflt : value) : option value :=
  match d with
  | Map m => Some (default dflt (m !! key))
  | _ => None
  end.

(** [s + v] for a string [s]; an error unless [v] is a string. *)
Definition plus (s : string) (v : value) : option string :=
  match v with
  | Str t => Some (s ++ t)
  | _ => None
  end.

(** [v == s] for a string [s]. *)
Definition equals (v : value) (s : string) : bool :=
  match v with
  | Str t => t =? s
  | _ => false
  end.

(** [prefix + name + " -n " + ns + " --timeout=15m"] *)
Definition rolloutStatus (prefix : string) (name ns : value) : option string :=
  s ← plus prefix name;
  s ← plus (s ++ " -n ") ns;
  Some (s ++ " --timeout=15m").

(** The [for resource in resource_list["items"]] loop. *)
Fixpoint scan (items : list value) (target_namespace : value)
    (specific_wait_commands : list string) : option (value * list string) :=
  match items with
  | [] => Some (target_namespace, specific_wait_commands)
  | resource :: rest =>
    kind ← get resource "kind" (Str "");
    metadata ← get resource "metadata" (Map ∅);
    name ← get metadata "name" (Str "");
    ns ← get metadata "namespace" (Str "");
    (* Store the target namespace from the first namespaced resource *)
    let target_namespace :=
      if truth ns && negb (truth target_namespace) then ns else target_namespace in
    (* Collect specific wait commands for known workload resources *)
    specific_wait_commands ←
      (if equals kind "Deployment" && truth name && truth ns then
         command ← rolloutStatus "kubectl rollout status deployment/" name ns;
         Some (specific_wait_commands ++ [command])%list
       else if equals kind "StatefulSet" && truth name && truth ns then
         command ← rolloutStatus "kubectl rollout status statefulset/" name ns;
         Some (specific_wait_commands ++ [command])%list
       else if equals kind "DaemonSet" && truth name && truth ns then
         command ← rolloutStatus "kubectl rollout status daemonset/" name ns;
         Some (specific_wait_commands ++ [command])%list
       else Some specific_wait_commands);
    scan rest target_namespace specific_wait_commands
  end.

(** "Generic wait: just add a delay to ensure resources have time to deploy" *)
Definition genericWait (target_namespace : string) : string :=
  "echo 'Waiting for resources to be created in namespace " ++ target_namespace
    ++ "...' && sleep 10 && echo 'Proceeding to next group'".

Section Script.
Variables namespace syncWave appBundleName groupName componentName randomSuffix : string.

Definition waitLabels : value :=
  Map {[ "app.example.com/appbundle" := Str appBundleName;
         "app.example.com/wait-job" := Str "true" ]}.
Definition waveAnnotations : value :=
  Map {[ "argocd.argoproj.io/sync-wave" := Str syncWave ]}.

Definition sa_yaml (target_namespace : value) : value :=
  Map {[ "apiVersion" := Str "v1";
         "kind" := Str "ServiceAccount";
         "metadata" := Map {[ "name" := Str "appbundle-wait-reader";
                              "namespace" := target_namespace;
                              "annotations" := waveAnnotations;
                              "labels" := waitLabels ]} ]}.

Definition readRule (apiGroup : string) (resources : list string) : value :=
  Map {[ "apiGroups" := Slice [Str apiGroup];
         "resources" := Slice (map Str resources);
         "verbs" := Slice [Str "get"; Str "list"; Str "watch"] ]}.

Definition clusterrole_yaml (readerName : string) : value :=
  Map {[ "apiVersion" := Str "rbac.authorization.k8s.io/v1";
         "kind" := Str "ClusterRole";
         "metadata" := Map {[ "name" := Str readerName;
                              "annotations" := waveAnnotations;
                              "labels" := waitLabels ]};
         "rules" :=
           Slice [ readRule "apps" ["deployments"; "deployments/status"; "statefulsets";
                                    "statefulsets/status"; "daemonsets";
                                    "daemonsets/status"];
                   readRule "batch" ["jobs"; "jobs/status"];
                   readRule "" ["pods"; "pods/status"; "services"] ] ]}.

Definition clusterrolebinding_yaml (readerName : string) (target_namespace : value)
    : value :=
  Map {[ "apiVersion" := Str "rbac.authorization.k8s.io/v1";
         "kind" := Str "ClusterRoleBinding";
         "metadata" := Map {[ "name" := Str readerName;
                              "annotations" := waveAnnotations;
                              "labels" := waitLabels ]};
         "roleRef" := Map {[ "apiGroup" := Str "rbac.authorization.k8s.io";
                             "kind" := Str "ClusterRole";
                             "name" := Str readerName ]};
         "subjects" := Slice [ Map {[ "kind" := Str "ServiceAccount";
                                      "name" := Str "appbundle-wait-reader";
                                      "namespace" := target_namespace ]} ] ]}.

Definition job_yaml (target_namespace : value) (wait_script : string) : value :=
  Map {[ "apiVersion" := Str "batch/v1";
         "kind" := Str "Job";
         "metadata" :=
           Map {[ "name" := Str ("wait-" ++ groupName ++ "-" ++ componentName ++ "-"
                                   ++ randomSuffix);
                  "namespace" := target_namespace;
                  "annotations" :=
                    Map {[ "argocd.argoproj.io/hook" := Str "Sync";
                           "argocd.argoproj.io/sync-wave" := Str syncWave ]};
                  "labels" :=
                    Map {[ "app.example.com/appbundle" := Str appBundleName;
                           "app.example.com/group" := Str groupName;
                           "app.example.com/component" := Str componentName;
                           "app.example.com/wait-job" := Str "true" ]} ]};
         "spec" :=
           Map {[ "ttlSecondsAfterFinished" := Int64 300;
                  "backoffLimit" := Int64 3;
                  "template" :=
                    Map {[ "spec" :=
                      Map {[ "restartPolicy" := Str "Never";
                             "serviceAccountName" := Str "appbundle-wait-reader";
                             "containers" :=
                               Slice [ Map {[ "name" := Str "wait";
                                              "image" := Str "bitnami/kubectl:latest";
                                              "command" := Slice [Str "sh"; Str "-c"];
                                              "args" := Slice [Str wait_script] ]} ] ]} ]} ]} ]}.

(** [def transform(resource_list)]: the resource list as the function leaves
    it. *)
Definition transform (resource_list : value) : option value :=
  match resource_list with
  | Map fields =>
    match fields !! "items" with
    | Some (Slice items) =>
      (* Scan all resources in the package to determine namespace and
         specific resources *)
      '(target_namespace, specific_wait_commands) ← scan items Nil [];
      (* If no specific namespace found, use default *)
      let target_namespace :=
        if negb (truth target_namespace) then Str namespace else target_namespace in
      (* Build wait script - always create a wait job *)
      wait_script ←
        (if negb (length specific_wait_commands =? 0)%nat
         then Some (String.concat " && " specific_wait_commands)
         else
           s ← plus "echo 'Waiting for resources to be created in namespace "
                    target_namespace;
           Some (s ++ "...' && sleep 10 && echo 'Proceeding to next group'"));
      (* First, create ServiceAccount; then the ClusterRole for reading
         resource status and the ClusterRoleBinding *)
      readerName ← plus "appbundle-wait-reader-" target_namespace;
      (* Finally, create the wait Job *)
      Some (Map (<["items" :=
                    Slice (items ++ [ sa_yaml target_namespace;
                                      clusterrole_yaml readerName;
                                      clusterrolebinding_yaml readerName target_namespace;
                                      job_yaml target_namespace wait_script ])%list]>
                   fields))
    | _ => None
    end
  | _ => None
  end.
End Script.
End starlark.

(** ** An in-memory cluster with a clock

    The in-memory cluster again, for the latest revision: objects have a
    content, the clock advances while the reconciler waits, and an agenda
    tells what the other controllers do meanwhile: at its time an entry sets
    the status of an object, if the object is there. *)

Module timed.
Import unstructured.

Record Cluster := mk {
  bundles : gmap (string * string) AppBundle.t;
  objects : gmap fake.ObjKey latest.Obj;
  revision : Z;
  (** nanoseconds since the epoch *)
  clock : Z;
  agenda : list (Z * (fake.ObjKey * value)) }.

Definition keyOf (o : latest.Obj) : fake.ObjKey := fake.keyOf (latest.Typed o).

Definition get (gvk : GroupVersionKind.t) (key : NamespacedName.t) (c : Cluster)
    : error.t + latest.Obj :=
  match objects c !! fake.objKey gvk key with
  | Some o => inr o
  | None => inl (fake.notFound (NamespacedName.Name key))
  end.

(** The objects of the list's kind in the namespace, by key. *)
Definition list_ (gvk : GroupVersionKind.t) (namespace : string) (c : Cluster)
    : error.t + list latest.Obj :=
  inr (map snd
         (filter (fun ko : fake.ObjKey * latest.Obj =>
                    ko.1.1.1 = GroupVersionKind.APIVersion gvk
                    /\ (ko.1.1.2 ++ "List")%string = GroupVersionKind.Kind gvk
                    /\ ko.1.2.1 = namespace)
                 (map_to_list (objects c)))).

Definition withObjects (objs : gmap fake.ObjKey latest.Obj) (rv : Z) (c : Cluster)
    : Cluster :=
  mk (bundles c) objs rv (clock c) (agenda c).
Definition withBundles (bs : gmap (string * string) AppBundle.t) (c : Cluster)
    : Cluster :=
  mk bs (objects c) (revision c) (clock c) (agenda c).

Definition store (o : latest.Obj) (c : Cluster) : latest.Obj * Cluster :=
  let rv := revision c + 1 in
  let o' := latest.SetResourceVersion (GoInt.Itoa rv) o in
  (o', withObjects (<[keyOf o := o']> (objects c)) rv c).

Definition create (o : latest.Obj) (c : Cluster) : (error.t + latest.Obj) * Cluster :=
  match objects c !! keyOf o with
  | Some _ => (inl (fake.alreadyExists (latest.GetName o)), c)
  | None => let (o', c') := store o c in (inr o', c')
  end.

(** An update keeps the status as it is stored. *)
Definition keepStatus (existing o : latest.Obj) : latest.Obj :=
  latest.withObject
    (match latest.Object existing !! "status" with
     | Some st => <["status" := st]> (latest.Object o)
     | None => delete "status" (latest.Object o)
     end) o.

Definition update (o : latest.Obj) (c : Cluster) : (error.t + latest.Obj) * Cluster :=
  match objects c !! keyOf o with
  | None => (inl (fake.notFound (latest.GetName o)), c)
  | Some existing =>
      if (latest.GetResourceVersion o =? "")
         || (latest.GetResourceVersion o =? latest.GetResourceVersion existing)
      then let (o', c') := store (keepStatus existing o) c in (inr o', c')
      else (inl (fake.conflict (latest.GetName o)), c)
  end.

Definition delete_ (o : latest.Obj) (c : Cluster) : option error.t * Cluster :=
  match objects c !! keyOf o with
  | None => (Some (fake.notFound (latest.GetName o)), c)
  | Some _ => (None, withObjects (delete (keyOf o) (objects c)) (revision c) c)
  end.

Definition getBundle (key : NamespacedName.t) (c : Cluster) : error.t + AppBundle.t :=
  match bundles c !! (NamespacedName.Namespace key, NamespacedName.Name key) with
  | Some b => inr b
  | None => inl (fake.notFound (NamespacedName.Name key))
  end.

Definition updateBundle (b : AppBundle.t) (c : Cluster) : option error.t * Cluster :=
  match bundles c !! fake.bundleKey b with
  | None => (Some (fake.notFound (AppBundle.Name b)), c)
  | Some stored =>
      if beingDeleted stored && fake.newFinalizers b stored
      then (Some (fake.forbidden (AppBundle.Name b)), c)
      else
        let b' := AppBundle.withStatus (AppBundle.Status stored) b in
        match ObjectMeta.DeletionTimestamp (AppBundle.Meta b),
              ObjectMeta.Finalizers (AppBundle.Meta b) with
        | Some _, [] => (None, withBundles (delete (fake.bundleKey b) (bundles c)) c)
        | _, _ => (None, withBundles (<[fake.bundleKey b := b']> (bundles c)) c)
        end
  end.

Definition statusUpdate (b : AppBundle.t) (c : Cluster) : option error.t * Cluster :=
  match bundles c !! fake.bundleKey b with
  | None => (Some (fake.notFound (AppBundle.Name b)), c)
  | Some stored =>
      (None,
       withBundles
         (<[fake.bundleKey b := AppBundle.withStatus (AppBundle.Status b) stored]>
            (bundles c)) c)
  end.

(** What the entry [(at, (key, status))] of the agenda does when the clock
    goes from [from] to [to]. *)
Definition due (from to : Z) (objs : gmap fake.ObjKey latest.Obj)
    (entry : Z * (fake.ObjKey * value)) : gmap fake.ObjKey latest.Obj :=
  if (from <? entry.1)%Z && (entry.1 <=? to)%Z then
    match objs !! entry.2.1 with
    | Some o =>
        <[entry.2.1 := latest.withObject (<["status" := entry.2.2]> (latest.Object o)) o]>
          objs
    | None => objs
    end
  else objs.

Definition sleep (d : time.Duration) (c : Cluster) : Cluster :=
  let to := clock c + d in
  mk (bundles c) (fold_left (due (clock c) to) (agenda c) (objects c)) (revision c) to
     (agenda c).

(** [time.Now()], in seconds. *)
Definition now (c : Cluster) : Time := clock c / time.Second.

#[global] Instance cluster : latest.Cluster Cluster := {|
  latest.GetBundle := getBundle;
  latest.UpdateBundle := updateBundle;
  latest.StatusUpdate := statusUpdate;
  latest.Get := get;
  latest.List := list_;
  latest.Create := create;
  latest.Update := update;
  latest.Delete := delete_;
  latest.Now := now;
  latest.Sleep := sleep |}.

(** A cluster holding just the bundle [b], with the clock at [at] seconds and
    the agenda [todo]. *)
Definition holding (b : AppBundle.t) (at_ : Z) (todo : list (Z * (fake.ObjKey * value)))
    : Cluster :=
  mk {[fake.bundleKey b := b]} ∅ 0 (at_ * time.Second) todo.

(** [json.Unmarshal], by the stand-in decoder; the content is left empty. *)
Definition decode (raw : list Byte.byte) : error.t + latest.Obj :=
  match demo.decode raw with
  | inl err => inl err
  | inr typed => inr (latest.mkObj typed ∅)
  end.

(** [controllerutil.SetControllerReference] on an object with content. *)
Definition SetControllerReference (owner : ObjectMeta.t) (o : latest.Obj)
    : error.t + latest.Obj :=
  match controllerutil.SetControllerReference owner (latest.Typed o) with
  | inl err => inl err
  | inr typed => inr (latest.mkObj typed (latest.Object o))
  end.

(** The fields [PackageName] and [Repository], read off the name of the
    reference, written [repository/package]. *)
Definition Repository (ref : PorchPackageReference.t) : string :=
  controllerutil.beforeSlash (PorchPackageReference.Name ref).
Fixpoint afterSlash (s : string) : string :=
  match s with
  | EmptyString => ""
  | String c rest => if Ascii.eqb c "/"%char then rest else afterSlash rest
  end.
Definition PackageName (ref : PorchPackageReference.t) : string :=
  afterSlash (PorchPackageReference.Name ref).

Definition run {A} (m : latest.T Cluster A) (c : Cluster) : A * latest.Run Cluster :=
  m (latest.mkRun c []).

Definition Reconcile :=
  latest.Reconcile (W := Cluster) decode demo.insertionSort SetControllerReference
    samples.Sprint PackageName Repository.
Definition reconcileComponent :=
  latest.reconcileComponent (W := Cluster) decode SetControllerReference
    samples.Sprint PackageName Repository.

(** A status with the conditions [l]. *)
Definition conditions (l : list value) : value := Map {[ "conditions" := Slice l ]}.
End timed.

(** Scenario C of the specification: a Job that never gains a condition. *)
Module scenarioC.
Definition c : Component.t := demo.component "migrate" 0 "batch/v1|Job||migrate".
Definition g : Group.t := Group.mk "jobs" 0 [c].
Definition b : AppBundle.t := demo.bundle "batch" "default" [] None None [g].
Definition start : timed.Cluster := timed.holding b 1000 [].
Definition run := timed.run (timed.reconcileComponent b g c 0) start.
Definition jobKey : fake.ObjKey := ("batch/v1", "Job", ("default", "migrate")).
Definition jobGVK : GroupVersionKind.t := GroupVersionKind.mk "batch/v1" "Job".
Definition jobName : NamespacedName.t := NamespacedName.mk "default" "migrate".
(** The manifest as parsed, as sent, and the apply on its own. *)
Definition parsed : latest.Obj := latest.named "batch/v1" "Job" "migrate" "".
Definition sent : latest.Obj := latest.prepared timed.SetControllerReference b g c 0 parsed.
Definition apply := timed.run (latest.applyObject sent).
Definition created : latest.Obj := fst (timed.store sent start).
End scenarioC.

(** The same Job, marked failed by its controller five seconds after the
    pass begins. *)
Module failedJob.
Definition start : timed.Cluster :=
  timed.holding scenarioC.b 1000
    [ (1005 * time.Second,
       (scenarioC.jobKey, timed.conditions [samples.condition "Failed" "True"])) ].
Definition run :=
  timed.run (timed.reconcileComponent scenarioC.b scenarioC.g scenarioC.c 0) start.
(** The cluster once the Job is applied. *)
Definition applied : timed.Cluster := latest.cluster (snd (scenarioC.apply start)).
End failedJob.

(** Scenario D of the specification: a bundle with a Namespace and a
    Deployment, marked for deletion while it holds the finalizer; the
    Namespace is in the cluster, the Deployment is gone already. *)
Module scenarioD.
Definition b : AppBundle.t :=
  demo.bundle "shop" "default" [appBundleFinalizer] (Some 1500) None
    [ Group.mk "infrastructure" 0 [demo.component "ns" 0 "v1|Namespace||shop"];
      Group.mk "application" 1 [demo.component "web" 0 "apps/v1|Deployment||web"] ].
Definition namespace : latest.Obj := latest.named "v1" "Namespace" "shop" "default".
Definition deployment : latest.Obj := latest.named "apps/v1" "Deployment" "web" "default".
Definition start : timed.Cluster :=
  snd (timed.create namespace (timed.holding b 2000 [])).
Definition pass := timed.run (timed.Reconcile (demo.req b)) start.
End scenarioD.

(** Scenario E of the specification: a component that references a package
    whose resources hold no workload; Porch reports the PackageVariant ready
    three seconds after the pass begins. *)
Module scenarioE.
Definition ref : PorchPackageReference.t :=
  PorchPackageReference.mk "catalog/settings" "" "".
Definition c : Component.t := Component.mk "settings" 2 [] (Some ref).
Definition g : Group.t := Group.mk "platform" 1 [c].
Definition b : AppBundle.t :=
  demo.bundle "shop" "default" [appBundleFinalizer] None
    (Some (PorchIntegrationSpec.mk true "deployments")) [g].
Definition pvKey : fake.ObjKey :=
  ("config.porch.kpt.dev/v1alpha1", "PackageVariant", ("default", "appbundle-settings")).
Definition start : timed.Cluster :=
  timed.holding b 1700012345
    [ (1700012348 * time.Second,
       (pvKey, timed.conditions [samples.condition "Ready" "True"])) ].
Definition run := timed.run (timed.reconcileComponent b g c 100) start.

(** What the package holds when the pipeline runs: a ConfigMap. *)
Definition configMap : unstructured.value :=
  unstructured.Map
    {[ "apiVersion" := unstructured.Str "v1";
       "kind" := unstructured.Str "ConfigMap";
       "metadata" := unstructured.Map {[ "name" := unstructured.Str "settings" ]} ]}.
Definition resource_list : unstructured.value :=
  unstructured.Map {[ "items" := unstructured.Slice [configMap] ]}.
Definition pvName : NamespacedName.t := NamespacedName.mk "default" "appbundle-settings".
End scenarioE.

(** ** What the latest revision is checked against *)

(** The cluster after [n] waits of [d] each. *)
Definition slept {W} `{!latest.Cluster W} (d : time.Duration) (n : nat) (w : W) : W :=
  Nat.iter n (latest.Sleep d) w.

(** The cluster after the deletes of [targets], in turn. *)
Definition deleted {W} `{!latest.Cluster W} (targets : list latest.Obj) (w : W) : W :=
  fold_left (fun w o => snd (latest.Delete o w)) targets w.

(** [all] is [l] rearranged by descending key. *)
Definition descendingBy {A} (key : A -> Z) (l all : list A) : Prop :=
  Permutation all l /\ StronglySorted (fun a b => key b <= key a) all.

(** [visited] lists the components of [groups] group by group, the groups
    by descending order and the components of each by descending order. *)
Definition inReverseOrder (groups : list Group.t) (visited : list (Group.t * Component.t))
    : Prop :=
  exists (sortedGroups : list Group.t) (sortedComponents : Group.t -> list Component.t),
    descendingBy Group.Order groups sortedGroups
    /\ (forall g, descendingBy Component.Order (Group.Components g) (sortedComponents g))
    /\ visited = flat_map (fun g => map (pair g) (sortedComponents g)) sortedGroups.

(** The manifest [parsed] in the namespace it names, or else the bundle's. *)
Definition inBundleNamespace (appBundle : AppBundle.t) (parsed : latest.Obj) : latest.Obj :=
  if (latest.GetNamespace parsed =? "") && negb (AppBundle.Namespace appBundle =? "")
  then latest.SetNamespace (AppBundle.Namespace appBundle) parsed
  else parsed.

(** What [status.conditions] of an object lists, when it can be read: nothing
    when the status or the conditions are absent; [None] when one of them is
    of another type than it should be. *)
Definition statusConditions (obj : unstructured.Object) : option (list unstructured.value) :=
  match obj !! "status" with
  | None | Some unstructured.Nil => Some []
  | Some (unstructured.Map status) =>
      match status !! "conditions" with
      | None => Some []
      | Some (unstructured.Slice l) => Some l
      | Some _ => None
      end
  | Some _ => None
  end.

(** Some entry of [l] is a condition of type [t] with status [st]. *)
Definition hasCondition (t st : string) (l : list unstructured.value) : bool :=
  existsb (fun val => match typeAndStatus val with
                      | Some (t', st') => (t' =? t) && (st' =? st)
                      | None => false
                      end) l.

(** What a probe answers is no Job with a condition Complete=True. *)
Definition notComplete (answer : error.t + latest.Obj) : bool :=
  match answer with
  | inl _ => true
  | inr current =>
      match statusConditions (latest.Object current) with
      | Some l => negb (hasCondition "Complete" "True" l)
      | None => true
      end
  end.

(** What a probe answers is a Job still under way: not found, or found with
    conditions that can be read and list neither Complete=True nor
    Failed=True. *)
Definition underWay (answer : error.t + latest.Obj) : bool :=
  match answer with
  | inl err => error.IsNotFound err
  | inr current =>
      match statusConditions (latest.Object current) with
      | Some l => negb (hasCondition "Complete" "True" l)
                  && negb (hasCondition "Failed" "True" l)
      | None => false
      end
  end.

(** The probes and waits of a poll that runs into its deadline after [n]
    rounds of [d] each, on the cluster [w]. *)
Definition pollEvents {W} `{!latest.Cluster W} (gvk : GroupVersionKind.t)
    (key : NamespacedName.t) (d : time.Duration) (n : nat) (w : W) : list latest.Event :=
  flat_map (fun i => [latest.EvGet gvk key (latest.Get gvk key (slept d i w));
                      latest.EvWait d])
           (seq 0 n).

(** The event is a read or a wait. *)
Definition readsOnly (e : latest.Event) : bool :=
  match e with
  | latest.EvGet _ _ _ | latest.EvList _ _ _ | latest.EvWait _ => true
  | _ => false
  end.

(** What the condition polled for a Job makes of what a probe answers. *)
Definition jobVerdict (Sprint : unstructured.value -> string)
    (answer : error.t + latest.Obj) : bool * option error.t :=
  match answer with
  | inl err => if error.IsNotFound err then (false, None) else (false, Some err)
  | inr current => later.isJobComplete Sprint (latest.Object current)
  end.

(** [p] holds of every number below [k]. *)
Definition below (k : nat) (p : nat -> bool) : bool := forallb p (seq 0 k).

(** The pass [m] only reads and waits: the events it adds hold no write. *)
Definition onlyReads {W A} (m : latest.T W A) : Prop :=
  forall s, exists rest,
    latest.events (snd (m s)) = (latest.events s ++ rest)%list
    /\ forallb readsOnly rest = true.

(** The mutators of the pipeline of a PackageVariant. *)
Definition pipelineOf (pv : latest.Obj) : option (list unstructured.value) :=
  match latest.Object pv !! "spec" with
  | Some (unstructured.Map spec) =>
      match spec !! "pipeline" with
      | Some (unstructured.Map pipeline) =>
          match pipeline !! "mutators" with
          | Some (unstructured.Slice mutators) => Some mutators
          | _ => None
          end
      | _ => None
      end
  | _ => None
  end.

(** The field is absent or a string. *)
Definition stringIfAny (field : option unstructured.value) : bool :=
  match field with
  | None | Some (unstructured.Str _) => true
  | Some _ => false
  end.

(** The item is a resource as a package holds them: a dict whose metadata,
    if any, is a dict whose name and namespace, if any, are strings. *)
Definition resource (item : unstructured.value) : bool :=
  match item with
  | unstructured.Map fields =>
      match fields !! "metadata" with
      | None => true
      | Some (unstructured.Map metadata) =>
          stringIfAny (metadata !! "name") && stringIfAny (metadata !! "namespace")
      | Some _ => false
      end
  | _ => false
  end.

(** The script takes the item for a workload to wait for: a Deployment,
    StatefulSet or DaemonSet with a name and a namespace. *)
Definition recognised (item : unstructured.value) : bool :=
  match item with
  | unstructured.Map fields =>
      match default (unstructured.Map ∅) (fields !! "metadata") with
      | unstructured.Map metadata =>
          let kind := default (unstructured.Str "") (fields !! "kind") in
          (starlark.equals kind "Deployment" || starlark.equals kind "StatefulSet"
           || starlark.equals kind "DaemonSet")
          && starlark.truth (default (unstructured.Str "") (metadata !! "name"))
          && starlark.truth (default (unstructured.Str "") (metadata !! "namespace"))
      | _ => false
      end
  | _ => false
  end.

(** What the script appends: the ServiceAccount, the ClusterRole, the
    ClusterRoleBinding and the wait Job. *)
Definition waitResources (syncWave appBundleName groupName componentName randomSuffix : string)
    (target_namespace : unstructured.value) (readerName wait_script : string)
    : list unstructured.value :=
  [ starlark.sa_yaml syncWave appBundleName target_namespace;
    starlark.clusterrole_yaml syncWave appBundleName readerName;
    starlark.clusterrolebinding_yaml syncWave appBundleName readerName target_namespace;
    starlark.job_yaml syncWave appBundleName groupName componentName randomSuffix
      target_namespace wait_script ].

(** [script] is a Job whose one container runs [sh -c] on [wait_script]. *)
Definition runs (job : unstructured.value) (wait_script : string) : Prop :=
  exists fields spec template podSpec container,
    job = unstructured.Map fields
    /\ fields !! "kind" = Some (unstructured.Str "Job")
    /\ fields !! "spec" = Some (unstructured.Map spec)
    /\ spec !! "template" = Some (unstructured.Map template)
    /\ template !! "spec" = Some (unstructured.Map podSpec)
    /\ podSpec !! "containers" = Some (unstructured.Slice [unstructured.Map container])
    /\ container !! "command"
       = Some (unstructured.Slice [unstructured.Str "sh"; unstructured.Str "-c"])
    /\ container !! "args" = Some (unstructured.Slice [unstructured.Str wait_script]).

(** * Properties *)

(** ** Sync waves *)

Lemma wrap_id z : GoInt.in_range z -> GoInt.wrap z = z.
Proof.
  unfold GoInt.in_range, GoInt.min_int, GoInt.max_int, GoInt.wrap. intros Hz.
  rewrite Z.mod_small; lia.
Qed.

Lemma syncWave_exact g c :
  0 <= Group.Order g -> Group.Order g * 100 + 99 <= GoInt.max_int ->
  0 <= Component.Order c < 100 ->
  syncWave g c = Group.Order g * 100 + Component.Order c.
Proof.
  intros Hg Hmax Hc. unfold syncWave, GoInt.add, GoInt.mul.
  rewrite (wrap_id (Group.Order g * 100)).
  - apply wrap_id. unfold GoInt.in_range, GoInt.min_int, GoInt.max_int in *. lia.
  - unfold GoInt.in_range, GoInt.min_int, GoInt.max_int in *. lia.
Qed.

(** The examples of the README: group 2, component 3 gives 203; group 10,
    component 1 gives 1001. *)
Example syncWave_readme :
  map (syncWave waves.g3) (Group.Components waves.g3) = [203; 299]
  /\ map (syncWave waves.g10) (Group.Components waves.g10) = [1001].
Proof. split; reflexivity. Qed.

(** The annotation [reconcileComponent] writes, called as [reconcileGroup]
    calls it, is this wave in decimal. *)
Lemma decorate_wave b g c obj :
  Unstructured.Annotations (decorate b g c (GoInt.mul (Group.Order g) 100) obj)
    !! argoSyncWaveAnnotation
  = Some (GoInt.Itoa (syncWave g c)).
Proof.
  unfold decorate, syncWave. simpl.
  destruct (_ && _); simpl; apply lookup_insert_eq.
Qed.

(** Scenario A of the specification: the Namespace and the Deployment are
    created with waves "0" and "100", and the bundle ends Deployed. *)
Example scenarioA_waves :
  createdWaves (calls (snd scenarioA.pass1))
  = [("Namespace", Some "0"); ("Deployment", Some "100")]
  /\ option_map (fun b => AppBundleStatus.Phase (AppBundle.Status b))
                (fst (fst scenarioA.pass1)) = Some PhaseDeployed.
Proof. split; vm_compute; reflexivity. Qed.

(** C1, as stated, fails: a group of one component (fewer than 100) whose
    component has order 100 reaches the wave of the next group's first
    component; [group.Order * 100 + component.Order] bounds nothing by the
    number of components. *)
Lemma waves_collide_with_few_components :
  Group.Order waves.g1 < Group.Order waves.g2
  /\ (length (Group.Components waves.g1) < 100)%nat
  /\ (length (Group.Components waves.g2) < 100)%nat
  /\ ~ wavesSeparated waves.g1 waves.g2.
Proof.
  repeat split; simpl; try lia.
  intros H.
  specialize (H (demo.component "late" 100 "v1|ConfigMap||a")
                (demo.component "early" 0 "v1|ConfigMap||b")).
  assert (syncWave waves.g1 (demo.component "late" 100 "v1|ConfigMap||a")
          < syncWave waves.g2 (demo.component "early" 0 "v1|ConfigMap||b")) as Hlt.
  { apply H; left; reflexivity. }
  vm_compute in Hlt. discriminate.
Qed.

(** C1, amended: for groups [g1], [g2] with [g1.Order < g2.Order], orders
    not negative and small enough for the wave to fit a Go [int], and every
    component order between 0 and 99, every wave of [g1] is strictly
    smaller than every wave of [g2]. *)
Theorem waves_separate_groups (g1 g2 : Group.t) :
  0 <= Group.Order g1 ->
  Group.Order g1 < Group.Order g2 ->
  Group.Order g2 * 100 + 99 <= GoInt.max_int ->
  ordersBelow100 g1 -> ordersBelow100 g2 ->
  wavesSeparated g1 g2.
Proof.
  intros H0 Hlt Hmax Hc1 Hc2 c1 c2 Hin1 Hin2.
  rewrite (syncWave_exact g1 c1), (syncWave_exact g2 c2); auto; try lia.
  specialize (Hc1 c1 Hin1). specialize (Hc2 c2 Hin2). lia.
Qed.

Lemma waves_separate_groups_witness : wavesSeparated waves.g3 waves.g10.
Proof.
  apply (waves_separate_groups waves.g3 waves.g10).
  - simpl. lia.
  - simpl. lia.
  - unfold GoInt.max_int. simpl. lia.
  - intros c [<- | [<- | []]]; simpl; lia.
  - intros c [<- | []]; simpl; lia.
Defined.

(** ** One component *)

Lemma phase_deployed_not_failed : PhaseDeployed <> PhaseFailed.
Proof. discriminate. Qed.

Section ComponentFacts.
Context {W : Type} `{!Client W}.
Variable json_Unmarshal : list Byte.byte -> error.t + Unstructured.t.
Variable SetControllerReference :
  ObjectMeta.t -> Unstructured.t -> error.t + Unstructured.t.

Local Abbreviation reconcileComponent :=
  (reconcileComponent json_Unmarshal SetControllerReference).

(** [reconcileComponent] in its named steps. *)
Lemma reconcileComponent_steps b g c base :
  reconcileComponent b g c base =
  match json_Unmarshal (Component.Template c) with
  | inl err => ret (failedWith "Failed to parse template: " err (initialStatus c))
  | inr obj =>
      match SetControllerReference (AppBundle.Meta b) (decorate b g c base obj) with
      | inl err =>
          ret (failedWith "Failed to set owner reference: " err (initialStatus c))
      | inr obj => applyObject obj (initialStatus c)
      end
  end.
Proof. reflexivity. Qed.

(** [applyObject] call by call. *)
Lemma applyObject_run obj cst (s : St W) :
  applyObject obj cst s =
  let w := world s in
  let got :=
    CallGet (Unstructured.GroupVersionKind obj) (Unstructured.Key obj) (probe obj w) in
  match probe obj w with
  | inl err =>
      if error.IsNotFound err then
        match Create obj w with
        | (inl e, w') =>
            (failedWith "Failed to create resource: " e cst,
             mkSt w' (calls s ++ [got; CallCreate obj]))
        | (inr o, w') =>
            (deployedWith o cst, mkSt w' (calls s ++ [got; CallCreate obj]))
        end
      else (failedWith "Failed to get existing resource: " err cst,
            mkSt w (calls s ++ [got]))
  | inr existingObj =>
      let obj :=
        Unstructured.SetResourceVersion (Unstructured.ResourceVersion existingObj) obj in
      match Update obj w with
      | (inl e, w') =>
          (failedWith "Failed to update resource: " e cst,
           mkSt w' (calls s ++ [got; CallUpdate obj]))
      | (inr o, w') =>
          (deployedWith o cst, mkSt w' (calls s ++ [got; CallUpdate obj]))
      end
  end.
Proof.
  destruct s as [w log].
  unfold applyObject, probe, bind, r_Get, r_Create, r_Update, ret, logged. simpl.
  destruct (Get _ _ w) as [err | existing]; simpl.
  - destruct (error.IsNotFound err); simpl; [| done].
    destruct (Create obj w) as [[e | o] w1]; simpl; by rewrite <- app_assoc.
  - destruct (Update _ w) as [[e | o] w1]; simpl; by rewrite <- app_assoc.
Qed.

(** A probe and a write that succeed: two calls, and the component is
    deployed. *)
Lemma applyObject_applied obj cst (s : St W) call stored w' :
  appliedOn obj (world s) = Some (call, stored, w') ->
  applyObject obj cst s =
    (deployedWith stored cst,
     mkSt w' (calls s ++ [CallGet (Unstructured.GroupVersionKind obj)
                                  (Unstructured.Key obj) (probe obj (world s)); call])).
Proof.
  rewrite applyObject_run. unfold appliedOn. cbv zeta.
  destruct (probe obj (world s)) as [err | existing].
  - destruct (error.IsNotFound err); [| discriminate].
    destruct (Create obj (world s)) as [[e | o] w1]; [discriminate |].
    by intros [= <- <- <-].
  - destruct (Update _ (world s)) as [[e | o] w1]; [discriminate |].
    by intros [= <- <- <-].
Qed.

(** Whatever the cluster answers, [applyObject] either fails, leaving the
    reference unset, or has applied the object. *)
Lemma applyObject_outcome obj cst (s : St W) :
  (exists prefix err, fst (applyObject obj cst s) = failedWith prefix err cst)
  \/ (exists call stored,
        appliedOn obj (world s) = Some (call, stored, world (snd (applyObject obj cst s)))
        /\ fst (applyObject obj cst s) = deployedWith stored cst).
Proof.
  rewrite applyObject_run. unfold appliedOn. cbv zeta.
  destruct (probe obj (world s)) as [err | existing].
  - destruct (error.IsNotFound err); [| left; eauto].
    destruct (Create obj (world s)) as [[e | o] w1]; simpl; [left; eauto |].
    right. eauto.
  - destruct (Update _ (world s)) as [[e | o] w1]; simpl; [left; eauto |].
    right. eauto.
Qed.

(** C10: the status [reconcileComponent] returns carries a ResourceRef if
    and only if its phase is Deployed; whenever an error is returned
    (template parse error, owner-reference error, get, create or update
    error) the phase is Failed and the ResourceRef is nil; when none is
    returned the manifest was parsed, decorated and owned, a probe and a
    write of it succeeded, and the ResourceRef holds, field by field, the
    apiVersion, kind, name and namespace of the object as that write
    answered it. *)
Theorem resourceRef_iff_deployed b g c base (s : St W) :
  let r := reconcileComponent b g c base s in
  let componentStatus := fst (fst r) in
  (is_Some (ComponentStatus.ResourceRef componentStatus)
     <-> ComponentStatus.Phase componentStatus = PhaseDeployed)
  /\ (is_Some (snd (fst r)) ->
        ComponentStatus.Phase componentStatus = PhaseFailed
        /\ ComponentStatus.ResourceRef componentStatus = None)
  /\ (snd (fst r) = None ->
        exists parsed obj call stored,
          json_Unmarshal (Component.Template c) = inr parsed
          /\ SetControllerReference (AppBundle.Meta b) (decorate b g c base parsed)
             = inr obj
          /\ appliedOn obj (world s) = Some (call, stored, world (snd r))
          /\ ComponentStatus.Phase componentStatus = PhaseDeployed
          /\ ComponentStatus.ResourceRef componentStatus
             = Some (ResourceReference.mk
                       (Unstructured.APIVersion stored) (Unstructured.Kind stored)
                       (Unstructured.Name stored) (Unstructured.Namespace stored))).
Proof.
  cbv zeta. rewrite reconcileComponent_steps.
  destruct (json_Unmarshal (Component.Template c)) as [err | parsed] eqn:Hparse.
  { simpl. split; [split; [intros [? [=]] | intros [=]] |].
    split; [done | intros [=]]. }
  destruct (SetControllerReference _ _) as [err | obj] eqn:Hown.
  { simpl. split; [split; [intros [? [=]] | intros [=]] |].
    split; [done | intros [=]]. }
  destruct (applyObject_outcome obj (initialStatus c) s)
    as [(prefix & err & Hf) | (call & stored & Happ & Hd)].
  - destruct (applyObject obj (initialStatus c) s) as [[cst e] s'].
    simpl in *. injection Hf as -> ->. simpl.
    split; [split; [intros [? [=]] | intros [=]] |].
    split; [done | intros [=]].
  - destruct (applyObject obj (initialStatus c) s) as [[cst e] s'].
    simpl in *. injection Hd as -> ->. simpl.
    split; [split; [done | eauto] |].
    split; [intros [? [=]] |].
    intros _. exists parsed, obj, call, stored. done.
Qed.


End ComponentFacts.

(** On the bundle with one Job the success path is taken: the reference
    names the Job in the bundle's namespace. *)
Lemma resourceRef_iff_deployed_witness :
  snd (fst (demo.reconcileComponent jobs.b jobs.g jobs.c 0 jobsRun.s)) = None
  /\ exists stored,
       ComponentStatus.ResourceRef
         (fst (fst (demo.reconcileComponent jobs.b jobs.g jobs.c 0 jobsRun.s)))
       = Some (ResourceReference.mk
                 (Unstructured.APIVersion stored) (Unstructured.Kind stored)
                 (Unstructured.Name stored) (Unstructured.Namespace stored))
       /\ (Unstructured.APIVersion stored, Unstructured.Kind stored,
           Unstructured.Name stored, Unstructured.Namespace stored)
          = ("batch/v1", "Job", "migrate", "default").
Proof.
  assert (snd (fst (demo.reconcileComponent jobs.b jobs.g jobs.c 0 jobsRun.s)) = None)
    as Hnone by (vm_compute; reflexivity).
  split; [exact Hnone |].
  destruct (proj2 (proj2 (resourceRef_iff_deployed (W := fake.Cluster) demo.decode
                            controllerutil.SetControllerReference
                            jobs.b jobs.g jobs.c 0 jobsRun.s)) Hnone)
    as (parsed & obj & call & stored & Hparse & Hown & Happ & _ & Href).
  exists stored. split; [exact Href |].
  assert (Some (ResourceReference.mk
                  (Unstructured.APIVersion stored) (Unstructured.Kind stored)
                  (Unstructured.Name stored) (Unstructured.Namespace stored))
          = Some (ResourceReference.mk "batch/v1" "Job" "migrate" "default")) as Heq.
  { rewrite <- Href. vm_compute. reflexivity. }
  by injection Heq as -> -> -> ->.
Defined.




(** ** The owner reference *)

Lemma decorate_namespace b g c base obj :
  Unstructured.Namespace (decorate b g c base obj) =
  if (Unstructured.Namespace obj =? "") && negb (AppBundle.Namespace b =? "")
  then AppBundle.Namespace b else Unstructured.Namespace obj.
Proof. unfold decorate. simpl. by destruct (_ && _). Qed.

Lemma upsert_In ref refs : In ref (controllerutil.upsert ref refs).
Proof.
  induction refs as [| r rest IH]; simpl; [by left |].
  destruct (controllerutil.referSameObject r ref); simpl; auto.
Qed.

Section OwnerReferencePolicy.
Context {W : Type} `{!Client W}.
Variable json_Unmarshal : list Byte.byte -> error.t + Unstructured.t.

(** What the code does with owner references: the controller reference to
    the bundle is requested for every manifest. For a bundle in a namespace:
    when the resource's resolved namespace differs from the bundle's, the
    request is refused, the component is Failed with a "Failed to set owner
    reference" message, the error is returned and no call is made on the
    cluster; when it is the bundle's and the manifest names no controller,
    the object that is applied carries the reference. *)
Lemma owner_reference_policy b g c base (s : St W) parsed :
  json_Unmarshal (Component.Template c) = inr parsed ->
  AppBundle.Namespace b <> "" ->
  let resolved := decorate b g c base parsed in
  let r := reconcileComponent json_Unmarshal controllerutil.SetControllerReference
             b g c base s in
  (Unstructured.Namespace resolved <> AppBundle.Namespace b ->
     exists err,
       r = (failedWith "Failed to set owner reference: " err (initialStatus c), s))
  /\ (Unstructured.Namespace resolved = AppBundle.Namespace b ->
      controllerutil.GetControllerOf resolved = None ->
      exists owned,
        hasController (AppBundle.Meta b) owned
        /\ r = applyObject owned (initialStatus c) s).
Proof.
  intros Hparse Hns resolved r. subst r.
  rewrite reconcileComponent_steps, Hparse. fold resolved.
  unfold controllerutil.SetControllerReference, controllerutil.validateOwner.
  change (ObjectMeta.Namespace (AppBundle.Meta b)) with (AppBundle.Namespace b).
  destruct (String.eqb_spec (AppBundle.Namespace b) "") as [? | _]; [done |].
  split.
  - intros Hdiff.
    destruct (String.eqb_spec (Unstructured.Namespace resolved) "") as [Hempty | _].
    + eexists. reflexivity.
    + destruct (String.eqb_spec (AppBundle.Namespace b) (Unstructured.Namespace resolved))
        as [Heq | _]; [by rewrite Heq in Hdiff |].
      simpl. eexists. reflexivity.
  - intros Hsame Hnone. rewrite Hsame, Hnone.
    destruct (String.eqb_spec (AppBundle.Namespace b) "") as [? | _]; [done |].
    rewrite String.eqb_refl. simpl.
    eexists. split; [| reflexivity].
    unfold hasController. simpl. apply upsert_In.
Qed.
End OwnerReferencePolicy.

(** For the ConfigMap of the README's example the lemma applies. *)
Lemma readme_configmap_refused :
  exists err,
    demo.reconcileComponent readme.b readme.infrastructure readme.configmap 0
      (mkSt (fake.holding readme.b) [])
    = (failedWith "Failed to set owner reference: " err (initialStatus readme.configmap),
       mkSt (fake.holding readme.b) []).
Proof.
  refine (proj1 (owner_reference_policy (W := fake.Cluster) demo.decode
                   readme.b readme.infrastructure readme.configmap 0
                   (mkSt (fake.holding readme.b) []) readme.parsed _ _) _).
  - vm_compute. reflexivity.
  - vm_compute. discriminate.
  - vm_compute. discriminate.
Qed.

(** C6 on the code: a controller owner reference is to be set only if the
    resource's resolved namespace is the bundle's and left out otherwise,
    the component deploying all the same. On the README's basic example the
    code does otherwise: the ConfigMap's namespace [my-app] is not the
    bundle's [default], the owner reference is requested nevertheless and
    refused, the component is Failed with that error and nothing of it is
    applied; its group and the bundle end Failed, and the Deployment of the
    next group is never reconciled. *)
Theorem readme_example_fails_on_owner_reference :
  demo.decode (Component.Template readme.configmap) = inr readme.parsed
  /\ Unstructured.Namespace
       (decorate readme.b readme.infrastructure readme.configmap 0 readme.parsed)
     = "my-app"
  /\ AppBundle.Namespace readme.b = "default"
  /\ fst readme.run
     = (ComponentStatus.mk "configmap" PhaseFailed
          ("Failed to set owner reference: cross-namespace owner references are "
             ++ "disallowed, owner's namespace default, obj's namespace my-app")
          None,
        Some (error.mk
                ("cross-namespace owner references are disallowed, "
                   ++ "owner's namespace default, obj's namespace my-app") false))
  /\ calls (snd readme.run) = []
  /\ readme.bundlePhase (fst (fst readme.pass)) = Some PhaseFailed
  /\ option_map phasesOf (fst (fst readme.pass))
     = Some [(PhaseFailed, [("namespace", PhaseDeployed); ("configmap", PhaseFailed)])]
  /\ writtenKinds (calls (snd readme.pass)) = ["Namespace"].
Proof. repeat split; vm_compute; reflexivity. Qed.

(** ** The calls on the client *)

Section Calls.
Context {W : Type} `{!Client W}.

Lemma r_GetBundle_run key (s : St W) :
  r_GetBundle key s =
  (GetBundle key (world s), mkSt (world s) (calls s ++ [CallGetBundle key])).
Proof. reflexivity. Qed.

Lemma r_UpdateBundle_run b (s : St W) :
  r_UpdateBundle b s =
  (fst (UpdateBundle b (world s)),
   mkSt (snd (UpdateBundle b (world s))) (calls s ++ [CallUpdateBundle b])).
Proof. unfold r_UpdateBundle, logged. by destruct (UpdateBundle b (world s)). Qed.

Lemma r_Status_Update_run b (s : St W) :
  r_Status_Update b s =
  (fst (StatusUpdate b (world s)),
   mkSt (snd (StatusUpdate b (world s))) (calls s ++ [CallStatusUpdate b])).
Proof. unfold r_Status_Update, logged. by destruct (StatusUpdate b (world s)). Qed.

Lemma bind_run {A B} (m : M W A) (k : A -> M W B) (s : St W) :
  bind m k s = k (fst (m s)) (snd (m s)).
Proof. unfold bind. by destruct (m s). Qed.
End Calls.

(** ** Errors stop the pass *)

Section Propagation.
Context {W : Type} `{!Client W}.
Variable json_Unmarshal : list Byte.byte -> error.t + Unstructured.t.
Variable sort_Slice : forall A : Type, (A -> A -> bool) -> list A -> list A.
Variable SetControllerReference :
  ObjectMeta.t -> Unstructured.t -> error.t + Unstructured.t.

Local Abbreviation reconcileComponent :=
  (reconcileComponent json_Unmarshal SetControllerReference).
Local Abbreviation reconcileComponents :=
  (reconcileComponents json_Unmarshal SetControllerReference).
Local Abbreviation reconcileGroup :=
  (reconcileGroup json_Unmarshal sort_Slice SetControllerReference).
Local Abbreviation reconcileGroups :=
  (reconcileGroups json_Unmarshal sort_Slice SetControllerReference).
Local Abbreviation deployGroups :=
  (deployGroups json_Unmarshal sort_Slice SetControllerReference).

(** An error comes with a Failed status whose message ends in it. *)
Lemma reconcileComponent_error b g c base (s s' : St W) cst err :
  reconcileComponent b g c base s = ((cst, Some err), s') ->
  exists prefix,
    cst = ComponentStatus.mk (Component.Name c) PhaseFailed (prefix ++ error.Error err) None.
Proof.
  rewrite reconcileComponent_steps.
  destruct (json_Unmarshal _) as [e | parsed]; [intros [= <- <- <-]; eauto |].
  destruct (SetControllerReference _ _) as [e | obj]; [intros [= <- <- <-]; eauto |].
  rewrite applyObject_run. cbv zeta.
  destruct (probe obj (world s)) as [e | existing].
  - destruct (error.IsNotFound e); [| intros [= <- <- <-]; eauto].
    destruct (Create obj (world s)) as [[e' | o] w1]; intros [= <- <- <-]. eauto.
  - destruct (Update _ (world s)) as [[e' | o] w1]; intros [= <- <- <-]. eauto.
Qed.

(** The loop over components, cut in two. *)
Lemma reconcileComponents_app b g base pre rest gs (s : St W) :
  reconcileComponents b g base (pre ++ rest) gs s =
  match reconcileComponents b g base pre gs s with
  | ((gs', None), s') => reconcileComponents b g base rest gs' s'
  | failed => failed
  end.
Proof.
  revert gs s. induction pre as [| c pre IH]; intros gs s; [reflexivity |].
  simpl. rewrite !bind_run.
  destruct (reconcileComponent b g c base s) as [[cst [err |]] s1]; simpl; [reflexivity |].
  apply IH.
Qed.

Lemma reconcileComponents_name b g base cs gs (s : St W) :
  GroupStatus.Name (fst (fst (reconcileComponents b g base cs gs s))) = GroupStatus.Name gs.
Proof.
  revert gs s. induction cs as [| c cs IH]; intros gs s; [reflexivity |].
  simpl. rewrite bind_run.
  destruct (reconcileComponent b g c base s) as [[cst [err |]] s1]; simpl; [reflexivity |].
  by rewrite IH.
Qed.

(** The loop over groups, cut in two. *)
Lemma reconcileGroups_app b pre rest (s : St W) :
  reconcileGroups b (pre ++ rest) s =
  match reconcileGroups b pre s with
  | ((b', None), s') => reconcileGroups b' rest s'
  | failed => failed
  end.
Proof.
  revert b s. induction pre as [| g pre IH]; intros b s; [reflexivity |].
  simpl. rewrite !bind_run.
  destruct (reconcileGroup b g s) as [[gst [err |]] s1]; simpl; [reflexivity |].
  apply IH.
Qed.

(** C2: when, in a pass, the groups before [g] and the components of [g]
    before [c] (both in sorted order) have been reconciled and reconciling
    [c] returns an error, then [c]'s status is Failed with the error message,
    [g]'s status is Failed, the bundle's status is Failed with the error's
    message, and nothing more is reconciled: the group is left in the state
    the failing component left, and the pass makes one more call only, the
    status update. *)
Theorem component_error_fails_pass now b0 gpre g gpost cpre c cpost
    (s0 s1 s2 s3 : St W) b1 gs1 cst err :
  let start :=
    AppBundle.mapStatus (AppBundleStatus.withGroupStatuses [])
      (AppBundle.mapStatus (AppBundleStatus.withPhase PhaseDeploying) b0) in
  let base := GoInt.mul (Group.Order g) 100 in
  sort_Slice _ groupLess (AppBundleSpec.Groups (AppBundle.Spec b0)) = (gpre ++ g :: gpost)%list ->
  reconcileGroups start gpre s0 = ((b1, None), s1) ->
  sort_Slice _ componentLess (Group.Components g) = (cpre ++ c :: cpost)%list ->
  reconcileComponents b1 g base cpre
    (GroupStatus.mk (Group.Name g) PhaseDeploying "" []) s1 = ((gs1, None), s2) ->
  reconcileComponent b1 g c base s2 = ((cst, Some err), s3) ->
  let r := deployGroups now b0 s0 in
  let final := AppBundle.Status (fst (fst r)) in
  let gst :=
    GroupStatus.mk (Group.Name g) PhaseFailed
      ("Failed to deploy component " ++ Component.Name c ++ ": " ++ error.Error err)
      (GroupStatus.ComponentStatuses gs1 ++ [cst]) in
  ComponentStatus.Phase cst = PhaseFailed
  /\ (exists prefix, ComponentStatus.Message cst = prefix ++ error.Error err)
  /\ reconcileGroup b1 g s1 = ((gst, Some err), s3)
  /\ AppBundleStatus.Phase final = PhaseFailed
  /\ AppBundleStatus.Message final = error.Error err
  /\ AppBundleStatus.GroupStatuses final
     = (AppBundleStatus.GroupStatuses (AppBundle.Status b1) ++ [gst])%list
  /\ calls (snd r) = (calls s3 ++ [CallStatusUpdate (fst (fst r))])%list
  /\ is_Some (snd (fst r)).
Proof.
  intros start base Hgroups Hpre Hcomps Hcpre Hc r final gst.
  destruct (reconcileComponent_error _ _ _ _ _ _ _ _ Hc) as [prefix ->].
  assert (reconcileGroup b1 g s1 = ((gst, Some err), s3)) as Hg.
  { unfold reconcileGroup. rewrite Hcomps, bind_run.
    fold base. rewrite reconcileComponents_app, Hcpre. simpl.
    rewrite bind_run. fold base. rewrite Hc. simpl. unfold ret, gst.
    pose proof (reconcileComponents_name b1 g base cpre
                  (GroupStatus.mk (Group.Name g) PhaseDeploying "" []) s1) as Hname.
    rewrite Hcpre in Hname. simpl in Hname.
    unfold GroupStatus.appendComponentStatus. simpl. by rewrite Hname. }
  split; [reflexivity |]. split; [by eexists |]. split; [exact Hg |].
  subst r final. unfold deployGroups.
  rewrite Hgroups, bind_run. fold start.
  rewrite reconcileGroups_app, Hpre. simpl.
  rewrite bind_run, Hg. simpl.
  unfold updateStatusWithError. rewrite bind_run, r_Status_Update_run. simpl.
  destruct (fst (StatusUpdate _ (world s3))); simpl; repeat split; by eauto.
Qed.

End Propagation.

Lemma component_error_fails_pass_witness :
  AppBundleStatus.Phase (AppBundle.Status (fst (fst broken.deploy))) = PhaseFailed
  /\ phasesOf (fst (fst broken.deploy))
     = [(PhaseDeployed, [("ns", PhaseDeployed)]);
        (PhaseFailed, [("config", PhaseDeployed); ("oops", PhaseFailed)])].
Proof.
  split; [| vm_compute; reflexivity].
  refine (proj1 (proj2 (proj2 (proj2
    (component_error_fails_pass (W := fake.Cluster) demo.decode
       demo.insertionSort controllerutil.SetControllerReference 1000
       broken.b [broken.g0] broken.g1 [broken.g2]
       [broken.good1] broken.bad [broken.good2]
       broken.s0 brokenRun.s1 brokenRun.s2 brokenRun.s2
       brokenRun.b1 brokenRun.gs1 brokenRun.cst brokenRun.err _ _ _ _ _))))).
  - vm_compute. reflexivity.
  - vm_compute. reflexivity.
  - vm_compute. reflexivity.
  - vm_compute. reflexivity.
  - vm_compute. reflexivity.
Defined.

(** ** Finalization *)

Section Finalization.
Context {W : Type} `{!Client W}.
Variable json_Unmarshal : list Byte.byte -> error.t + Unstructured.t.
Variable sort_Slice : forall A : Type, (A -> A -> bool) -> list A -> list A.
Variable SetControllerReference :
  ObjectMeta.t -> Unstructured.t -> error.t + Unstructured.t.

Local Abbreviation Reconcile :=
  (Reconcile json_Unmarshal sort_Slice SetControllerReference).

End Finalization.



(** ** What a pass writes *)

Lemma grownBy_refl {W} P (s : St W) : grownBy P s s.
Proof. exists []. by rewrite app_nil_r. Qed.

Lemma grownBy_trans {W} P (s1 s2 s3 : St W) :
  grownBy P s1 s2 -> grownBy P s2 s3 -> grownBy P s1 s3.
Proof.
  intros (l1 & H1 & F1) (l2 & H2 & F2). exists (l1 ++ l2)%list.
  split; [by rewrite H2, H1, app_assoc | by apply Forall_app].
Qed.

Lemma grownBy_weaken {W} (P Q : Call -> Prop) (s s' : St W) :
  (forall c, P c -> Q c) -> grownBy P s s' -> grownBy Q s s'.
Proof.
  intros HPQ (l & H & F). exists l. split; [done |].
  eapply Forall_impl; eauto.
Qed.

Lemma grownBy_calls {W} P (s : St W) w l :
  Forall P l -> grownBy P s (mkSt w (calls s ++ l)).
Proof. intros F. by exists l. Qed.

Section PassFacts.
Context {W : Type} `{!Client W}.
Variable json_Unmarshal : list Byte.byte -> error.t + Unstructured.t.
Variable sort_Slice : forall A : Type, (A -> A -> bool) -> list A -> list A.
Variable SetControllerReference :
  ObjectMeta.t -> Unstructured.t -> error.t + Unstructured.t.

Local Abbreviation reconcileComponent :=
  (reconcileComponent json_Unmarshal SetControllerReference).
Local Abbreviation reconcileComponents :=
  (reconcileComponents json_Unmarshal SetControllerReference).
Local Abbreviation reconcileGroup :=
  (reconcileGroup json_Unmarshal sort_Slice SetControllerReference).
Local Abbreviation reconcileGroups :=
  (reconcileGroups json_Unmarshal sort_Slice SetControllerReference).
Local Abbreviation collectGroupStatuses :=
  (collectGroupStatuses json_Unmarshal sort_Slice SetControllerReference).
Local Abbreviation deployGroups :=
  (deployGroups json_Unmarshal sort_Slice SetControllerReference).
Local Abbreviation Reconcile :=
  (Reconcile json_Unmarshal sort_Slice SetControllerReference).

(** Of the bundle, reconciling a component reads the metadata only. *)
Lemma reconcileComponent_meta b b' g c base :
  AppBundle.Meta b = AppBundle.Meta b' ->
  reconcileComponent b g c base = reconcileComponent b' g c base.
Proof.
  intros Hmeta. unfold reconcileComponent, AppBundle.Name, AppBundle.Namespace.
  by rewrite Hmeta.
Qed.

Lemma reconcileComponents_meta b b' g base cs gs (s : St W) :
  AppBundle.Meta b = AppBundle.Meta b' ->
  reconcileComponents b g base cs gs s = reconcileComponents b' g base cs gs s.
Proof.
  intros Hmeta. revert gs s. induction cs as [| c cs IH]; intros gs s; [reflexivity |].
  simpl. rewrite (reconcileComponent_meta b b' g c base Hmeta), !bind_run.
  destruct (reconcileComponent b' g c base s) as [[cst [err |]] s1]; simpl; [reflexivity |].
  apply IH.
Qed.

Lemma reconcileGroup_meta b b' g (s : St W) :
  AppBundle.Meta b = AppBundle.Meta b' ->
  reconcileGroup b g s = reconcileGroup b' g s.
Proof.
  intros Hmeta. unfold reconcileGroup.
  by rewrite !bind_run, (reconcileComponents_meta b b' _ _ _ _ _ Hmeta).
Qed.

Lemma collectGroupStatuses_meta b b' gs (s : St W) :
  AppBundle.Meta b = AppBundle.Meta b' ->
  collectGroupStatuses b gs s = collectGroupStatuses b' gs s.
Proof.
  intros Hmeta. revert s. induction gs as [| g gs IH]; intros s; [reflexivity |].
  simpl. rewrite !bind_run, (reconcileGroup_meta b b' g s Hmeta).
  destruct (reconcileGroup b' g s) as [[gst [err |]] s1]; simpl; [reflexivity |].
  by rewrite !bind_run, IH.
Qed.

(** The loop of [Reconcile] appends the collected statuses to the bundle and
    changes nothing else of it. *)
Lemma reconcileGroups_collect b gs (s : St W) :
  reconcileGroups b gs s =
  let r := collectGroupStatuses b gs s in
  ((appendGroupStatuses (fst (fst r)) b, snd (fst r)), snd r).
Proof.
  revert b s. induction gs as [| g gs IH]; intros b s.
  - destruct b as [m sp [p msg sts og cs]].
    unfold appendGroupStatuses, AppBundle.mapStatus, AppBundle.withStatus,
      AppBundleStatus.withGroupStatuses. simpl. unfold ret.
    by rewrite (app_nil_r sts).
  - simpl. rewrite !bind_run.
    destruct (reconcileGroup b g s) as [[gst [err |]] s1]; simpl; [reflexivity |].
    rewrite IH, !bind_run. simpl.
    rewrite (collectGroupStatuses_meta (appendGroupStatus gst b) b gs s1) by reflexivity.
    destruct (collectGroupStatuses b gs s1) as [[sts e] s2]. simpl.
    unfold ret. simpl. f_equal. f_equal.
    destruct b as [m sp [p msg sts0 og cs]]. unfold appendGroupStatuses, appendGroupStatus.
    simpl. unfold AppBundle.mapStatus, AppBundle.withStatus, AppBundleStatus.withGroupStatuses.
    simpl. by rewrite <- app_assoc.
Qed.

(** Reconciling components calls the client on objects only. *)
Lemma reconcileComponent_calls b g c base (s : St W) :
  grownBy objectCall s (snd (reconcileComponent b g c base s)).
Proof.
  rewrite reconcileComponent_steps.
  destruct (json_Unmarshal _) as [e | parsed]; [apply grownBy_refl |].
  destruct (SetControllerReference _ _) as [e | obj]; [apply grownBy_refl |].
  rewrite applyObject_run. cbv zeta.
  destruct (probe obj (world s)) as [e | existing].
  - destruct (error.IsNotFound e).
    + destruct (Create obj (world s)) as [[e' | o] w1]; simpl;
        apply grownBy_calls; repeat constructor.
    + simpl. apply grownBy_calls; repeat constructor.
  - destruct (Update _ (world s)) as [[e' | o] w1]; simpl;
      apply grownBy_calls; repeat constructor.
Qed.

Lemma reconcileComponents_calls b g base cs gs (s : St W) :
  grownBy objectCall s (snd (reconcileComponents b g base cs gs s)).
Proof.
  revert gs s. induction cs as [| c cs IH]; intros gs s; [apply grownBy_refl |].
  simpl. rewrite bind_run.
  pose proof (reconcileComponent_calls b g c base s) as Hc.
  destruct (reconcileComponent b g c base s) as [[cst [err |]] s1]; simpl in *; [done |].
  eapply grownBy_trans; [exact Hc | apply IH].
Qed.

Lemma reconcileGroup_calls b g (s : St W) :
  grownBy objectCall s (snd (reconcileGroup b g s)).
Proof.
  unfold reconcileGroup. rewrite bind_run.
  pose proof (reconcileComponents_calls b g (GoInt.mul (Group.Order g) 100)
                (sort_Slice _ componentLess (Group.Components g))
                (GroupStatus.mk (Group.Name g) PhaseDeploying "" []) s) as Hc.
  destruct (reconcileComponents _ _ _ _ _ s) as [[gst [err |]] s1]; simpl in *; done.
Qed.

Lemma collectGroupStatuses_calls b gs (s : St W) :
  grownBy objectCall s (snd (collectGroupStatuses b gs s)).
Proof.
  revert s. induction gs as [| g gs IH]; intros s; [apply grownBy_refl |].
  simpl. rewrite bind_run.
  pose proof (reconcileGroup_calls b g s) as Hg.
  destruct (reconcileGroup b g s) as [[gst [err |]] s1]; simpl in *; [done |].
  rewrite bind_run. specialize (IH s1).
  destruct (collectGroupStatuses b gs s1) as [[sts e] s2]. simpl in *.
  eapply grownBy_trans; eauto.
Qed.

(** The deployment in terms of the collected statuses. *)
Lemma deployGroups_run now b (s : St W) :
  deployGroups now b s =
  let start :=
    AppBundle.mapStatus (AppBundleStatus.withGroupStatuses [])
      (AppBundle.mapStatus (AppBundleStatus.withPhase PhaseDeploying) b) in
  let r :=
    collectGroupStatuses start
      (sort_Slice _ groupLess (AppBundleSpec.Groups (AppBundle.Spec b))) s in
  let b1 := appendGroupStatuses (fst (fst r)) start in
  match snd (fst r) with
  | Some err => updateStatusWithError now b1 err (snd r)
  | None =>
      let b2 :=
        setReadyCondition now ConditionTrue "DeploymentComplete"
          "All resources deployed successfully"
          (AppBundle.mapStatus
             (AppBundleStatus.withObservedGeneration (AppBundle.Generation b1))
             (AppBundle.mapStatus
                (AppBundleStatus.withMessage "All groups deployed successfully")
                (AppBundle.mapStatus (AppBundleStatus.withPhase PhaseDeployed) b1))) in
      ((b2, fst (StatusUpdate b2 (world (snd r)))),
       mkSt (snd (StatusUpdate b2 (world (snd r))))
            (calls (snd r) ++ [CallStatusUpdate b2]))
  end.
Proof.
  unfold deployGroups. rewrite bind_run, reconcileGroups_collect. cbv zeta.
  destruct (collectGroupStatuses _ _ s) as [[sts [err |]] s1]; simpl; [reflexivity |].
  by rewrite bind_run, r_Status_Update_run.
Qed.

Lemma updateStatusWithError_run now b err (s : St W) :
  updateStatusWithError now b err s =
  let b' :=
    setReadyCondition now ConditionFalse "DeploymentFailed" (error.Error err)
      (AppBundle.mapStatus (AppBundleStatus.withMessage (error.Error err))
         (AppBundle.mapStatus (AppBundleStatus.withPhase PhaseFailed) b)) in
  ((b', Some (default err (fst (StatusUpdate b' (world s))))),
   mkSt (snd (StatusUpdate b' (world s))) (calls s ++ [CallStatusUpdate b'])).
Proof.
  unfold updateStatusWithError. rewrite bind_run, r_Status_Update_run. cbv zeta. simpl.
  by destruct (fst (StatusUpdate _ (world s))).
Qed.

(** The deployment leaves spec and metadata alone, in memory and in what it
    writes. *)
Lemma deployGroups_writes now b (s : St W) :
  let r := deployGroups now b s in
  AppBundle.Spec (fst (fst r)) = AppBundle.Spec b
  /\ AppBundle.Meta (fst (fst r)) = AppBundle.Meta b
  /\ grownBy (deployCall b) s (snd r).
Proof.
  cbv zeta. rewrite deployGroups_run. cbv zeta.
  pose proof (collectGroupStatuses_calls
                (AppBundle.mapStatus (AppBundleStatus.withGroupStatuses [])
                   (AppBundle.mapStatus (AppBundleStatus.withPhase PhaseDeploying) b))
                (sort_Slice _ groupLess (AppBundleSpec.Groups (AppBundle.Spec b))) s)
    as Hcalls.
  apply (grownBy_weaken _ (deployCall b)) in Hcalls; [| by left].
  destruct (collectGroupStatuses _ _ s) as [[sts [err |]] s1]; simpl in *.
  - rewrite updateStatusWithError_run. simpl.
    split; [done |]. split; [done |].
    eapply grownBy_trans; [exact Hcalls |].
    apply grownBy_calls. constructor; [| constructor].
    right. eexists. split; [reflexivity |]. done.
  - split; [done |]. split; [done |].
    eapply grownBy_trans; [exact Hcalls |].
    apply grownBy_calls. constructor; [| constructor].
    right. eexists. split; [reflexivity |]. done.
Qed.

(** Phase, message and group statuses of the deployment's outcome are
    computed afresh: what they were before the pass does not matter. *)
Lemma deployGroups_recomputes now b p m gs (s : St W) :
  deployGroups now (withPrevious p m gs b) s = deployGroups now b s.
Proof.
  rewrite !deployGroups_run. cbv zeta.
  change (AppBundle.Spec (withPrevious p m gs b)) with (AppBundle.Spec b).
  set (sorted := sort_Slice _ groupLess (AppBundleSpec.Groups (AppBundle.Spec b))).
  rewrite (collectGroupStatuses_meta
             (AppBundle.mapStatus (AppBundleStatus.withGroupStatuses [])
                (AppBundle.mapStatus (AppBundleStatus.withPhase PhaseDeploying)
                   (withPrevious p m gs b)))
             (AppBundle.mapStatus (AppBundleStatus.withGroupStatuses [])
                (AppBundle.mapStatus (AppBundleStatus.withPhase PhaseDeploying) b))
             sorted s) by reflexivity.
  destruct (collectGroupStatuses _ sorted s) as [[sts [err |]] s1]; simpl.
  - rewrite !updateStatusWithError_run. reflexivity.
  - reflexivity.
Qed.

Lemma beingDeleted_AddFinalizer b f :
  beingDeleted (controllerutil.AddFinalizer b f) = beingDeleted b.
Proof. unfold controllerutil.AddFinalizer. by destruct (controllerutil.ContainsFinalizer b f). Qed.

Lemma AddFinalizer_spec b f :
  AppBundle.Spec (controllerutil.AddFinalizer b f) = AppBundle.Spec b
  /\ AppBundle.Status (controllerutil.AddFinalizer b f) = AppBundle.Status b.
Proof. unfold controllerutil.AddFinalizer. by destruct (controllerutil.ContainsFinalizer b f). Qed.

End PassFacts.

(** C9, as stated, fails: the first pass over a live bundle without the
    finalizer token updates the bundle object itself, with the token added
    to its metadata, before any status is written. *)
Lemma first_pass_updates_the_bundle :
  beingDeleted scenarioA.b = false
  /\ calls (snd scenarioA.pass1) !! 1%nat
     = Some (CallUpdateBundle
               (controllerutil.AddFinalizer scenarioA.b appBundleFinalizer))
  /\ ~ onlyStatusWritten (calls (snd scenarioA.pass1)).
Proof.
  assert (calls (snd scenarioA.pass1) !! 1%nat
          = Some (CallUpdateBundle
                    (controllerutil.AddFinalizer scenarioA.b appBundleFinalizer)))
    as Hcall by (vm_compute; reflexivity).
  split; [reflexivity |]. split; [exact Hcall |].
  intros Hall. exact (Forall_lookup_1 _ _ _ _ Hall Hcall).
Qed.

(** ** Processing order *)

Section InsertionSort.
Context {A : Type} (key : A -> Z) (cmp : A -> A -> bool).
Hypothesis cmp_true : forall x y, cmp x y = true -> key x <= key y.
Hypothesis cmp_false : forall x y, cmp x y = false -> key y <= key x.

Local Abbreviation descending := (StronglySorted (fun a b => key b <= key a)).
Local Abbreviation ascending := (StronglySorted (fun a b => key a <= key b)).

Lemma insert_perm x l : Permutation (demo.insert cmp x l) (x :: l).
Proof.
  induction l as [| y l IH]; simpl; [done |].
  destruct (cmp x y); [| done].
  rewrite IH. apply perm_swap.
Qed.

Lemma insert_descending x l : descending l -> descending (demo.insert cmp x l).
Proof.
  induction l as [| y l IH]; simpl; intros Hl.
  - repeat constructor.
  - apply StronglySorted_cons in Hl as [Hy Hl].
    destruct (cmp x y) eqn:Hxy.
    + apply StronglySorted_cons. split; [| by apply IH].
      rewrite (insert_perm x l). constructor; [by apply cmp_true | done].
    + apply StronglySorted_cons. split; [| by apply StronglySorted_cons].
      constructor; [by apply cmp_false |].
      eapply Forall_impl; [exact Hy |]. intros z Hz. simpl in Hz.
      pose proof (cmp_false _ _ Hxy). lia.
Qed.

Lemma descending_rev l : descending l -> ascending (rev l).
Proof.
  induction l as [| x l IH]; simpl; intros Hl; [constructor |].
  apply StronglySorted_cons in Hl as [Hx Hl].
  apply StronglySorted_app. split; [| split; [by apply IH | repeat constructor]].
  intros a b Ha Hb. apply list_elem_of_singleton in Hb as ->.
  rewrite Forall_forall in Hx. apply Hx.
  apply list_elem_of_In, in_rev. by apply list_elem_of_In.
Qed.

Lemma insertionSortFrom_perm acc l :
  Permutation (demo.insertionSortFrom cmp acc l) (rev acc ++ l).
Proof.
  revert acc. induction l as [| x l IH]; intros acc; simpl.
  - by rewrite app_nil_r.
  - rewrite IH, <- !Permutation_rev, insert_perm, <- Permutation_middle. done.
Qed.

Lemma insertionSortFrom_ascending acc l :
  descending acc -> ascending (demo.insertionSortFrom cmp acc l).
Proof.
  revert acc. induction l as [| x l IH]; intros acc Hacc; simpl.
  - by apply descending_rev.
  - apply IH. by apply insert_descending.
Qed.
End InsertionSort.

Lemma insertionSort_contract : sortContract demo.insertionSort.
Proof.
  intros A key l. cbv zeta. unfold demo.insertionSort. split.
  - by rewrite insertionSortFrom_perm.
  - apply (insertionSortFrom_ascending key); [| | constructor].
    + intros x y Hlt. apply Z.ltb_lt in Hlt. lia.
    + intros x y Hge. apply Z.ltb_ge in Hge. lia.
Qed.

Section Ordering.
Context {W : Type} `{!Client W}.
Variable json_Unmarshal : list Byte.byte -> error.t + Unstructured.t.
Variable sort_Slice : forall A : Type, (A -> A -> bool) -> list A -> list A.
Variable SetControllerReference :
  ObjectMeta.t -> Unstructured.t -> error.t + Unstructured.t.
Hypothesis sort_Slice_contract : sortContract sort_Slice.

Local Abbreviation reconcileComponent :=
  (reconcileComponent json_Unmarshal SetControllerReference).
Local Abbreviation reconcileComponents :=
  (reconcileComponents json_Unmarshal SetControllerReference).
Local Abbreviation reconcileGroup :=
  (reconcileGroup json_Unmarshal sort_Slice SetControllerReference).
Local Abbreviation collectGroupStatuses :=
  (collectGroupStatuses json_Unmarshal sort_Slice SetControllerReference).
Local Abbreviation deployGroups :=
  (deployGroups json_Unmarshal sort_Slice SetControllerReference).

Lemma reconcileComponent_name b g c base (s : St W) :
  ComponentStatus.Name (fst (fst (reconcileComponent b g c base s))) = Component.Name c.
Proof.
  rewrite reconcileComponent_steps.
  destruct (json_Unmarshal _) as [e | parsed]; [reflexivity |].
  destruct (SetControllerReference _ _) as [e | obj]; [reflexivity |].
  rewrite applyObject_run. cbv zeta.
  destruct (probe obj (world s)) as [e | existing].
  - destruct (error.IsNotFound e); [| reflexivity].
    by destruct (Create obj (world s)) as [[e' | o] w1].
  - by destruct (Update _ (world s)) as [[e' | o] w1].
Qed.

(** The statuses the loop appends are those of a prefix of the list it ranges
    over; of the whole list when it returns no error. *)
Lemma reconcileComponents_processed b g base cs gs (s : St W) :
  let r := reconcileComponents b g base cs gs s in
  exists processed rest,
    cs = (processed ++ rest)%list
    /\ map ComponentStatus.Name (GroupStatus.ComponentStatuses (fst (fst r)))
       = (map ComponentStatus.Name (GroupStatus.ComponentStatuses gs)
            ++ map Component.Name processed)%list
    /\ (snd (fst r) = None -> rest = [])
    /\ (is_Some (snd (fst r)) -> GroupStatus.Phase (fst (fst r)) = PhaseFailed).
Proof.
  cbv zeta. revert gs s. induction cs as [| c cs IH]; intros gs s.
  - exists [], []. simpl. rewrite app_nil_r. repeat split; try done; by intros [? [=]].
  - simpl. rewrite bind_run.
    pose proof (reconcileComponent_name b g c base s) as Hname.
    destruct (reconcileComponent b g c base s) as [[cst [err |]] s1]; simpl in *.
    + exists [c], cs. simpl. rewrite map_app. simpl. rewrite Hname.
      repeat split; done.
    + destruct (IH (GroupStatus.appendComponentStatus cst gs) s1)
        as (processed & rest & -> & Hnames & Hnone & Hfail).
      exists (c :: processed), rest. simpl in *.
      rewrite Hnames, map_app. simpl. rewrite Hname, <- app_assoc.
      repeat split; done.
Qed.

Lemma reconcileGroup_processed b g (s : St W) :
  let r := reconcileGroup b g s in
  processedGroup g (fst (fst r))
  /\ (is_Some (snd (fst r)) -> GroupStatus.Phase (fst (fst r)) = PhaseFailed).
Proof.
  cbv zeta. unfold reconcileGroup. rewrite bind_run.
  set (sorted := sort_Slice _ componentLess (Group.Components g)).
  set (init := GroupStatus.mk (Group.Name g) PhaseDeploying "" []).
  set (base := GoInt.mul (Group.Order g) 100).
  destruct (sort_Slice_contract _ Component.Order (Group.Components g)) as [Hperm Hsorted].
  fold componentLess in Hperm, Hsorted. fold sorted in Hperm, Hsorted.
  pose proof (reconcileComponents_name json_Unmarshal SetControllerReference
                b g base sorted init s) as Hname.
  destruct (reconcileComponents_processed b g base sorted init s)
    as (processed & rest & Hsplit & Hnames & Hnone & Hfail).
  destruct (reconcileComponents b g base sorted init s) as [[gst [err |]] s1]; simpl in *.
  - split; [| by intros _; apply Hfail].
    split; [done |]. exists processed, rest. rewrite <- Hsplit.
    split; [by split |]. split; [done |].
    rewrite Hfail by done. discriminate.
  - split; [| by intros [? [=]]].
    split; [done |]. exists processed, rest. rewrite <- Hsplit.
    split; [by split |]. split; [done |]. intros _. by apply Hnone.
Qed.

Lemma collectGroupStatuses_processed b gs (s : St W) :
  let r := collectGroupStatuses b gs s in
  exists processed rest,
    gs = (processed ++ rest)%list
    /\ Forall2 processedGroup processed (fst (fst r))
    /\ (snd (fst r) = None -> rest = []).
Proof.
  cbv zeta. revert s. induction gs as [| g gs IH]; intros s.
  - exists [], []. simpl. split; [done |]. split; [constructor | done].
  - simpl. rewrite bind_run.
    destruct (reconcileGroup_processed b g s) as [Hg _].
    destruct (reconcileGroup b g s) as [[gst [err |]] s1]; simpl in *.
    + exists [g], gs. split; [done |]. split; [| done].
      constructor; [exact Hg | constructor].
    + rewrite bind_run.
      destruct (IH s1) as (processed & rest & -> & Hall & Hnone).
      destruct (collectGroupStatuses b _ s1) as [[sts e] s2]. simpl in *.
      exists (g :: processed), rest. split; [done |]. split; [| done].
      constructor; [exact Hg | exact Hall].
Qed.

(** C8, amended: the orchestrator processes groups in ascending
    [group.Order] and, within each group, components in ascending
    [component.Order]: the statuses it records, in processing order, are
    those of the groups (components) rearranged by ascending order, up to the
    point where the pass stops. For equal orders the sequence is the one
    [sort.Slice] produces, which need not be the input order. *)
Theorem processed_in_ascending_order now b (s : St W) :
  processedInOrder (AppBundleSpec.Groups (AppBundle.Spec b))
                   (AppBundle.Status (fst (fst (deployGroups now b s)))).
Proof.
  rewrite deployGroups_run. cbv zeta.
  set (sorted := sort_Slice _ groupLess (AppBundleSpec.Groups (AppBundle.Spec b))).
  set (start := AppBundle.mapStatus _ _).
  destruct (sort_Slice_contract _ Group.Order (AppBundleSpec.Groups (AppBundle.Spec b)))
    as [Hperm Hsorted].
  fold groupLess in Hperm, Hsorted. fold sorted in Hperm, Hsorted.
  destruct (collectGroupStatuses_processed start sorted s)
    as (processed & rest & Hsplit & Hall & Hnone).
  destruct (collectGroupStatuses start sorted s) as [[sts [err |]] s1]; simpl in *.
  - rewrite updateStatusWithError_run. simpl.
    exists processed, rest. rewrite <- Hsplit. split; [by split |].
    split; [done | discriminate].
  - exists processed, rest. rewrite <- Hsplit. split; [by split |].
    split; [done |]. intros _. by apply Hnone.
Qed.
End Ordering.

Lemma processed_in_ascending_order_witness :
  processedInOrder (AppBundleSpec.Groups (AppBundle.Spec broken.b))
                   (AppBundle.Status (fst (fst broken.deploy))).
Proof.
  apply (processed_in_ascending_order (W := fake.Cluster) demo.decode demo.insertionSort
           controllerutil.SetControllerReference insertionSort_contract
           1000 broken.b broken.s0).
Defined.

(** [sort.Slice] on a short and on a longer slice. *)
Example sort_Slice_short :
  sort.Slice _ Z.ltb [3; 1; 2; 1; 5; 4; 0] = [0; 1; 1; 2; 3; 4; 5].
Proof. vm_compute. reflexivity. Qed.

Example sort_Slice_long :
  sort.Slice _ Z.ltb (map Z.of_nat (rev (seq 0 60)) ++ map Z.of_nat (seq 0 40))
  = sort.Slice _ Z.ltb (map Z.of_nat (seq 0 40) ++ map Z.of_nat (seq 0 60)).
Proof. vm_compute. reflexivity. Qed.

(** C8, as stated, fails for ties: [sort.Slice] is not stable, and Go's
    implementation, which sorts up to twelve elements by insertion, moves
    equal elements past each other from thirteen elements on. Twelve groups
    of order 1, [g01] to [g12], followed by [g13] of order 0, are all
    deployed, in the order [g13], [g07], [g03], ..., [g06], [g01], [g08], ...,
    [g12], [g02]: [g07] is processed before [g01] and [g02] last, though all
    twelve have the same order and the spec lists them by number. *)
Lemma ties_need_not_keep_input_order :
  map Group.Name thirteen.groups
  = ["g01"; "g02"; "g03"; "g04"; "g05"; "g06"; "g07"; "g08"; "g09"; "g10"; "g11";
     "g12"; "g13"]
  /\ map Group.Order thirteen.groups = [1; 1; 1; 1; 1; 1; 1; 1; 1; 1; 1; 1; 0]
  /\ snd (fst thirteen.deploy) = None
  /\ thirteen.processed (fst (fst thirteen.deploy))
     = ["g13"; "g07"; "g03"; "g04"; "g05"; "g06"; "g01"; "g08"; "g09"; "g10"; "g11";
        "g12"; "g02"].
Proof. repeat split; vm_compute; reflexivity. Qed.

(** ** A second pass over a deployed bundle *)

Lemma SetStatusCondition_again now1 now2 conditions c :
  meta.SetStatusCondition now2 (meta.SetStatusCondition now1 conditions c) c
  = meta.SetStatusCondition now1 conditions c.
Proof.
  induction conditions as [| x rest IH]; simpl.
  - rewrite String.eqb_refl. unfold meta.touch, meta.fresh. simpl.
    by rewrite String.eqb_refl.
  - destruct (Condition.Type_ x =? Condition.Type_ c) eqn:Htype; simpl.
    + rewrite Htype. unfold meta.touch. simpl. by rewrite String.eqb_refl.
    + by rewrite Htype, IH.
Qed.

Section SecondPass.
Context {W : Type} `{!Client W}.
Variable json_Unmarshal : list Byte.byte -> error.t + Unstructured.t.
Variable sort_Slice : forall A : Type, (A -> A -> bool) -> list A -> list A.
Variable SetControllerReference :
  ObjectMeta.t -> Unstructured.t -> error.t + Unstructured.t.

Local Abbreviation reconcileComponent :=
  (reconcileComponent json_Unmarshal SetControllerReference).
Local Abbreviation reconcileComponents :=
  (reconcileComponents json_Unmarshal SetControllerReference).
Local Abbreviation reconcileGroup :=
  (reconcileGroup json_Unmarshal sort_Slice SetControllerReference).
Local Abbreviation collectGroupStatuses :=
  (collectGroupStatuses json_Unmarshal sort_Slice SetControllerReference).
Local Abbreviation deployGroups :=
  (deployGroups json_Unmarshal sort_Slice SetControllerReference).
Local Abbreviation Reconcile :=
  (Reconcile json_Unmarshal sort_Slice SetControllerReference).
Local Abbreviation desired := (desired json_Unmarshal SetControllerReference).
Local Abbreviation updatedInPlace :=
  (updatedInPlace json_Unmarshal SetControllerReference).
Local Abbreviation inPlace := (inPlace json_Unmarshal SetControllerReference).
Local Abbreviation deployedComponent :=
  (deployedComponent json_Unmarshal SetControllerReference).
Local Abbreviation deployedGroup :=
  (deployedGroup json_Unmarshal sort_Slice SetControllerReference).
Local Abbreviation baseOf := (fun g => GoInt.mul (Group.Order g) 100).
Local Abbreviation sortedComponents := (fun g =>
  sort_Slice _ componentLess (Group.Components g)).
Local Abbreviation planOf := (fun gs : list Group.t =>
  flat_map (fun g => map (pair g) (sortedComponents g)) gs).

Lemma desired_meta b b' g c :
  AppBundle.Meta b = AppBundle.Meta b' -> desired b g c = desired b' g c.
Proof.
  intros Hmeta. unfold desired, decorate, AppBundle.Name, AppBundle.Namespace.
  by rewrite Hmeta.
Qed.

Lemma reconcileComponent_desired b g c obj :
  desired b g c = Some obj ->
  reconcileComponent b g c (baseOf g) = applyObject obj (initialStatus c).
Proof.
  unfold desired. rewrite reconcileComponent_steps.
  destruct (json_Unmarshal _) as [e | parsed]; [discriminate |].
  destruct (SetControllerReference _ _) as [e | o]; [discriminate |].
  by intros [= ->].
Qed.

Lemma inPlace_meta b b' todo (w w' : W) :
  AppBundle.Meta b = AppBundle.Meta b' -> inPlace b todo w w' -> inPlace b' todo w w'.
Proof.
  intros Hmeta. induction 1 as [| g c obj existing answered todo w w1 w' Hd Hp Hu He _ IH];
    [constructor |].
  eapply inPlace_cons; [| exact Hp | exact Hu | exact He | exact IH].
  by rewrite <- (desired_meta b b' g c Hmeta).
Qed.

Lemma inPlace_app b todo1 todo2 (w w' : W) :
  inPlace b (todo1 ++ todo2) w w' ->
  exists wm, inPlace b todo1 w wm /\ inPlace b todo2 wm w'.
Proof.
  revert w. induction todo1 as [| [g c] todo1 IH]; intros w Hin.
  - exists w. split; [constructor | exact Hin].
  - inversion Hin as [| ? ? obj existing answered ? ? w1 ? Hd Hp Hu He Hrest]; subst.
    destruct (IH w1 Hrest) as (wm & H1 & H2).
    exists wm. split; [| exact H2]. by eapply inPlace_cons.
Qed.

Lemma updatedInPlace_app b todo1 todo2 log1 log2 :
  updatedInPlace b todo1 log1 -> updatedInPlace b todo2 log2 ->
  updatedInPlace b (todo1 ++ todo2) (log1 ++ log2).
Proof.
  induction 1 as [| g c obj existing todo log Hd _ IH]; intros H2; [done |].
  simpl. apply updatedInPlace_cons; [done | by apply IH].
Qed.

Lemma updatedInPlace_meta b b' todo log :
  AppBundle.Meta b = AppBundle.Meta b' ->
  updatedInPlace b todo log -> updatedInPlace b' todo log.
Proof.
  intros Hmeta. induction 1 as [| g c obj existing todo log Hd _ IH]; [constructor |].
  apply updatedInPlace_cons; [| exact IH]. by rewrite <- (desired_meta b b' g c Hmeta).
Qed.

Lemma updatedInPlace_no_create b todo log :
  updatedInPlace b todo log -> Forall (fun c => isCreate c = false) log.
Proof. induction 1; repeat constructor; done. Qed.

(** The components of a group, found in place one after the other. *)
Lemma reconcileComponents_inPlace b g cs gs (s : St W) w' :
  inPlace b (map (pair g) cs) (world s) w' ->
  exists log,
    reconcileComponents b g (baseOf g) cs gs s
    = ((GroupStatus.mk (GroupStatus.Name gs) (GroupStatus.Phase gs)
          (GroupStatus.Message gs)
          (GroupStatus.ComponentStatuses gs ++ map (deployedComponent b g) cs), None),
       mkSt w' (calls s ++ log))
    /\ updatedInPlace b (map (pair g) cs) log.
Proof.
  revert gs s. induction cs as [| c cs IH]; intros gs s Hin.
  - inversion Hin; subst. exists []. simpl. rewrite !app_nil_r.
    split; [by destruct gs, s | constructor].
  - simpl in Hin.
    inversion Hin as [| ? ? obj existing answered ? ? w1 ? Hd Hp Hu He Hrest]; subst.
    simpl. rewrite bind_run, (reconcileComponent_desired _ _ _ _ Hd), applyObject_run.
    cbv zeta. rewrite Hp, Hu. simpl.
    destruct (IH (GroupStatus.appendComponentStatus
                    (deployedWith answered (initialStatus c)).1 gs)
                 (mkSt w1 (calls s ++ [CallGet (Unstructured.GroupVersionKind obj)
                                               (Unstructured.Key obj) (inr existing);
                                       CallUpdate (Unstructured.SetResourceVersion
                                                     (Unstructured.ResourceVersion existing)
                                                     obj)])) Hrest)
      as (log & Hrun & Hlog).
    eexists (_ :: _ :: log). split.
    + simpl in Hrun. rewrite Hrun. simpl. unfold deployedComponent. rewrite Hd. simpl.
      rewrite He. by rewrite <- !app_assoc.
    + by apply updatedInPlace_cons.
Qed.

Lemma reconcileGroup_inPlace b g (s : St W) w' :
  inPlace b (map (pair g) (sortedComponents g)) (world s) w' ->
  exists log,
    reconcileGroup b g s = ((deployedGroup b g, None), mkSt w' (calls s ++ log))
    /\ updatedInPlace b (map (pair g) (sortedComponents g)) log.
Proof.
  intros Hin. unfold reconcileGroup. rewrite bind_run.
  destruct (reconcileComponents_inPlace b g (sortedComponents g)
              (GroupStatus.mk (Group.Name g) PhaseDeploying "" []) s w' Hin)
    as (log & Hrun & Hlog).
  exists log. by rewrite Hrun.
Qed.

Lemma collectGroupStatuses_inPlace b gs (s : St W) w' :
  inPlace b (planOf gs) (world s) w' ->
  exists log,
    collectGroupStatuses b gs s
    = ((map (deployedGroup b) gs, None), mkSt w' (calls s ++ log))
    /\ updatedInPlace b (planOf gs) log.
Proof.
  revert s. induction gs as [| g gs IH]; intros s Hin.
  - inversion Hin; subst. exists []. simpl. rewrite app_nil_r.
    split; [by destruct s | constructor].
  - simpl in Hin. apply inPlace_app in Hin as (wm & Hg & Hrest).
    destruct (reconcileGroup_inPlace b g s wm Hg) as (log1 & Hrun1 & Hlog1).
    destruct (IH (mkSt wm (calls s ++ log1)) Hrest) as (log2 & Hrun2 & Hlog2).
    exists (log1 ++ log2)%list. simpl. rewrite bind_run, Hrun1. simpl.
    rewrite bind_run, Hrun2. simpl. split; [by rewrite <- app_assoc |].
    by apply updatedInPlace_app.
Qed.

Lemma ContainsFinalizer_AddFinalizer b f :
  controllerutil.ContainsFinalizer (controllerutil.AddFinalizer b f) f = true.
Proof.
  unfold controllerutil.AddFinalizer.
  destruct (controllerutil.ContainsFinalizer b f) eqn:Hc; [done |].
  unfold controllerutil.ContainsFinalizer. simpl.
  rewrite existsb_app. simpl. by rewrite String.eqb_refl, orb_true_r.
Qed.

(** A pass over a live bundle, step by step. *)
Lemma Reconcile_live_run now req (s : St W) b :
  GetBundle req (world s) = inr b ->
  beingDeleted b = false ->
  Reconcile now req s =
  let fin := controllerutil.AddFinalizer b appBundleFinalizer in
  let s1 := mkSt (world s) (calls s ++ [CallGetBundle req]) in
  let r2 :=
    if controllerutil.ContainsFinalizer b appBundleFinalizer then (None, s1)
    else r_UpdateBundle fin s1 in
  match fst r2 with
  | Some err => ((Some fin, Some err), snd r2)
  | None =>
    let pending := AppBundle.mapStatus (AppBundleStatus.withPhase PhasePending) fin in
    let r3 :=
      if AppBundleStatus.Phase (AppBundle.Status fin) =? ""
      then ((pending, fst (r_Status_Update pending (snd r2))),
            snd (r_Status_Update pending (snd r2)))
      else ((fin, None), snd r2) in
    match snd (fst r3) with
    | Some err => ((Some (fst (fst r3)), Some err), snd r3)
    | None =>
      let r := deployGroups now (fst (fst r3)) (snd r3) in
      ((Some (fst (fst r)), snd (fst r)), snd r)
    end
  end.
Proof.
  intros Hget Hlive. cbv zeta.
  unfold Reconcile. rewrite bind_run, r_GetBundle_run. simpl. rewrite Hget.
  rewrite bind_run.
  pose proof (beingDeleted_AddFinalizer b appBundleFinalizer) as Hdel.
  assert (forall fin (s2 : St W), beingDeleted fin = false ->
    (if beingDeleted fin
     then
       if controllerutil.ContainsFinalizer fin appBundleFinalizer
       then
         let! err := finalizeAppBundle fin in
         match err with
         | Some err => ret (Some fin, Some err)
         | None =>
           let! err := r_UpdateBundle
                         (controllerutil.RemoveFinalizer fin appBundleFinalizer) in
           ret (Some (controllerutil.RemoveFinalizer fin appBundleFinalizer), err)
         end
       else ret (Some fin, None)
     else
       let! (appBundle, err) :=
         (if AppBundleStatus.Phase (AppBundle.Status fin) =? "" then
            let! err := r_Status_Update
                          (AppBundle.mapStatus (AppBundleStatus.withPhase PhasePending) fin) in
            ret (AppBundle.mapStatus (AppBundleStatus.withPhase PhasePending) fin, err)
          else ret (fin, None)) in
       match err with
       | Some err => ret (Some appBundle, Some err)
       | None =>
         let! err :=
           (if porchEnabled appBundle then reconcilePorchPackages appBundle
            else ret None) in
         match err with
         | Some err =>
           let! (appBundle, err) := updateStatusWithError now appBundle err in
           ret (Some appBundle, err)
         | None =>
           let! (appBundle, err) := deployGroups now appBundle in
           ret (Some appBundle, err)
         end
       end) s2
    = (let pending := AppBundle.mapStatus (AppBundleStatus.withPhase PhasePending) fin in
       let r3 :=
         if AppBundleStatus.Phase (AppBundle.Status fin) =? ""
         then ((pending, fst (r_Status_Update pending s2)),
               snd (r_Status_Update pending s2))
         else ((fin, None), s2) in
       match snd (fst r3) with
       | Some err => ((Some (fst (fst r3)), Some err), snd r3)
       | None =>
         let r := deployGroups now (fst (fst r3)) (snd r3) in
         ((Some (fst (fst r)), snd (fst r)), snd r)
       end)) as Htail.
  { intros fin s2 ->. cbv zeta. rewrite bind_run.
    assert (forall b2 (s3 : St W),
      (let! err :=
         (if porchEnabled b2 then reconcilePorchPackages b2 else ret None) in
       match err with
       | Some err =>
         let! (appBundle, err) := updateStatusWithError now b2 err in
         ret (Some appBundle, err)
       | None =>
         let! (appBundle, err) := deployGroups now b2 in
         ret (Some appBundle, err)
       end) s3
      = ((Some (fst (fst (deployGroups now b2 s3))), snd (fst (deployGroups now b2 s3))),
         snd (deployGroups now b2 s3))) as Hdeploy.
    { intros b2 s3. rewrite bind_run.
      assert ((if porchEnabled b2 then reconcilePorchPackages b2 else ret None) s3
              = (None, s3)) as -> by (by destruct (porchEnabled b2)).
      simpl. rewrite bind_run. by destruct (deployGroups now b2 s3) as [[bf e] sf]. }
    destruct (AppBundleStatus.Phase (AppBundle.Status fin) =? "").
    - rewrite bind_run. simpl.
      destruct (r_Status_Update _ s2) as [[err |] s3]; simpl; [done |].
      apply Hdeploy.
    - simpl. apply Hdeploy. }
  destruct (controllerutil.ContainsFinalizer b appBundleFinalizer) eqn:Hfin; simpl.
  - assert (controllerutil.AddFinalizer b appBundleFinalizer = b) as ->
      by (unfold controllerutil.AddFinalizer; by rewrite Hfin).
    by apply Htail.
  - rewrite bind_run. simpl.
    destruct (r_UpdateBundle _ _) as [[err |] s2]; simpl; [done |].
    apply Htail. by rewrite Hdel.
Qed.

(** The outcome of a deployment without error, deployed once more with the
    same group statuses, is itself. *)
Lemma deployed_again now1 now2 b sts :
  let outcome := fun now (x : AppBundle.t) =>
    let x1 :=
      appendGroupStatuses sts
        (AppBundle.mapStatus (AppBundleStatus.withGroupStatuses [])
           (AppBundle.mapStatus (AppBundleStatus.withPhase PhaseDeploying) x)) in
    setReadyCondition now ConditionTrue "DeploymentComplete"
      "All resources deployed successfully"
      (AppBundle.mapStatus
         (AppBundleStatus.withObservedGeneration (AppBundle.Generation x1))
         (AppBundle.mapStatus
            (AppBundleStatus.withMessage "All groups deployed successfully")
            (AppBundle.mapStatus (AppBundleStatus.withPhase PhaseDeployed) x1))) in
  outcome now2 (outcome now1 b) = outcome now1 b.
Proof.
  destruct b as [m sp [p msg gs og cs]].
  cbv beta iota zeta delta
    [setReadyCondition appendGroupStatuses AppBundle.mapStatus
     AppBundle.withStatus AppBundle.Generation AppBundleStatus.withConditions
     AppBundleStatus.withObservedGeneration AppBundleStatus.withMessage
     AppBundleStatus.withPhase AppBundleStatus.withGroupStatuses
     AppBundle.Meta AppBundle.Spec AppBundle.Status AppBundleStatus.Phase
     AppBundleStatus.Message AppBundleStatus.GroupStatuses
     AppBundleStatus.ObservedGeneration AppBundleStatus.Conditions].
  by rewrite SetStatusCondition_again.
Qed.

Lemma deployedGroup_meta b b' gs :
  AppBundle.Meta b = AppBundle.Meta b' ->
  map (deployedGroup b) gs = map (deployedGroup b') gs.
Proof.
  intros Hmeta. apply map_ext. intros g. unfold deployedGroup. f_equal.
  apply map_ext. intros c. unfold deployedComponent.
  by rewrite (desired_meta b b' g c Hmeta).
Qed.


End SecondPass.

(** ** Packages *)

Section Packages.
Context {W : Type} `{!Client W}.
Variable json_Unmarshal : list Byte.byte -> error.t + Unstructured.t.
Variable sort_Slice : forall A : Type, (A -> A -> bool) -> list A -> list A.
Variable SetControllerReference :
  ObjectMeta.t -> Unstructured.t -> error.t + Unstructured.t.

Local Abbreviation reconcileComponent :=
  (reconcileComponent json_Unmarshal SetControllerReference).
Local Abbreviation reconcileComponents :=
  (reconcileComponents json_Unmarshal SetControllerReference).
Local Abbreviation reconcileGroup :=
  (reconcileGroup json_Unmarshal sort_Slice SetControllerReference).
Local Abbreviation collectGroupStatuses :=
  (collectGroupStatuses json_Unmarshal sort_Slice SetControllerReference).
Local Abbreviation deployGroups :=
  (deployGroups json_Unmarshal sort_Slice SetControllerReference).
Local Abbreviation desired := (desired json_Unmarshal SetControllerReference).
Local Abbreviation writesTemplate :=
  (writesTemplate json_Unmarshal SetControllerReference).
Local Abbreviation baseOf := (fun g => GoInt.mul (Group.Order g) 100).
Local Abbreviation sortedComponents := (fun g =>
  sort_Slice _ componentLess (Group.Components g)).

Lemma writesTemplate_more b todo todo' c :
  (forall gc, In gc todo -> In gc todo') ->
  writesTemplate b todo c -> writesTemplate b todo' c.
Proof.
  intros Hsub. destruct c; simpl; try done.
  all: intros (g & comp & obj & Hin & Hd & Ho); exists g, comp, obj; auto.
Qed.

Lemma writesTemplate_meta b b' todo c :
  AppBundle.Meta b = AppBundle.Meta b' ->
  writesTemplate b todo c -> writesTemplate b' todo c.
Proof.
  intros Hmeta. destruct c; simpl; try done.
  all: intros (g & comp & obj & Hin & Hd & Ho); exists g, comp, obj.
  all: split; [done |]; split; [| done].
  all: by rewrite <- (desired_meta json_Unmarshal SetControllerReference b b' g comp Hmeta).
Qed.

Lemma SetResourceVersion_same o :
  Unstructured.SetResourceVersion (Unstructured.ResourceVersion o) o = o.
Proof. by destruct o. Qed.

Lemma reconcileComponent_writes b g c (s : St W) :
  grownBy (writesTemplate b [(g, c)]) s (snd (reconcileComponent b g c (baseOf g) s)).
Proof.
  destruct (desired b g c) as [obj |] eqn:Hdesired.
  2: { unfold desired in Hdesired. rewrite reconcileComponent_steps.
       destruct (json_Unmarshal _) as [e | parsed]; [apply grownBy_refl |].
       destruct (SetControllerReference _ _) as [e | o]; [apply grownBy_refl | done]. }
  rewrite (reconcileComponent_desired json_Unmarshal SetControllerReference
             _ _ _ _ Hdesired), applyObject_run. cbv zeta.
  assert (forall rv, writesTemplate b [(g, c)]
                       (CallUpdate (Unstructured.SetResourceVersion rv obj))) as Hupd.
  { intros rv. exists g, c, obj. split; [by left |]. split; [done |]. by destruct obj. }
  assert (writesTemplate b [(g, c)] (CallCreate obj)) as Hcre.
  { exists g, c, obj. split; [by left |]. split; [done |].
    apply SetResourceVersion_same. }
  destruct (probe obj (world s)) as [e | existing].
  - destruct (error.IsNotFound e).
    + destruct (Create obj (world s)) as [[e' | o] w1]; simpl;
        apply grownBy_calls; repeat constructor; done.
    + simpl. apply grownBy_calls; repeat constructor.
  - destruct (Update _ (world s)) as [[e' | o] w1]; simpl;
      apply grownBy_calls; repeat constructor; done.
Qed.

Lemma reconcileComponents_writes b g cs gs (s : St W) :
  grownBy (writesTemplate b (map (pair g) cs)) s
          (snd (reconcileComponents b g (baseOf g) cs gs s)).
Proof.
  revert gs s. induction cs as [| c cs IH]; intros gs s; [apply grownBy_refl |].
  simpl. rewrite bind_run.
  pose proof (reconcileComponent_writes b g c s) as Hc.
  apply (grownBy_weaken _ (writesTemplate b ((g, c) :: map (pair g) cs))) in Hc.
  2: { intros x. apply writesTemplate_more. intros gc [<- | []]. by left. }
  destruct (reconcileComponent b g c (baseOf g) s) as [[cst [err |]] s1];
    simpl in *; [done |].
  eapply grownBy_trans; [exact Hc |].
  eapply grownBy_weaken; [| apply IH].
  intros x. apply writesTemplate_more. intros gc Hin. by right.
Qed.

Lemma reconcileGroup_writes b g (s : St W) :
  grownBy (writesTemplate b (map (pair g) (sortedComponents g))) s
          (snd (reconcileGroup b g s)).
Proof.
  unfold reconcileGroup. rewrite bind_run.
  pose proof (reconcileComponents_writes b g (sortedComponents g)
                (GroupStatus.mk (Group.Name g) PhaseDeploying "" []) s) as Hc.
  destruct (reconcileComponents _ _ _ _ _ s) as [[gst [err |]] s1]; simpl in *; done.
Qed.

Lemma collectGroupStatuses_writes b gs (s : St W) :
  grownBy
    (writesTemplate b (flat_map (fun g => map (pair g) (sortedComponents g)) gs)) s
    (snd (collectGroupStatuses b gs s)).
Proof.
  revert s. induction gs as [| g gs IH]; intros s; [apply grownBy_refl |].
  simpl. rewrite bind_run.
  pose proof (reconcileGroup_writes b g s) as Hg.
  eapply (grownBy_weaken _ (writesTemplate b
            (map (pair g) (sortedComponents g)
               ++ flat_map (fun g => map (pair g) (sortedComponents g)) gs))) in Hg.
  2: { intros x. apply writesTemplate_more. intros gc Hin. apply in_or_app. by left. }
  destruct (reconcileGroup b g s) as [[gst [err |]] s1]; simpl in *; [done |].
  rewrite bind_run. specialize (IH s1).
  destruct (collectGroupStatuses b gs s1) as [[sts e] s2]. simpl in *.
  eapply grownBy_trans; [exact Hg |].
  eapply grownBy_weaken; [| exact IH].
  intros x. apply writesTemplate_more. intros gc Hin. apply in_or_app. by right.
Qed.

End Packages.


(** ** What a pass over a live bundle writes *)

Section LivePass.
Context {W : Type} `{!Client W}.
Variable json_Unmarshal : list Byte.byte -> error.t + Unstructured.t.
Variable sort_Slice : forall A : Type, (A -> A -> bool) -> list A -> list A.
Variable SetControllerReference :
  ObjectMeta.t -> Unstructured.t -> error.t + Unstructured.t.

Local Abbreviation collectGroupStatuses :=
  (collectGroupStatuses json_Unmarshal sort_Slice SetControllerReference).
Local Abbreviation deployGroups :=
  (deployGroups json_Unmarshal sort_Slice SetControllerReference).
Local Abbreviation Reconcile :=
  (Reconcile json_Unmarshal sort_Slice SetControllerReference).
Local Abbreviation writesTemplate :=
  (writesTemplate json_Unmarshal SetControllerReference).

(** The calls of a deployment, and what it leaves of the status it found. *)
Lemma deployGroups_calls now b (s : St W) :
  let r := deployGroups now b s in
  AppBundle.Spec (fst (fst r)) = AppBundle.Spec b
  /\ AppBundle.Meta (fst (fst r)) = AppBundle.Meta b
  /\ carriedOver now b (AppBundle.Status (fst (fst r)))
  /\ exists l,
       calls (snd r) = (calls s ++ l)%list
       /\ Forall (fun c => afterFinalizer b c /\ writesTemplate b (plan sort_Slice b) c) l.
Proof.
  cbv zeta. rewrite deployGroups_run. cbv zeta.
  set (start := AppBundle.mapStatus _ _).
  assert (AppBundle.Meta start = AppBundle.Meta b) as Hmeta by done.
  destruct (collectGroupStatuses_calls json_Unmarshal sort_Slice SetControllerReference
              start (sort_Slice _ groupLess (AppBundleSpec.Groups (AppBundle.Spec b))) s)
    as (l & Hl & Hobj).
  destruct (collectGroupStatuses_writes json_Unmarshal sort_Slice SetControllerReference
              start (sort_Slice _ groupLess (AppBundleSpec.Groups (AppBundle.Spec b))) s)
    as (l' & Hl' & Hwrites).
  rewrite Hl in Hl'. apply app_inv_head in Hl' as <-.
  assert (Forall (fun c => afterFinalizer b c /\ writesTemplate b (plan sort_Slice b) c) l)
    as Hboth.
  { apply Forall_forall. intros c Hc. split.
    - rewrite Forall_forall in Hobj. specialize (Hobj c Hc). by destruct c.
    - rewrite Forall_forall in Hwrites. specialize (Hwrites c Hc).
      by apply (writesTemplate_meta json_Unmarshal SetControllerReference start b). }
  destruct (collectGroupStatuses start _ s) as [[sts [err |]] s1]; simpl in *.
  - rewrite updateStatusWithError_run. simpl.
    split; [done |]. split; [done |]. split.
    { split; [by left | right; by eexists _, _, _]. }
    exists (l ++ [CallStatusUpdate
                    (setReadyCondition now ConditionFalse "DeploymentFailed" (error.Error err)
                       (AppBundle.mapStatus (AppBundleStatus.withMessage (error.Error err))
                          (AppBundle.mapStatus (AppBundleStatus.withPhase PhaseFailed)
                             (appendGroupStatuses sts start))))])%list.
    split; [by rewrite Hl, <- app_assoc |].
    apply Forall_app. split; [exact Hboth |]. by repeat constructor.
  - split; [done |]. split; [done |]. split.
    { split; [by right | right; by eexists _, _, _]. }
    eexists (l ++ [CallStatusUpdate _])%list.
    split; [by rewrite Hl, <- app_assoc |].
    apply Forall_app. split; [exact Hboth |]. by repeat constructor.
Qed.

(** C9, amended: a pass over a live bundle fetches it and then, only when
    the finalizer token is missing, first updates the bundle object once,
    with the token added to its metadata and nothing else changed. Every
    later call is a probe, a create or an update of the decorated template of
    one of the bundle's components, or a write of the status sub-resource
    that carries the spec as fetched and the metadata with the token: the
    bundle object is not updated again and nothing is deleted. In memory too
    the spec is never modified and the metadata changes by that token only.
    Phase, message and group statuses are computed afresh by the deployment,
    whatever they were before; the observed generation and the conditions are
    not: the observed generation is the one fetched until the phase is
    Deployed, and the conditions are those fetched with, at most, the Ready
    condition set on them. *)
Theorem live_pass_writes now req (s : St W) b :
  GetBundle req (world s) = inr b ->
  beingDeleted b = false ->
  let r := Reconcile now req s in
  let fin := controllerutil.AddFinalizer b appBundleFinalizer in
  (exists b' l,
     fst (fst r) = Some b'
     /\ AppBundle.Spec b' = AppBundle.Spec b
     /\ AppBundle.Meta b' = AppBundle.Meta fin
     /\ carriedOver now b (AppBundle.Status b')
     /\ calls (snd r)
        = (calls s
             ++ CallGetBundle req
             :: (if controllerutil.ContainsFinalizer b appBundleFinalizer then []
                 else [CallUpdateBundle fin])
             ++ l)%list
     /\ Forall (fun c => afterFinalizer fin c /\ writesTemplate fin (plan sort_Slice b) c) l)
  /\ (forall x p m gs (s0 : St W),
        deployGroups now (withPrevious p m gs x) s0 = deployGroups now x s0).
Proof.
  intros Hget Hlive r fin.
  split; [| intros; apply deployGroups_recomputes].
  subst r. rewrite (Reconcile_live_run _ _ _ now req s b Hget Hlive). cbv zeta. fold fin.
  destruct (AddFinalizer_spec b appBundleFinalizer) as [Hspec Hstatus]. fold fin in Hspec, Hstatus.
  set (s1 := mkSt (world s) (calls s ++ [CallGetBundle req])).
  set (r2 := if controllerutil.ContainsFinalizer b appBundleFinalizer then _ else _).
  set (pre := if controllerutil.ContainsFinalizer b appBundleFinalizer
              then [] else [CallUpdateBundle fin]).
  assert (calls (snd r2) = (calls s ++ CallGetBundle req :: pre)%list) as Hpre.
  { subst r2 pre. destruct (controllerutil.ContainsFinalizer b appBundleFinalizer).
    - done.
    - rewrite r_UpdateBundle_run. simpl. by rewrite <- app_assoc. }
  assert (carriedOver now b (AppBundle.Status fin)) as Hfin.
  { rewrite Hstatus. split; by left. }
  destruct (fst r2) as [err |].
  { exists fin, []. simpl.
    split; [done |]. split; [exact Hspec |]. split; [done |]. split; [exact Hfin |].
    split; [by rewrite Hpre, app_nil_r | constructor]. }
  set (pending := AppBundle.mapStatus (AppBundleStatus.withPhase PhasePending) fin).
  set (r3 := if AppBundleStatus.Phase (AppBundle.Status fin) =? "" then _ else _).
  assert (exists x l3,
            fst (fst r3) = x
            /\ AppBundle.Spec x = AppBundle.Spec b
            /\ AppBundle.Meta x = AppBundle.Meta fin
            /\ AppBundleStatus.ObservedGeneration (AppBundle.Status x)
               = AppBundleStatus.ObservedGeneration (AppBundle.Status b)
            /\ AppBundleStatus.Conditions (AppBundle.Status x)
               = AppBundleStatus.Conditions (AppBundle.Status b)
            /\ calls (snd r3) = (calls (snd r2) ++ l3)%list
            /\ Forall (fun c => afterFinalizer fin c
                                /\ writesTemplate fin (plan sort_Slice b) c) l3)
    as (x & l3 & Hx & Hxs & Hxm & Hxg & Hxc & Hl3 & Hall3).
  { subst r3. destruct (AppBundleStatus.Phase (AppBundle.Status fin) =? "").
    - exists pending, [CallStatusUpdate pending]. rewrite r_Status_Update_run. simpl.
      rewrite Hstatus. repeat split; try done. by repeat constructor.
    - exists fin, []. simpl. rewrite Hstatus, app_nil_r. by repeat split. }
  destruct (snd (fst r3)) as [err |].
  { exists x, l3. rewrite Hx. simpl. rewrite Hl3, Hpre, <- app_assoc. simpl.
    repeat split; try done; by left. }
  rewrite Hx.
  destruct (deployGroups_calls now x (snd r3)) as (Hs & Hm & [Hgen Hcond] & l & Hl & Hall).
  exists (fst (fst (deployGroups now x (snd r3)))), (l3 ++ l)%list. simpl.
  split; [done |]. split; [by rewrite Hs |]. split; [by rewrite Hm |].
  split.
  { assert (AppBundle.Generation x = AppBundle.Generation b) as Hg.
    { unfold AppBundle.Generation. rewrite Hxm. unfold fin, controllerutil.AddFinalizer.
      by destruct (controllerutil.ContainsFinalizer b appBundleFinalizer). }
    rewrite Hg, Hxg in Hgen. rewrite Hg, Hxc in Hcond. by split. }
  split; [by rewrite Hl, Hl3, Hpre, <- !app_assoc |].
  apply Forall_app. split; [exact Hall3 |].
  eapply Forall_impl; [exact Hall |]. intros c [Ha Hw]. split.
  - destruct c; simpl in *; try done. destruct Ha as [-> ->].
    by rewrite Hxs, Hspec, Hxm.
  - apply (writesTemplate_meta json_Unmarshal SetControllerReference x fin); [done |].
    unfold plan in *. by rewrite <- Hxs.
Qed.
End LivePass.

Lemma live_pass_writes_witness :
  exists l,
    calls (snd scenarioA.pass1)
    = CallGetBundle (demo.req scenarioA.b)
      :: CallUpdateBundle (controllerutil.AddFinalizer scenarioA.b appBundleFinalizer)
      :: l
    /\ Forall (afterFinalizer (controllerutil.AddFinalizer scenarioA.b appBundleFinalizer)) l.
Proof.
  destruct (live_pass_writes (W := fake.Cluster) demo.decode
              demo.insertionSort controllerutil.SetControllerReference
              1000 (demo.req scenarioA.b)
              (mkSt (fake.holding scenarioA.b) []) scenarioA.b)
    as [(b' & l & _ & _ & _ & _ & Hcalls & Hall) _].
  - vm_compute. reflexivity.
  - vm_compute. reflexivity.
  - exists l. split; [exact Hcalls |].
    eapply Forall_impl; [exact Hall |]. by intros c [Ha _].
Defined.

(** * Further properties *)

(** ** The outcome of a deployment *)

Section Outcome.
Context {W : Type} `{!Client W}.
Variable json_Unmarshal : list Byte.byte -> error.t + Unstructured.t.
Variable sort_Slice : forall A : Type, (A -> A -> bool) -> list A -> list A.
Variable SetControllerReference :
  ObjectMeta.t -> Unstructured.t -> error.t + Unstructured.t.

Local Abbreviation reconcileComponent :=
  (reconcileComponent json_Unmarshal SetControllerReference).
Local Abbreviation reconcileComponents :=
  (reconcileComponents json_Unmarshal SetControllerReference).
Local Abbreviation reconcileGroup :=
  (reconcileGroup json_Unmarshal sort_Slice SetControllerReference).
Local Abbreviation collectGroupStatuses :=
  (collectGroupStatuses json_Unmarshal sort_Slice SetControllerReference).
Local Abbreviation deployGroups :=
  (deployGroups json_Unmarshal sort_Slice SetControllerReference).
Local Abbreviation Reconcile :=
  (Reconcile json_Unmarshal sort_Slice SetControllerReference).

Lemma failedWith_shape prefix err c :
  In prefix failurePrefixes ->
  componentFailed (error.Error err) (fst (failedWith prefix err (initialStatus c))).
Proof. intros Hin. split; [done |]. split; [done |]. by exists prefix. Qed.

Lemma deployedWith_shape o c :
  componentDeployed (fst (deployedWith o (initialStatus c))).
Proof. split; [done |]. split; [done |]. by eexists. Qed.

Lemma reconcileComponent_shape b g c base (s : St W) :
  let r := reconcileComponent b g c base s in
  ComponentStatus.Name (fst (fst r)) = Component.Name c
  /\ match snd (fst r) with
     | None => componentDeployed (fst (fst r))
     | Some err => componentFailed (error.Error err) (fst (fst r))
     end.
Proof.
  cbv zeta. rewrite reconcileComponent_steps.
  destruct (json_Unmarshal _) as [e | parsed].
  { split; [done |]. apply (failedWith_shape _ e c). simpl. tauto. }
  destruct (SetControllerReference _ _) as [e | obj].
  { split; [done |]. apply (failedWith_shape _ e c). simpl. tauto. }
  rewrite applyObject_run. cbv zeta.
  destruct (probe obj (world s)) as [e | existing].
  - destruct (error.IsNotFound e).
    + destruct (Create obj (world s)) as [[e' | o] w1].
      * split; [done |]. apply (failedWith_shape _ e' c). simpl. tauto.
      * split; [done |]. apply deployedWith_shape.
    + split; [done |]. apply (failedWith_shape _ e c). simpl. tauto.
  - destruct (Update _ (world s)) as [[e' | o] w1].
    + split; [done |]. apply (failedWith_shape _ e' c). simpl. tauto.
    + split; [done |]. apply deployedWith_shape.
Qed.

Lemma reconcileComponents_shape b g base cs gs (s : St W) :
  Forall componentDeployed (GroupStatus.ComponentStatuses gs) ->
  let r := reconcileComponents b g base cs gs s in
  match snd (fst r) with
  | None =>
      Forall componentDeployed (GroupStatus.ComponentStatuses (fst (fst r)))
      /\ GroupStatus.Name (fst (fst r)) = GroupStatus.Name gs
  | Some err => groupFailed (error.Error err) (fst (fst r))
  end.
Proof.
  revert gs s. induction cs as [| c cs IH]; intros gs s Hgs; [done |].
  simpl. rewrite bind_run.
  pose proof (reconcileComponent_shape b g c base s) as [Hname Hc].
  destruct (reconcileComponent b g c base s) as [[cst [err |]] s1]; simpl in *.
  - split; [done |]. exists (GroupStatus.ComponentStatuses gs), cst.
    split; [done |]. split; [done |]. split; [done |]. by rewrite Hname.
  - specialize (IH (GroupStatus.appendComponentStatus cst gs) s1).
    simpl in IH. apply IH. apply Forall_app. split; [done |]. by constructor.
Qed.

Lemma reconcileGroup_shape b g (s : St W) :
  let r := reconcileGroup b g s in
  GroupStatus.Name (fst (fst r)) = Group.Name g
  /\ match snd (fst r) with
     | None => groupDeployed (fst (fst r))
     | Some err => groupFailed (error.Error err) (fst (fst r))
     end.
Proof.
  cbv zeta. unfold reconcileGroup. rewrite bind_run.
  pose proof (reconcileComponents_shape b g (GoInt.mul (Group.Order g) 100)
                (sort_Slice _ componentLess (Group.Components g))
                (GroupStatus.mk (Group.Name g) PhaseDeploying "" []) s
                (Forall_nil_2 _)) as Hcs.
  pose proof (reconcileComponents_name json_Unmarshal SetControllerReference
                b g (GoInt.mul (Group.Order g) 100)
                (sort_Slice _ componentLess (Group.Components g))
                (GroupStatus.mk (Group.Name g) PhaseDeploying "" []) s) as Hname.
  cbv zeta in Hcs.
  destruct (reconcileComponents _ _ _ _ _ s) as [[gst [err |]] s1]; simpl in *.
  - done.
  - split; [done |]. split; [done |]. split; [done |]. by destruct Hcs.
Qed.

Lemma collectGroupStatuses_shape b gs (s : St W) :
  let r := collectGroupStatuses b gs s in
  match snd (fst r) with
  | None =>
      Forall groupDeployed (fst (fst r))
      /\ map GroupStatus.Name (fst (fst r)) = map Group.Name gs
  | Some err =>
      exists deployed failed,
        fst (fst r) = (deployed ++ [failed])%list
        /\ Forall groupDeployed deployed
        /\ groupFailed (error.Error err) failed
  end.
Proof.
  revert s. induction gs as [| g gs IH]; intros s; [done |].
  simpl. rewrite bind_run.
  pose proof (reconcileGroup_shape b g s) as [Hname Hg].
  destruct (reconcileGroup b g s) as [[gst [err |]] s1]; simpl in *.
  - by exists [], gst.
  - rewrite bind_run. specialize (IH s1). cbv zeta in IH.
    destruct (collectGroupStatuses b gs s1) as [[sts [err |]] s2]; simpl in *.
    + destruct IH as (deployed & failed & -> & Hd & Hf).
      exists (gst :: deployed), failed. split; [done |]. split; [by constructor | done].
    + destruct IH as [Hall Hnames]. split; [by constructor |]. by rewrite Hname, Hnames.
Qed.

Lemma setReadyCondition_status now st reason msg b :
  let b' := setReadyCondition now st reason msg b in
  AppBundleStatus.Phase (AppBundle.Status b') = AppBundleStatus.Phase (AppBundle.Status b)
  /\ AppBundleStatus.Message (AppBundle.Status b')
     = AppBundleStatus.Message (AppBundle.Status b)
  /\ AppBundleStatus.GroupStatuses (AppBundle.Status b')
     = AppBundleStatus.GroupStatuses (AppBundle.Status b)
  /\ AppBundleStatus.ObservedGeneration (AppBundle.Status b')
     = AppBundleStatus.ObservedGeneration (AppBundle.Status b).
Proof. done. Qed.

(** X1: whatever the cluster answers, the status a deployment leaves is
    either Deployed, with every recorded group and component Deployed (each
    component with its ResourceRef), or Failed, with the groups deployed so
    far followed by one Failed group, whose components are those deployed so
    far followed by the one Failed component; that component carries no
    ResourceRef, its message is one of the five failure prefixes followed by
    the bundle's message, and the group's message names it. *)
Theorem deployment_ends_deployed_or_failed now b (s : St W) :
  deployedOrFailed (AppBundle.Status (fst (fst (deployGroups now b s)))).
Proof.
  rewrite deployGroups_run. cbv zeta.
  set (start := AppBundle.mapStatus _ _).
  pose proof (collectGroupStatuses_shape start
                (sort_Slice _ groupLess (AppBundleSpec.Groups (AppBundle.Spec b))) s)
    as Hshape.
  cbv zeta in Hshape.
  destruct (collectGroupStatuses start _ s) as [[sts [err |]] s1]; simpl in *.
  - rewrite updateStatusWithError_run. simpl.
    right. split; [done |]. destruct Hshape as (deployed & failed & -> & Hd & Hf).
    by exists deployed, failed.
  - left. destruct Hshape as [Hall _]. done.
Qed.

Lemma writtenPhases_app l1 l2 :
  writtenPhases (l1 ++ l2) = (writtenPhases l1 ++ writtenPhases l2)%list.
Proof. apply flat_map_app. Qed.

Lemma writtenPhases_objectCalls l : Forall objectCall l -> writtenPhases l = [].
Proof.
  induction 1 as [| c l Hc _ IH]; [done |].
  destruct c; simpl in *; done.
Qed.

(** The log of a deployment: calls on objects, then one status update,
    which carries the bundle as the deployment leaves it in memory. *)
Lemma deployGroups_log now b (s : St W) :
  let r := deployGroups now b s in
  exists l w,
    calls (snd r) = (calls s ++ l ++ [CallStatusUpdate (fst (fst r))])%list
    /\ Forall objectCall l
    /\ world (snd r) = snd (StatusUpdate (fst (fst r)) w)
    /\ (snd (fst r) = None -> fst (StatusUpdate (fst (fst r)) w) = None).
Proof.
  cbv zeta. rewrite deployGroups_run. cbv zeta.
  set (start := AppBundle.mapStatus _ _).
  destruct (collectGroupStatuses_calls json_Unmarshal sort_Slice SetControllerReference
              start (sort_Slice _ groupLess (AppBundleSpec.Groups (AppBundle.Spec b))) s)
    as (l & Hl & Hobj).
  destruct (collectGroupStatuses start _ s) as [[sts [err |]] s1]; simpl in *.
  - rewrite updateStatusWithError_run. simpl. exists l, (world s1).
    rewrite Hl, <- app_assoc. done.
  - exists l, (world s1). rewrite Hl, <- app_assoc. done.
Qed.

Lemma deployGroups_no_error now b b' (s s' : St W) :
  deployGroups now b s = ((b', None), s') ->
  AppBundleStatus.Phase (AppBundle.Status b') = PhaseDeployed
  /\ AppBundleStatus.Message (AppBundle.Status b') = "All groups deployed successfully"
  /\ AppBundleStatus.ObservedGeneration (AppBundle.Status b') = AppBundle.Generation b
  /\ Forall groupDeployed (AppBundleStatus.GroupStatuses (AppBundle.Status b'))
  /\ map GroupStatus.Name (AppBundleStatus.GroupStatuses (AppBundle.Status b'))
     = map Group.Name (sort_Slice _ groupLess (AppBundleSpec.Groups (AppBundle.Spec b))).
Proof.
  rewrite deployGroups_run. cbv zeta.
  set (start := AppBundle.mapStatus _ _).
  pose proof (collectGroupStatuses_shape start
                (sort_Slice _ groupLess (AppBundleSpec.Groups (AppBundle.Spec b))) s)
    as Hshape.
  cbv zeta in Hshape.
  destruct (collectGroupStatuses start _ s) as [[sts [err |]] s1]; simpl in *.
  - rewrite updateStatusWithError_run. simpl. discriminate.
  - intros [= <- _ _]. simpl. destruct Hshape as [Hall Hnames]. done.
Qed.

(** X2: a pass over a live bundle returns no error only when everything is
    deployed and recorded: the bundle it leaves has phase Deployed, the
    fetched generation as observed generation and one Deployed status per
    group, in the order of the sorted groups; the last call of the pass is
    the status update that carries this bundle, and the cluster accepted
    it. *)
Theorem pass_without_error_is_deployed now req (s s' : St W) b result :
  GetBundle req (world s) = inr b ->
  beingDeleted b = false ->
  Reconcile now req s = ((result, None), s') ->
  exists b' l w,
    result = Some b'
    /\ AppBundleStatus.Phase (AppBundle.Status b') = PhaseDeployed
    /\ AppBundleStatus.ObservedGeneration (AppBundle.Status b') = AppBundle.Generation b
    /\ Forall groupDeployed (AppBundleStatus.GroupStatuses (AppBundle.Status b'))
    /\ map GroupStatus.Name (AppBundleStatus.GroupStatuses (AppBundle.Status b'))
       = map Group.Name (sort_Slice _ groupLess (AppBundleSpec.Groups (AppBundle.Spec b)))
    /\ calls s' = (calls s ++ l ++ [CallStatusUpdate b'])%list
    /\ StatusUpdate b' w = (None, world s').
Proof.
  intros Hget Hlive.
  rewrite (Reconcile_live_run json_Unmarshal sort_Slice SetControllerReference
             now req s b Hget Hlive). cbv zeta.
  set (fin := controllerutil.AddFinalizer b appBundleFinalizer).
  set (s1 := mkSt (world s) (calls s ++ [CallGetBundle req])).
  set (r2 := if controllerutil.ContainsFinalizer b appBundleFinalizer
             then (None, s1) else r_UpdateBundle fin s1).
  assert (exists l2, calls (snd r2) = (calls s ++ l2)%list) as [l2 Hl2].
  { subst r2. destruct (controllerutil.ContainsFinalizer b appBundleFinalizer).
    - by exists [CallGetBundle req].
    - rewrite r_UpdateBundle_run. simpl. rewrite <- app_assoc. by eexists. }
  destruct (fst r2) as [err |]; [discriminate |].
  set (pending := AppBundle.mapStatus (AppBundleStatus.withPhase PhasePending) fin).
  set (r3 := if AppBundleStatus.Phase (AppBundle.Status fin) =? ""
             then ((pending, fst (r_Status_Update pending (snd r2))),
                   snd (r_Status_Update pending (snd r2)))
             else ((fin, None), snd r2)).
  assert ((exists l3, calls (snd r3) = (calls s ++ l3)%list)
          /\ AppBundle.Spec (fst (fst r3)) = AppBundle.Spec b
          /\ AppBundle.Generation (fst (fst r3)) = AppBundle.Generation b)
    as ([l3 Hl3] & Hspec & Hgen).
  { pose proof (AddFinalizer_spec b appBundleFinalizer) as [Hs _].
    assert (AppBundle.Generation fin = AppBundle.Generation b) as Hg.
    { subst fin. unfold controllerutil.AddFinalizer.
      by destruct (controllerutil.ContainsFinalizer b appBundleFinalizer). }
    subst r3. destruct (AppBundleStatus.Phase (AppBundle.Status fin) =? "").
    - rewrite r_Status_Update_run. simpl. rewrite Hl2, <- app_assoc.
      split; [by eexists | done].
    - simpl. split; [by eexists | done]. }
  destruct (snd (fst r3)) as [err |]; [discriminate |].
  destruct (deployGroups_log now (fst (fst r3)) (snd r3)) as (l & w & Hlog & _ & Hw & Hok).
  destruct (deployGroups now (fst (fst r3)) (snd r3)) as [[b' e] sf] eqn:Hdeploy.
  simpl in *. intros [= <- -> <-].
  destruct (deployGroups_no_error _ _ _ _ _ Hdeploy) as (Hp & _ & Hog & Hall & Hnames).
  exists b', (l3 ++ l)%list, w.
  split; [done |]. split; [done |]. split; [by rewrite Hog |]. split; [done |].
  split; [by rewrite Hnames, Hspec |].
  split; [by rewrite Hlog, Hl3, <- !app_assoc |].
  rewrite Hw, <- (Hok eq_refl). by destruct (StatusUpdate b' w).
Qed.

Lemma deployGroups_phase now b (s : St W) :
  let phase := AppBundleStatus.Phase (AppBundle.Status (fst (fst (deployGroups now b s)))) in
  phase = PhaseDeployed \/ phase = PhaseFailed.
Proof.
  cbv zeta. rewrite deployGroups_run. cbv zeta.
  destruct (collectGroupStatuses _ _ s) as [[sts [err |]] s1]; simpl.
  - rewrite updateStatusWithError_run. by right.
  - by left.
Qed.

(** X3: the error a deployment returns is the error of its status write
    when that write fails; otherwise it is the error of the component that
    failed, the phase is Failed and the status message is that error's
    message. *)
Theorem returned_error_is_first_failure_or_status_write now b (s : St W) err :
  let r := deployGroups now b s in
  let status := AppBundle.Status (fst (fst r)) in
  snd (fst r) = Some err ->
  exists w,
    world (snd r) = snd (StatusUpdate (fst (fst r)) w)
    /\ (fst (StatusUpdate (fst (fst r)) w) = Some err
        \/ fst (StatusUpdate (fst (fst r)) w) = None
           /\ AppBundleStatus.Phase status = PhaseFailed
           /\ AppBundleStatus.Message status = error.Error err).
Proof.
  cbv zeta. rewrite deployGroups_run. cbv zeta.
  set (start := AppBundle.mapStatus _ _).
  destruct (collectGroupStatuses start _ s) as [[sts [failure |]] s1]; simpl.
  - rewrite updateStatusWithError_run. simpl.
    set (failed := setReadyCondition _ _ _ _ _).
    intros [= Herr]. exists (world s1). split; [done |].
    destruct (fst (StatusUpdate failed (world s1))) as [statusErr |]; simpl in Herr.
    + left. by rewrite Herr.
    + right. by rewrite <- Herr.
  - intros Herr. exists (world s1). split; [done |]. by left.
Qed.

(** X4: the phase Deploying is set in memory only. The status writes of a
    pass over a live bundle are at most one write of Pending, made only when
    the fetched phase is empty, followed by at most one write of Deployed or
    of Failed; no write carries Deploying. *)
Theorem deploying_is_never_written now req (s : St W) b :
  GetBundle req (world s) = inr b ->
  beingDeleted b = false ->
  exists l first last,
    calls (snd (Reconcile now req s)) = (calls s ++ l)%list
    /\ writtenPhases l = (first ++ last)%list
    /\ (first = [] \/ first = [PhasePending]
                      /\ AppBundleStatus.Phase (AppBundle.Status b) = "")
    /\ (last = [] \/ last = [PhaseDeployed] \/ last = [PhaseFailed])
    /\ ~ In PhaseDeploying (writtenPhases l).
Proof.
  intros Hget Hlive.
  rewrite (Reconcile_live_run json_Unmarshal sort_Slice SetControllerReference
             now req s b Hget Hlive). cbv zeta.
  set (fin := controllerutil.AddFinalizer b appBundleFinalizer).
  set (s1 := mkSt (world s) (calls s ++ [CallGetBundle req])).
  set (r2 := if controllerutil.ContainsFinalizer b appBundleFinalizer
             then (None, s1) else r_UpdateBundle fin s1).
  assert (exists l2, calls (snd r2) = (calls s ++ l2)%list /\ writtenPhases l2 = [])
    as (l2 & Hl2 & Hp2).
  { subst r2. destruct (controllerutil.ContainsFinalizer b appBundleFinalizer).
    - by exists [CallGetBundle req].
    - rewrite r_UpdateBundle_run. simpl. rewrite <- app_assoc. by eexists. }
  assert (forall l first last,
            writtenPhases l = (first ++ last)%list ->
            (first = [] \/ first = [PhasePending]
                           /\ AppBundleStatus.Phase (AppBundle.Status b) = "") ->
            (last = [] \/ last = [PhaseDeployed] \/ last = [PhaseFailed]) ->
            ~ In PhaseDeploying (writtenPhases l)) as Hnever.
  { intros l first last -> Hf Hl Hin. apply in_app_or in Hin.
    destruct Hin as [Hin | Hin].
    - destruct Hf as [-> | [-> _]]; simpl in Hin; [done |].
      destruct Hin as [[=] | []].
    - destruct Hl as [-> | [-> | ->]]; simpl in Hin; [done | |];
        destruct Hin as [[=] | []]. }
  destruct (fst r2) as [err |].
  { exists l2, [], []. simpl. rewrite Hp2. split; [done |]. split; [done |].
    split; [by left |]. split; [by left |]. by intros []. }
  set (pending := AppBundle.mapStatus (AppBundleStatus.withPhase PhasePending) fin).
  set (r3 := if AppBundleStatus.Phase (AppBundle.Status fin) =? ""
             then ((pending, fst (r_Status_Update pending (snd r2))),
                   snd (r_Status_Update pending (snd r2)))
             else ((fin, None), snd r2)).
  assert (exists l3 first,
            calls (snd r3) = (calls s ++ l3)%list /\ writtenPhases l3 = first
            /\ (first = [] \/ first = [PhasePending]
                              /\ AppBundleStatus.Phase (AppBundle.Status b) = ""))
    as (l3 & first & Hl3 & Hp3 & Hfirst).
  { pose proof (AddFinalizer_spec b appBundleFinalizer) as [_ Hst]. fold fin in Hst.
    subst r3. destruct (String.eqb_spec (AppBundleStatus.Phase (AppBundle.Status fin)) "")
      as [Hempty | _].
    - rewrite r_Status_Update_run. simpl. rewrite Hl2, <- app_assoc.
      eexists _, _. split; [reflexivity |]. rewrite writtenPhases_app, Hp2. simpl.
      split; [reflexivity |]. right. split; [done |]. by rewrite <- Hst.
    - simpl. exists l2, []. split; [done |]. split; [done |]. by left. }
  destruct (snd (fst r3)) as [err |].
  { simpl. exists l3, first, []. rewrite app_nil_r.
    split; [done |]. split; [done |]. split; [done |]. split; [by left |].
    apply (Hnever l3 first []); [by rewrite app_nil_r | done | by left]. }
  destruct (deployGroups_log now (fst (fst r3)) (snd r3)) as (l & w & Hlog & Hobj & _ & _).
  pose proof (deployGroups_phase now (fst (fst r3)) (snd r3)) as Hshape.
  destruct (deployGroups now (fst (fst r3)) (snd r3)) as [[b' e] sf]. simpl in *.
  exists (l3 ++ l ++ [CallStatusUpdate b'])%list, first,
    [AppBundleStatus.Phase (AppBundle.Status b')].
  assert (writtenPhases (l3 ++ l ++ [CallStatusUpdate b'])
          = (first ++ [AppBundleStatus.Phase (AppBundle.Status b')])%list) as Hphases.
  { rewrite !writtenPhases_app, Hp3, (writtenPhases_objectCalls l Hobj). done. }
  assert ([AppBundleStatus.Phase (AppBundle.Status b')] = []
          \/ [AppBundleStatus.Phase (AppBundle.Status b')] = [PhaseDeployed]
          \/ [AppBundleStatus.Phase (AppBundle.Status b')] = [PhaseFailed]) as Hlast.
  { destruct Hshape as [-> | ->]; auto. }
  split; [by rewrite Hlog, Hl3, <- !app_assoc |].
  split; [done |]. split; [done |]. split; [done |].
  by apply (Hnever _ first [AppBundleStatus.Phase (AppBundle.Status b')]).
Qed.

End Outcome.

(** ** Passes that end early *)

Section EarlyExits.
Context {W : Type} `{!Client W}.
Variable json_Unmarshal : list Byte.byte -> error.t + Unstructured.t.
Variable sort_Slice : forall A : Type, (A -> A -> bool) -> list A -> list A.
Variable SetControllerReference :
  ObjectMeta.t -> Unstructured.t -> error.t + Unstructured.t.

Local Abbreviation deployGroups :=
  (deployGroups json_Unmarshal sort_Slice SetControllerReference).
Local Abbreviation Reconcile :=
  (Reconcile json_Unmarshal sort_Slice SetControllerReference).

(** X5: when the bundle of a request cannot be fetched the pass ends at
    once: a bundle that is not found is ignored (no error is returned), any
    other error is returned as it is; the fetch is the only call and the
    cluster is left as it was. *)
Theorem fetch_failure_ends_pass now req (s : St W) err :
  GetBundle req (world s) = inl err ->
  Reconcile now req s =
    ((None, if error.IsNotFound err then None else Some err),
     mkSt (world s) (calls s ++ [CallGetBundle req])).
Proof.
  intros Hget. unfold Reconcile. rewrite bind_run, r_GetBundle_run. simpl.
  rewrite Hget. by destruct (error.IsNotFound err).
Qed.

Lemma filter_absent_finalizer f fin :
  existsb (String.eqb f) fin = false ->
  List.filter (fun e => negb (e =? f)) (fin ++ [f]) = fin.
Proof.
  induction fin as [| x fin IH]; simpl.
  - intros _. by rewrite String.eqb_refl.
  - intros Hex. apply orb_false_elim in Hex as [Hx Hfin].
    rewrite String.eqb_sym, Hx. simpl. by rewrite IH.
Qed.

Lemma RemoveFinalizer_AddFinalizer b f :
  controllerutil.ContainsFinalizer b f = false ->
  controllerutil.RemoveFinalizer (controllerutil.AddFinalizer b f) f = b.
Proof.
  intros Hfin. unfold controllerutil.AddFinalizer. rewrite Hfin.
  unfold controllerutil.RemoveFinalizer, controllerutil.ContainsFinalizer in *.
  destruct b as [[n ns uid gen fin del] sp st]. simpl in *.
  unfold AppBundle.withMeta, ObjectMeta.withFinalizers. simpl.
  by rewrite filter_absent_finalizer.
Qed.

(** X6: a bundle marked for deletion that lacks the finalizer token is
    first sent to the cluster with the token added, as a live bundle is: the
    finalizer is added before the deletion check. When the cluster refuses
    that update, as an API server refuses a new finalizer on an object being
    deleted, the pass returns the error and makes no other call. When the
    cluster accepts it, the bundle holds the token and is finalized: the token
    is removed again, the bundle is updated a second time, as it was fetched,
    and the pass returns what this second update returns. *)
Theorem deletion_without_token_adds_it_first now req (s : St W) b :
  GetBundle req (world s) = inr b ->
  beingDeleted b = true ->
  controllerutil.ContainsFinalizer b appBundleFinalizer = false ->
  let fin := controllerutil.AddFinalizer b appBundleFinalizer in
  let added := UpdateBundle fin (world s) in
  controllerutil.RemoveFinalizer fin appBundleFinalizer = b
  /\ Reconcile now req s =
       match fst added with
       | Some err =>
           ((Some fin, Some err),
            mkSt (snd added) (calls s ++ [CallGetBundle req; CallUpdateBundle fin]))
       | None =>
           ((Some b, fst (UpdateBundle b (snd added))),
            mkSt (snd (UpdateBundle b (snd added)))
                 (calls s ++ [CallGetBundle req; CallUpdateBundle fin;
                              CallUpdateBundle b]))
       end.
Proof.
  intros Hget Hdel Hfin fin added.
  pose proof (RemoveFinalizer_AddFinalizer b appBundleFinalizer Hfin) as Hback.
  split; [exact Hback |].
  unfold Reconcile. rewrite bind_run, r_GetBundle_run. simpl. rewrite Hget.
  rewrite bind_run, Hfin. simpl. rewrite bind_run, r_UpdateBundle_run. simpl.
  fold fin. fold added.
  destruct (fst added) as [err |]; simpl.
  - by rewrite <- app_assoc.
  - unfold fin. rewrite beingDeleted_AddFinalizer, Hdel, ContainsFinalizer_AddFinalizer.
    unfold finalizeAppBundle. rewrite bind_run. simpl.
    rewrite bind_run, r_UpdateBundle_run, Hback. simpl.
    by rewrite <- !app_assoc.
Qed.

(** X7: a pass touches objects only if it ends by recording the outcome:
    either it makes no call on an object at all (the bundle is not fetched,
    an update of the bundle or the first status write fails, or the bundle is
    being deleted), or its last call is a status update that carries the
    bundle as the pass leaves it, with phase Deployed or Failed. *)
Theorem objects_touched_only_with_outcome_recorded now req (s : St W) :
  exists l,
    calls (snd (Reconcile now req s)) = (calls s ++ l)%list
    /\ (existsb touchesObject l = false
        \/ exists l' b',
             l = (l' ++ [CallStatusUpdate b'])%list
             /\ fst (fst (Reconcile now req s)) = Some b'
             /\ (AppBundleStatus.Phase (AppBundle.Status b') = PhaseDeployed
                 \/ AppBundleStatus.Phase (AppBundle.Status b') = PhaseFailed)).
Proof.
  unfold Reconcile. rewrite bind_run, r_GetBundle_run. simpl.
  destruct (GetBundle req (world s)) as [err | b].
  { exists [CallGetBundle req]. destruct (error.IsNotFound err); simpl; by split; [| left]. }
  rewrite bind_run.
  set (s1 := mkSt (world s) (calls s ++ [CallGetBundle req])).
  match goal with |- context [snd (?m s1)] => set (step2 := m s1) end.
  assert (exists l2, calls (snd step2) = (calls s ++ l2)%list
                     /\ existsb touchesObject l2 = false) as (l2 & Hl2 & Hno2).
  { subst step2. destruct (controllerutil.ContainsFinalizer b appBundleFinalizer); simpl.
    - by exists [CallGetBundle req].
    - rewrite bind_run, r_UpdateBundle_run. simpl. rewrite <- app_assoc. by eexists. }
  destruct step2 as [[fin [err |]] s2]; simpl in *.
  { exists l2. split; [done | by left]. }
  destruct (beingDeleted fin).
  { destruct (controllerutil.ContainsFinalizer fin appBundleFinalizer).
    - unfold finalizeAppBundle. rewrite bind_run. simpl.
      rewrite bind_run, r_UpdateBundle_run. simpl.
      exists (l2 ++ [CallUpdateBundle
                       (controllerutil.RemoveFinalizer fin appBundleFinalizer)])%list.
      rewrite Hl2, <- app_assoc. split; [done |]. left.
      by rewrite existsb_app, Hno2.
    - exists l2. split; [done | by left]. }
  rewrite bind_run.
  match goal with |- context [snd (?m s2)] => set (step3 := m s2) end.
  assert (exists l3, calls (snd step3) = (calls s ++ l3)%list
                     /\ existsb touchesObject l3 = false) as (l3 & Hl3 & Hno3).
  { subst step3. destruct (AppBundleStatus.Phase (AppBundle.Status fin) =? ""); simpl.
    - rewrite bind_run, r_Status_Update_run. simpl. rewrite Hl2, <- app_assoc.
      eexists. split; [reflexivity |]. by rewrite existsb_app, Hno2.
    - by exists l2. }
  destruct step3 as [[b3 [err |]] s3]; simpl in *.
  { exists l3. split; [done | by left]. }
  rewrite bind_run.
  assert ((if porchEnabled b3 then reconcilePorchPackages b3 else ret None) s3
          = (None, s3)) as -> by (by destruct (porchEnabled b3)).
  simpl. rewrite bind_run.
  destruct (deployGroups_log json_Unmarshal sort_Slice SetControllerReference now b3 s3)
    as (l & w & Hlog & _ & _ & _).
  pose proof (deployGroups_phase json_Unmarshal sort_Slice SetControllerReference
                now b3 s3) as Hphase.
  destruct (deployGroups now b3 s3) as [[b' e] sf]. simpl in *.
  exists (l3 ++ l ++ [CallStatusUpdate b'])%list.
  split; [by rewrite Hlog, Hl3, <- !app_assoc |].
  right. exists (l3 ++ l)%list, b'. by rewrite <- app_assoc.
Qed.

End EarlyExits.

(** ** What is written *)

Lemma SetControllerReference_accepted owner controlled owned :
  controllerutil.SetControllerReference owner controlled = inr owned ->
  owned = Unstructured.SetOwnerReferences
            (controllerutil.upsert (controllerutil.controllerRef owner)
               (Unstructured.OwnerReferences controlled)) controlled
  /\ controllerutil.validateOwner owner controlled = None.
Proof.
  unfold controllerutil.SetControllerReference.
  destruct (controllerutil.validateOwner owner controlled); [discriminate |].
  destruct (controllerutil.GetControllerOf controlled) as [existing |].
  - destruct (controllerutil.referSameObject existing _); [| discriminate].
    by intros [= <-].
  - by intros [= <-].
Qed.

Lemma validateOwner_accepted owner o :
  controllerutil.validateOwner owner o = None ->
  ObjectMeta.Namespace owner <> "" ->
  Unstructured.Namespace o = ObjectMeta.Namespace owner.
Proof.
  unfold controllerutil.validateOwner. intros Hvalid Hns.
  destruct (String.eqb_spec (ObjectMeta.Namespace owner) "") as [? | _]; [done |].
  destruct (Unstructured.Namespace o =? ""); [discriminate |].
  destruct (String.eqb_spec (ObjectMeta.Namespace owner) (Unstructured.Namespace o))
    as [Heq | _]; [done | discriminate].
Qed.

Lemma decorate_tracked b g c parsed :
  tracked b g c parsed (decorate b g c (GoInt.mul (Group.Order g) 100) parsed).
Proof.
  assert (forall o : Unstructured.t,
            tracked b g c parsed o ->
            tracked b g c parsed
              (if (Unstructured.Namespace o =? "") && negb (AppBundle.Namespace b =? "")
               then Unstructured.SetNamespace (AppBundle.Namespace b) o else o)) as Hns.
  { intros o Ho. by destruct (_ && _). }
  unfold decorate. apply Hns. unfold tracked, syncWave, trackingLabels. simpl.
  split; [by rewrite 2!lookup_insert_ne, lookup_insert_eq by done |].
  split; [by rewrite lookup_insert_ne, lookup_insert_eq by done |].
  split; [by rewrite lookup_insert_eq |].
  split.
  { intros k Hk. rewrite !lookup_insert_ne; [done | intros <-; apply Hk; simpl; tauto ..]. }
  split; [by rewrite lookup_insert_eq |].
  split; [| done].
  intros k Hk. by rewrite lookup_insert_ne.
Qed.

Section Written.
Context {W : Type} `{!Client W}.
Variable json_Unmarshal : list Byte.byte -> error.t + Unstructured.t.
Variable sort_Slice : forall A : Type, (A -> A -> bool) -> list A -> list A.

Local Abbreviation deployGroups :=
  (deployGroups json_Unmarshal sort_Slice controllerutil.SetControllerReference).
Local Abbreviation collectGroupStatuses :=
  (collectGroupStatuses json_Unmarshal sort_Slice controllerutil.SetControllerReference).
Local Abbreviation writesTemplate :=
  (writesTemplate json_Unmarshal controllerutil.SetControllerReference).

(** Every object a deployment writes is a component's template, decorated
    and owned. *)
Lemma deployGroups_writesTemplate now b (s : St W) :
  grownBy (writesTemplate b (plan sort_Slice b)) s (snd (deployGroups now b s)).
Proof.
  rewrite deployGroups_run. cbv zeta.
  set (start := AppBundle.mapStatus _ _).
  pose proof (collectGroupStatuses_writes json_Unmarshal sort_Slice
                controllerutil.SetControllerReference start
                (sort_Slice _ groupLess (AppBundleSpec.Groups (AppBundle.Spec b))) s)
    as Hcalls.
  apply (grownBy_weaken _ (writesTemplate b (plan sort_Slice b))) in Hcalls.
  2: { intros x. by apply writesTemplate_meta. }
  destruct (collectGroupStatuses start _ s) as [[sts [err |]] s1]; simpl in *.
  - rewrite updateStatusWithError_run. simpl.
    eapply grownBy_trans; [exact Hcalls |].
    apply grownBy_calls. by repeat constructor.
  - eapply grownBy_trans; [exact Hcalls |].
    apply grownBy_calls. by repeat constructor.
Qed.

Lemma writesTemplate_only (P : Group.t -> Component.t -> Unstructured.t -> Unstructured.t -> Prop)
    b todo call :
  (forall g c parsed owned rv,
     json_Unmarshal (Component.Template c) = inr parsed ->
     controllerutil.SetControllerReference (AppBundle.Meta b)
       (decorate b g c (GoInt.mul (Group.Order g) 100) parsed) = inr owned ->
     P g c parsed (Unstructured.SetResourceVersion rv owned)) ->
  writesTemplate b todo call -> writesOnly json_Unmarshal P todo call.
Proof.
  intros HP. destruct call; simpl; try done.
  all: intros (g & c & obj & Hin & Hdesired & <-); exists g, c.
  all: unfold desired in Hdesired.
  all: destruct (json_Unmarshal (Component.Template c)) as [e | parsed] eqn:Hparse;
    [discriminate |].
  all: destruct (controllerutil.SetControllerReference _ _) as [e | owned] eqn:Hown;
    [discriminate |].
  all: injection Hdesired as <-.
  all: exists parsed; split; [done |]; split; [done |]; by apply HP.
Qed.

(** X8: every object a deployment creates or updates is the manifest of
    one of the bundle's components with the three tracking labels set to the
    names of the bundle, the group and the component (whatever the manifest
    had under these keys), the sync wave annotation set to the decimal of the
    component's wave, and every other label and annotation, the apiVersion,
    the kind and the name as the manifest has them; nothing is deleted. *)
Theorem written_objects_are_tracked now b (s : St W) :
  grownBy (writesOnly json_Unmarshal (tracked b) (plan sort_Slice b))
          s (snd (deployGroups now b s)).
Proof.
  eapply grownBy_weaken; [| apply deployGroups_writesTemplate].
  intros call. apply writesTemplate_only.
  intros g c parsed owned rv _ Hown.
  apply SetControllerReference_accepted in Hown as [-> _].
  exact (decorate_tracked b g c parsed).
Qed.


End Written.

(** ** The Ready condition *)

Lemma SetStatusCondition_found now conditions newCondition :
  FindStatusCondition (meta.SetStatusCondition now conditions newCondition)
    (Condition.Type_ newCondition)
  = Some (match FindStatusCondition conditions (Condition.Type_ newCondition) with
          | Some existing => meta.touch now newCondition existing
          | None => meta.fresh now newCondition
          end).
Proof.
  unfold FindStatusCondition.
  induction conditions as [| c rest IH]; simpl.
  - by rewrite String.eqb_refl.
  - destruct (Condition.Type_ c =? Condition.Type_ newCondition) eqn:Hc; simpl.
    + by rewrite Hc.
    + by rewrite Hc.
Qed.

Lemma SetStatusCondition_others now conditions newCondition conditionType :
  conditionType <> Condition.Type_ newCondition ->
  FindStatusCondition (meta.SetStatusCondition now conditions newCondition) conditionType
  = FindStatusCondition conditions conditionType.
Proof.
  intros Hother. unfold FindStatusCondition.
  induction conditions as [| c rest IH]; simpl.
  - destruct (String.eqb_spec (Condition.Type_ newCondition) conditionType); [by subst | done].
  - destruct (String.eqb_spec (Condition.Type_ c) (Condition.Type_ newCondition))
      as [Hc | Hc]; simpl.
    + rewrite Hc.
      destruct (String.eqb_spec (Condition.Type_ newCondition) conditionType);
        [by subst | done].
    + destruct (Condition.Type_ c =? conditionType); [done | exact IH].
Qed.

Section ReadyCondition.
Context {W : Type} `{!Client W}.
Variable json_Unmarshal : list Byte.byte -> error.t + Unstructured.t.
Variable sort_Slice : forall A : Type, (A -> A -> bool) -> list A -> list A.
Variable SetControllerReference :
  ObjectMeta.t -> Unstructured.t -> error.t + Unstructured.t.

Local Abbreviation deployGroups :=
  (deployGroups json_Unmarshal sort_Slice SetControllerReference).

(** X10: after a deployment the first condition of type Ready mirrors the
    phase: True with reason DeploymentComplete when the phase is Deployed,
    False with reason DeploymentFailed and the status message when it is
    Failed, in both cases with the bundle's generation. Its transition time is
    kept when a Ready condition with the same status was there before and is
    the time of the pass otherwise; conditions of other types are as they
    were. *)
Theorem ready_condition_mirrors_phase now b (s : St W) :
  let before := AppBundleStatus.Conditions (AppBundle.Status b) in
  let status := AppBundle.Status (fst (fst (deployGroups now b s))) in
  let after := AppBundleStatus.Conditions status in
  exists ready,
    FindStatusCondition after "Ready" = Some ready
    /\ Condition.ObservedGeneration ready = AppBundle.Generation b
    /\ (AppBundleStatus.Phase status = PhaseDeployed
        /\ Condition.Status ready = ConditionTrue
        /\ Condition.Reason ready = "DeploymentComplete"
        /\ Condition.Message ready = "All resources deployed successfully"
        \/ AppBundleStatus.Phase status = PhaseFailed
           /\ Condition.Status ready = ConditionFalse
           /\ Condition.Reason ready = "DeploymentFailed"
           /\ Condition.Message ready = AppBundleStatus.Message status)
    /\ Condition.LastTransitionTime ready
       = match FindStatusCondition before "Ready" with
         | Some old =>
             if Condition.Status old =? Condition.Status ready
             then Condition.LastTransitionTime old else now
         | None => now
         end
    /\ (forall conditionType, conditionType <> "Ready" ->
          FindStatusCondition after conditionType
          = FindStatusCondition before conditionType).
Proof.
  cbv zeta. rewrite deployGroups_run. cbv zeta.
  destruct (collectGroupStatuses _ _ _ _ _ s) as [[sts [err |]] s1]; simpl.
  - rewrite updateStatusWithError_run. simpl.
    eexists. split; [apply (SetStatusCondition_found now) |]. simpl.
    destruct (FindStatusCondition _ "Ready") as [old |]; simpl.
    + split; [done |]. split; [right; done |]. split; [done |].
      intros t Ht. by apply SetStatusCondition_others.
    + split; [done |]. split; [right; done |]. split; [done |].
      intros t Ht. by apply SetStatusCondition_others.
  - eexists. split; [apply (SetStatusCondition_found now) |]. simpl.
    destruct (FindStatusCondition _ "Ready") as [old |]; simpl.
    + split; [done |]. split; [left; done |]. split; [done |].
      intros t Ht. by apply SetStatusCondition_others.
    + split; [done |]. split; [left; done |]. split; [done |].
      intros t Ht. by apply SetStatusCondition_others.
Qed.

End ReadyCondition.

(** ** Waves and processing order *)

Section WaveOrder.
Variable sort_Slice : forall A : Type, (A -> A -> bool) -> list A -> list A.
Hypothesis sort_Slice_contract : sortContract sort_Slice.

Local Abbreviation sortedComponents := (fun g =>
  sort_Slice _ componentLess (Group.Components g)).
Local Abbreviation groupWaves := (fun g => map (syncWave g) (sortedComponents g)).

Lemma wavesOf_plan b :
  wavesOf (plan sort_Slice b)
  = flat_map groupWaves
      (sort_Slice _ groupLess (AppBundleSpec.Groups (AppBundle.Spec b))).
Proof.
  unfold wavesOf, plan.
  induction (sort_Slice _ groupLess _) as [| g gs IH]; [done |].
  simpl. rewrite map_app, IH. f_equal. by rewrite map_map.
Qed.

Lemma groupWaves_bounds g w :
  ordersInBounds g -> In w (groupWaves g) ->
  Group.Order g * 100 <= w <= Group.Order g * 100 + 99.
Proof.
  intros (Hg & Hmax & Hcs) Hin. apply in_map_iff in Hin as (c & <- & Hc).
  destruct (sort_Slice_contract _ Component.Order (Group.Components g)) as [Hperm _].
  apply (Permutation_in _ Hperm), Hcs in Hc.
  rewrite syncWave_exact by done. lia.
Qed.

Lemma waves_sorted g cs :
  0 <= Group.Order g -> Group.Order g * 100 + 99 <= GoInt.max_int ->
  Forall (fun c => 0 <= Component.Order c < 100) cs ->
  StronglySorted (fun a b => Component.Order a <= Component.Order b) cs ->
  StronglySorted Z.le (map (syncWave g) cs).
Proof.
  intros Hg Hmax Hall Hsorted.
  induction Hsorted as [| c cs _ IH Hc]; [constructor |].
  apply Forall_cons in Hall as [Hbound Hall]. simpl. constructor; [by apply IH |].
  apply Forall_forall. intros w Hw.
  apply list_elem_of_In, in_map_iff in Hw as (c' & <- & Hc').
  rewrite Forall_forall in Hc, Hall. apply list_elem_of_In in Hc'.
  rewrite !syncWave_exact; try done; [| by apply Hall].
  specialize (Hc _ Hc'). simpl in Hc. lia.
Qed.

Lemma groupWaves_sorted g :
  ordersInBounds g -> StronglySorted Z.le (groupWaves g).
Proof.
  intros (Hg & Hmax & Hcs).
  destruct (sort_Slice_contract _ Component.Order (Group.Components g))
    as [Hperm Hsorted].
  apply waves_sorted; [done | done | | exact Hsorted].
  apply Forall_forall. intros c Hc. apply Hcs, (Permutation_in _ Hperm).
  by apply list_elem_of_In.
Qed.

Lemma flat_groupWaves_sorted gs :
  StronglySorted (fun a b => Group.Order a <= Group.Order b) gs ->
  NoDup (map Group.Order gs) ->
  Forall ordersInBounds gs ->
  StronglySorted Z.le (flat_map groupWaves gs).
Proof.
  induction 1 as [| g gs _ IH Hg]; intros Hnodup Hall; [constructor |].
  simpl in Hnodup. apply NoDup_cons in Hnodup as [Hfresh Hnodup].
  apply Forall_cons in Hall as [Hbounds Hall].
  simpl. apply StronglySorted_app_2; [| by apply groupWaves_sorted | by apply IH].
  intros w1 w2 Hw1 Hw2.
  apply list_elem_of_In, (groupWaves_bounds g w1 Hbounds) in Hw1.
  apply list_elem_of_In, in_flat_map in Hw2 as (g' & Hg' & Hw2).
  rewrite Forall_forall in Hall, Hg.
  apply list_elem_of_In in Hg'.
  apply (groupWaves_bounds g' w2 (Hall _ Hg')) in Hw2.
  assert (Group.Order g <> Group.Order g') as Hneq.
  { intros Heq. apply Hfresh. rewrite Heq. by apply list_elem_of_fmap_2. }
  specialize (Hg _ Hg'). simpl in Hg. lia.
Qed.

(** X11: for a sort that meets the contract of [sort.Slice], groups of
    distinct orders, and orders within the bounds the API and the
    documentation set, the sync waves of the components, taken in the order
    in which a pass processes them, never decrease: the order of the waves
    is the order of the deployment. *)
Theorem waves_follow_processing_order b :
  Forall ordersInBounds (AppBundleSpec.Groups (AppBundle.Spec b)) ->
  NoDup (map Group.Order (AppBundleSpec.Groups (AppBundle.Spec b))) ->
  StronglySorted Z.le (wavesOf (plan sort_Slice b)).
Proof.
  intros Hall Hnodup. rewrite wavesOf_plan.
  destruct (sort_Slice_contract _ Group.Order (AppBundleSpec.Groups (AppBundle.Spec b)))
    as [Hperm Hsorted].
  cbv zeta in Hsorted. fold groupLess in Hperm, Hsorted.
  apply flat_groupWaves_sorted; [done | by rewrite Hperm | by rewrite Hperm].
Qed.

End WaveOrder.

Lemma pass_without_error_is_deployed_witness :
  exists b', fst (fst scenarioA.pass1) = Some b'
             /\ AppBundleStatus.Phase (AppBundle.Status b') = PhaseDeployed.
Proof.
  destruct (pass_without_error_is_deployed (W := fake.Cluster) demo.decode
              demo.insertionSort controllerutil.SetControllerReference
              1000 (demo.req scenarioA.b) (mkSt (fake.holding scenarioA.b) [])
              (snd scenarioA.pass1) scenarioA.b (fst (fst scenarioA.pass1)))
    as (b' & l & w & Hb & Hphase & _).
  - vm_compute. reflexivity.
  - vm_compute. reflexivity.
  - vm_compute. reflexivity.
  - exists b'. split; [exact Hb | exact Hphase].
Defined.

Lemma deploying_is_never_written_witness :
  exists l, calls (snd scenarioA.pass1) = ([] ++ l)%list
            /\ ~ In PhaseDeploying (writtenPhases l).
Proof.
  destruct (deploying_is_never_written (W := fake.Cluster) demo.decode
              demo.insertionSort controllerutil.SetControllerReference
              1000 (demo.req scenarioA.b) (mkSt (fake.holding scenarioA.b) [])
              scenarioA.b)
    as (l & first & last & Hl & _ & _ & _ & Hnever).
  - vm_compute. reflexivity.
  - vm_compute. reflexivity.
  - exists l. split; [exact Hl | exact Hnever].
Defined.

Lemma fetch_failure_ends_pass_witness :
  demo.Reconcile 1000 missing.req missing.s
  = ((None, None), mkSt (world missing.s) [CallGetBundle missing.req]).
Proof.
  apply (fetch_failure_ends_pass (W := fake.Cluster) demo.decode demo.insertionSort
           controllerutil.SetControllerReference 1000 missing.req missing.s
           (fake.notFound "gone")).
  vm_compute. reflexivity.
Defined.

(** The in-memory cluster refuses the token, and the pass ends there. *)
Lemma deletion_without_token_adds_it_first_witness :
  option_map error.Error
    (snd (fst (demo.Reconcile 2000 (demo.req unguarded.b) unguarded.s)))
  = Some ("shop is invalid: metadata.finalizers: Forbidden: no new finalizers "
            ++ "can be added if the object is being deleted")
  /\ calls (snd (demo.Reconcile 2000 (demo.req unguarded.b) unguarded.s))
     = [CallGetBundle (demo.req unguarded.b); CallUpdateBundle unguarded.guarded].
Proof.
  destruct (deletion_without_token_adds_it_first (W := fake.Cluster) demo.decode
              demo.insertionSort controllerutil.SetControllerReference
              2000 (demo.req unguarded.b) unguarded.s unguarded.b)
    as [_ Hrun].
  - vm_compute. reflexivity.
  - vm_compute. reflexivity.
  - vm_compute. reflexivity.
  - unfold demo.Reconcile. rewrite Hrun. split; vm_compute; reflexivity.
Defined.

Lemma waves_follow_processing_order_witness :
  StronglySorted Z.le (wavesOf (plan demo.insertionSort scenarioA.b)).
Proof.
  apply (waves_follow_processing_order demo.insertionSort insertionSort_contract
           scenarioA.b).
  - apply Forall_cons; split; [| apply Forall_cons; split; [| apply Forall_nil_2]].
    all: split; [simpl; lia |]; split; [unfold GoInt.max_int; simpl; lia |].
    all: intros c [<- | []]; simpl; lia.
  - apply (bool_decide_unpack _). vm_compute. exact I.
Defined.

Lemma returned_error_is_first_failure_or_status_write_witness :
  exists w,
    world (snd broken.deploy) = snd (fake.statusUpdate (fst (fst broken.deploy)) w)
    /\ (fst (fake.statusUpdate (fst (fst broken.deploy)) w) = Some brokenRun.err
        \/ fst (fake.statusUpdate (fst (fst broken.deploy)) w) = None
           /\ AppBundleStatus.Phase (AppBundle.Status (fst (fst broken.deploy)))
              = PhaseFailed
           /\ AppBundleStatus.Message (AppBundle.Status (fst (fst broken.deploy)))
              = error.Error brokenRun.err).
Proof.
  refine (returned_error_is_first_failure_or_status_write (W := fake.Cluster) demo.decode
            demo.insertionSort controllerutil.SetControllerReference
            1000 broken.b broken.s0 brokenRun.err _).
  vm_compute. reflexivity.
Defined.

(** * The later revision *)

(** ** Readiness checks *)

Section ReadinessFacts.
Import unstructured.
Variable Sprint : value -> string.

Local Abbreviation NestedInt64 := (NestedInt64 Sprint).
Local Abbreviation NestedString := (NestedString Sprint).
Local Abbreviation NestedSlice := (NestedSlice Sprint).
Local Abbreviation isDeploymentReady := (later.isDeploymentReady Sprint).
Local Abbreviation isStatefulSetReady := (later.isStatefulSetReady Sprint).
Local Abbreviation isDaemonSetReady := (later.isDaemonSetReady Sprint).
Local Abbreviation isJobComplete := (later.isJobComplete Sprint).
Local Abbreviation isPodReady := (later.isPodReady Sprint).
Local Abbreviation jobConditions := (later.jobConditions Sprint).
Local Abbreviation podConditions := (later.podConditions Sprint).

Lemma default_found (n d : Z) (found : option Z) :
  n <> d -> (default d found =? n)%Z = true <-> found = Some n.
Proof.
  intros Hn. destruct found as [i |]; simpl; rewrite Z.eqb_eq; split.
  - by intros ->.
  - by intros [= ->].
  - by intros <-.
  - done.
Qed.

(** X12: a Deployment that asks for [n] replicas, [n] not 0 (1 when
    [spec.replicas] is absent), is ready, without error, exactly when its
    status reports [n] ready, [n] updated and [n] available replicas, each as
    an integer. *)
Theorem deployment_ready_iff_counters_match obj found n :
  NestedInt64 obj ["spec"; "replicas"] = inr found ->
  n = default 1 found ->
  n <> 0 ->
  isDeploymentReady obj = (true, None)
  <-> NestedInt64 obj ["status"; "readyReplicas"] = inr (Some n)
      /\ NestedInt64 obj ["status"; "updatedReplicas"] = inr (Some n)
      /\ NestedInt64 obj ["status"; "availableReplicas"] = inr (Some n).
Proof.
  intros Hspec -> Hn. unfold later.isDeploymentReady. rewrite Hspec.
  destruct (NestedInt64 obj ["status"; "readyReplicas"]) as [e | ready];
    [split; [discriminate | by intros [[=] _]] |].
  destruct (NestedInt64 obj ["status"; "updatedReplicas"]) as [e | updated];
    [split; [discriminate | by intros (_ & [=] & _)] |].
  destruct (NestedInt64 obj ["status"; "availableReplicas"]) as [e | available];
    [split; [discriminate | by intros (_ & _ & [=])] |].
  cbv zeta. split.
  - intros [= Hall]. apply andb_prop in Hall as [Hall Ha].
    apply andb_prop in Hall as [Hr Hu].
    apply default_found in Hr, Hu, Ha; try done. by subst.
  - intros ([= ->] & [= ->] & [= ->]). simpl. by rewrite Z.eqb_refl.
Qed.

(** X13: a StatefulSet that asks for [n] replicas, [n] not 0 (1 when
    [spec.replicas] is absent), is ready, without error, exactly when its
    status reports [n] ready replicas. *)
Theorem statefulset_ready_iff_replicas_ready obj found n :
  NestedInt64 obj ["spec"; "replicas"] = inr found ->
  n = default 1 found ->
  n <> 0 ->
  isStatefulSetReady obj = (true, None)
  <-> NestedInt64 obj ["status"; "readyReplicas"] = inr (Some n).
Proof.
  intros Hspec -> Hn. unfold later.isStatefulSetReady. rewrite Hspec.
  destruct (NestedInt64 obj ["status"; "readyReplicas"]) as [e | ready];
    [split; [discriminate | by intros [=]] |].
  cbv zeta. split.
  - intros [= Hr]. apply default_found in Hr; by subst.
  - intros [= ->]. simpl. by rewrite Z.eqb_refl.
Qed.

(** X14: a DaemonSet is ready, without error, exactly when its status
    reports a desired number scheduled that is not 0 and a number ready
    equal to it; a DaemonSet that schedules nothing is never ready. *)
Theorem daemonset_ready_iff_scheduled_and_ready obj :
  isDaemonSetReady obj = (true, None)
  <-> exists n,
        n <> 0
        /\ NestedInt64 obj ["status"; "desiredNumberScheduled"] = inr (Some n)
        /\ NestedInt64 obj ["status"; "numberReady"] = inr (Some n).
Proof.
  unfold later.isDaemonSetReady.
  destruct (NestedInt64 obj ["status"; "desiredNumberScheduled"]) as [e | [n |]].
  - split; [discriminate | by intros (n & _ & [=] & _)].
  - destruct (Z.eqb_spec n 0) as [-> | Hn].
    + split; [discriminate | by intros (n & Hn & [= <-] & _)].
    + destruct (NestedInt64 obj ["status"; "numberReady"]) as [e | ready].
      * split; [discriminate | by intros (m & _ & _ & [=])].
      * cbv zeta. split.
        -- intros [= Hr]. apply default_found in Hr; [| done]. subst. by exists n.
        -- intros (m & _ & [= <-] & [= ->]). simpl. by rewrite Z.eqb_refl.
  - split; [discriminate | by intros (n & _ & [=] & _)].
Qed.

Lemma typeAndStatus_conditionIs val t st :
  typeAndStatus val = Some (t, st) <-> conditionIs t st val.
Proof.
  unfold conditionIs. split.
  - destruct val as [| | | | | | m]; simpl; try done.
    destruct (m !! "type") as [[] |] eqn:Ht; try done.
    destruct (m !! "status") as [[] |] eqn:Hst; try done.
    intros [= -> ->]. by exists m.
  - intros (m & -> & Ht & Hst). simpl. by rewrite Ht, Hst.
Qed.

Lemma jobConditions_cons val rest :
  jobConditions (val :: rest) =
  match typeAndStatus val with
  | Some (t, st) =>
      if (t =? "Complete") && (st =? "True") then (true, None)
      else if (t =? "Failed") && (st =? "True")
           then (false, Some (error.mk "job failed" false))
           else jobConditions rest
  | None => jobConditions rest
  end.
Proof.
  destruct val as [| | | | | | m]; try done. simpl.
  unfold unstructured.NestedString, unstructured.NestedFieldNoCopy. simpl.
  destruct (m !! "type") as [[] |]; try done.
  destruct (m !! "status") as [[] |]; done.
Qed.

Lemma podConditions_cons val rest :
  podConditions (val :: rest) =
  match typeAndStatus val with
  | Some (t, st) =>
      if (t =? "Ready") && (st =? "True") then (true, None) else podConditions rest
  | None => podConditions rest
  end.
Proof.
  destruct val as [| | | | | | m]; try done. simpl.
  unfold unstructured.NestedString, unstructured.NestedFieldNoCopy. simpl.
  destruct (m !! "type") as [[] |]; try done.
  destruct (m !! "status") as [[] |]; done.
Qed.

Lemma is_condition val t st t' st' :
  typeAndStatus val = Some (t, st) ->
  (t =? t') && (st =? st') = true <-> conditionIs t' st' val.
Proof.
  intros Hval. rewrite andb_true_iff, !String.eqb_eq, <- typeAndStatus_conditionIs, Hval.
  split; [by intros [-> ->] | by intros [= -> ->]].
Qed.

Lemma not_condition val t st :
  typeAndStatus val = None -> ~ conditionIs t st val.
Proof. intros Hval Hc. apply typeAndStatus_conditionIs in Hc. congruence. Qed.

Lemma jobConditions_complete conditions :
  jobConditions conditions = (true, None)
  <-> exists before c after,
        conditions = (before ++ c :: after)%list
        /\ conditionIs "Complete" "True" c
        /\ Forall (fun val => ~ conditionIs "Failed" "True" val) before.
Proof.
  induction conditions as [| val rest IH].
  - split; [discriminate |]. intros (before & c & after & Heq & _).
    by destruct before.
  - rewrite jobConditions_cons.
    destruct (typeAndStatus val) as [[t st] |] eqn:Hval.
    + destruct ((t =? "Complete") && (st =? "True")) eqn:Hcomplete.
      { apply (is_condition val _ _ _ _ Hval) in Hcomplete.
        split; [| done]. intros _. by exists [], val, rest. }
      assert (~ conditionIs "Complete" "True" val) as Hnot.
      { intros Hc. apply (is_condition val _ _ _ _ Hval) in Hc. congruence. }
      destruct ((t =? "Failed") && (st =? "True")) eqn:Hfailed.
      { apply (is_condition val _ _ _ _ Hval) in Hfailed.
        split; [discriminate |]. intros (before & c & after & Heq & Hc & Hall).
        destruct before as [| x before]; simpl in Heq; injection Heq as -> ->; [done |].
        by apply Forall_cons in Hall as [Hx _]. }
      assert (~ conditionIs "Failed" "True" val) as Hnot'.
      { intros Hc. apply (is_condition val _ _ _ _ Hval) in Hc. congruence. }
      rewrite IH. split.
      * intros (before & c & after & -> & Hc & Hall).
        exists (val :: before), c, after. split; [done |]. split; [done |].
        by constructor.
      * intros (before & c & after & Heq & Hc & Hall).
        destruct before as [| x before]; simpl in Heq; injection Heq as -> ->; [done |].
        apply Forall_cons in Hall as [_ Hall]. by exists before, c, after.
    + pose proof (not_condition val "Complete" "True" Hval) as Hnot.
      pose proof (not_condition val "Failed" "True" Hval) as Hnot'.
      rewrite IH. split.
      * intros (before & c & after & -> & Hc & Hall).
        exists (val :: before), c, after. split; [done |]. split; [done |].
        by constructor.
      * intros (before & c & after & Heq & Hc & Hall).
        destruct before as [| x before]; simpl in Heq; injection Heq as -> ->; [done |].
        apply Forall_cons in Hall as [_ Hall]. by exists before, c, after.
Qed.

Lemma jobConditions_failed conditions :
  jobConditions conditions = (false, Some (error.mk "job failed" false))
  <-> exists before c after,
        conditions = (before ++ c :: after)%list
        /\ conditionIs "Failed" "True" c
        /\ Forall (fun val => ~ conditionIs "Complete" "True" val) before.
Proof.
  induction conditions as [| val rest IH].
  - split; [discriminate |]. intros (before & c & after & Heq & _).
    by destruct before.
  - rewrite jobConditions_cons.
    destruct (typeAndStatus val) as [[t st] |] eqn:Hval.
    + destruct ((t =? "Complete") && (st =? "True")) eqn:Hcomplete.
      { apply (is_condition val _ _ _ _ Hval) in Hcomplete.
        split; [discriminate |]. intros (before & c & after & Heq & Hc & Hall).
        destruct before as [| x before]; simpl in Heq; injection Heq as -> ->.
        - apply typeAndStatus_conditionIs in Hc, Hcomplete. congruence.
        - by apply Forall_cons in Hall as [Hx _]. }
      assert (~ conditionIs "Complete" "True" val) as Hnot.
      { intros Hc. apply (is_condition val _ _ _ _ Hval) in Hc. congruence. }
      destruct ((t =? "Failed") && (st =? "True")) eqn:Hfailed.
      { apply (is_condition val _ _ _ _ Hval) in Hfailed.
        split; [| done]. intros _. by exists [], val, rest. }
      assert (~ conditionIs "Failed" "True" val) as Hnot'.
      { intros Hc. apply (is_condition val _ _ _ _ Hval) in Hc. congruence. }
      rewrite IH. split.
      * intros (before & c & after & -> & Hc & Hall).
        exists (val :: before), c, after. split; [done |]. split; [done |].
        by constructor.
      * intros (before & c & after & Heq & Hc & Hall).
        destruct before as [| x before]; simpl in Heq; injection Heq as -> ->; [done |].
        apply Forall_cons in Hall as [_ Hall]. by exists before, c, after.
    + pose proof (not_condition val "Complete" "True" Hval) as Hnot.
      pose proof (not_condition val "Failed" "True" Hval) as Hnot'.
      rewrite IH. split.
      * intros (before & c & after & -> & Hc & Hall).
        exists (val :: before), c, after. split; [done |]. split; [done |].
        by constructor.
      * intros (before & c & after & Heq & Hc & Hall).
        destruct before as [| x before]; simpl in Heq; injection Heq as -> ->; [done |].
        apply Forall_cons in Hall as [_ Hall]. by exists before, c, after.
Qed.

Lemma jobConditions_outcome conditions :
  jobConditions conditions = (true, None)
  \/ jobConditions conditions = (false, Some (error.mk "job failed" false))
  \/ jobConditions conditions = (false, None).
Proof.
  induction conditions as [| val rest IH]; [by right; right |].
  rewrite jobConditions_cons.
  destruct (typeAndStatus val) as [[t st] |]; [| done].
  destruct (_ && _); [by left |]. destruct (_ && _); [by right; left | done].
Qed.

(** X15: for a Job with a list of conditions the first verdict decides:
    the Job is complete exactly when a condition Complete=True is listed with
    no condition Failed=True before it, the check fails with "job failed"
    exactly when a condition Failed=True is listed with no Complete=True
    before it, entries that are no conditions being skipped; there is no
    other outcome but not complete, without error. *)
Theorem job_complete_by_first_verdict obj conditions :
  NestedSlice obj ["status"; "conditions"] = inr (Some conditions) ->
  (isJobComplete obj = (true, None)
   <-> exists before c after,
         conditions = (before ++ c :: after)%list
         /\ conditionIs "Complete" "True" c
         /\ Forall (fun val => ~ conditionIs "Failed" "True" val) before)
  /\ (isJobComplete obj = (false, Some (error.mk "job failed" false))
      <-> exists before c after,
            conditions = (before ++ c :: after)%list
            /\ conditionIs "Failed" "True" c
            /\ Forall (fun val => ~ conditionIs "Complete" "True" val) before)
  /\ (isJobComplete obj = (true, None)
      \/ isJobComplete obj = (false, Some (error.mk "job failed" false))
      \/ isJobComplete obj = (false, None)).
Proof.
  intros Hconditions. unfold later.isJobComplete. rewrite Hconditions.
  split; [apply jobConditions_complete |].
  split; [apply jobConditions_failed | apply jobConditions_outcome].
Qed.

Lemma podConditions_ready conditions :
  snd (podConditions conditions) = None
  /\ (fst (podConditions conditions) = true
      <-> Exists (conditionIs "Ready" "True") conditions).
Proof.
  induction conditions as [| val rest [IHerr IH]].
  - split; [done |]. split; [discriminate | by intros ?%Exists_nil].
  - rewrite podConditions_cons.
    destruct (typeAndStatus val) as [[t st] |] eqn:Hval.
    + destruct ((t =? "Ready") && (st =? "True")) eqn:Hready.
      { apply (is_condition val _ _ _ _ Hval) in Hready.
        split; [done |]. split; [by constructor | done]. }
      split; [done |]. rewrite IH, Exists_cons. split; [by right |].
      intros [Hc | Hrest]; [| done].
      apply (is_condition val _ _ _ _ Hval) in Hc. congruence.
    + split; [done |]. rewrite IH, Exists_cons. split; [by right |].
      intros [Hc | Hrest]; [| done]. by apply not_condition in Hc.
Qed.

(** X16: for a Pod with a list of conditions the check returns no error,
    and the Pod is ready exactly when some entry of the list is a condition
    Ready=True. *)
Theorem pod_ready_iff_some_condition_ready obj conditions :
  NestedSlice obj ["status"; "conditions"] = inr (Some conditions) ->
  snd (isPodReady obj) = None
  /\ (fst (isPodReady obj) = true
      <-> Exists (conditionIs "Ready" "True") conditions).
Proof.
  intros Hconditions. unfold later.isPodReady. rewrite Hconditions.
  apply podConditions_ready.
Qed.

Lemma nested_absent (obj : Object) field rest :
  obj !! field = None -> NestedFieldNoCopy Sprint obj (field :: rest) = inr None.
Proof.
  intros Hnone. unfold unstructured.NestedFieldNoCopy.
  cbn [unstructured.nestedFrom]. by rewrite Hnone.
Qed.

(** X17: none of the five readiness checks answers ready together with
    an error, and each of them finds an object that has neither spec nor
    status not ready, without error. *)
Theorem readiness_checks_on_errors_and_bare_objects obj :
  Forall (fun check : Object -> bool * option error.t =>
            (fst (check obj) = true -> snd (check obj) = None)
            /\ (obj !! "spec" = None -> obj !! "status" = None ->
                check obj = (false, None)))
    [isDeploymentReady; isStatefulSetReady; isDaemonSetReady; isJobComplete; isPodReady].
Proof.
  assert (forall fields, obj !! "spec" = None ->
            NestedInt64 obj ("spec" :: fields) = inr None) as Hspec.
  { intros fields Hnone. unfold unstructured.NestedInt64. by rewrite nested_absent. }
  assert (forall fields, obj !! "status" = None ->
            NestedInt64 obj ("status" :: fields) = inr None) as Hstatus.
  { intros fields Hnone. unfold unstructured.NestedInt64. by rewrite nested_absent. }
  assert (forall fields, obj !! "status" = None ->
            NestedSlice obj ("status" :: fields) = inr None) as Hslice.
  { intros fields Hnone. unfold unstructured.NestedSlice. by rewrite nested_absent. }
  repeat constructor.
  - unfold later.isDeploymentReady.
    repeat (destruct (NestedInt64 obj _); [done |]). done.
  - intros H1 H2. unfold later.isDeploymentReady. by rewrite Hspec, !Hstatus.
  - unfold later.isStatefulSetReady.
    repeat (destruct (NestedInt64 obj _); [done |]). done.
  - intros H1 H2. unfold later.isStatefulSetReady. by rewrite Hspec, !Hstatus.
  - unfold later.isDaemonSetReady.
    destruct (NestedInt64 obj _) as [e | [n |]]; [done | | done].
    destruct (n =? 0)%Z; [done |]. by destruct (NestedInt64 obj _).
  - intros H1 H2. unfold later.isDaemonSetReady. by rewrite Hstatus.
  - unfold later.isJobComplete.
    destruct (NestedSlice obj _) as [e | [conditions |]]; [done | | done].
    by destruct (jobConditions_outcome conditions) as [-> | [-> | ->]].
  - intros H1 H2. unfold later.isJobComplete. by rewrite Hslice.
  - unfold later.isPodReady.
    destruct (NestedSlice obj _) as [e | [conditions |]]; [done | | done].
    intros _. apply podConditions_ready.
  - intros H1 H2. unfold later.isPodReady. by rewrite Hslice.
Qed.

End ReadinessFacts.

(** ** Cleanup *)

Lemma StronglySorted_rev {A} (R : A -> A -> Prop) l :
  StronglySorted R l -> StronglySorted (fun a b => R b a) (rev l).
Proof.
  induction 1 as [| x l _ IH Hx]; [constructor |].
  simpl. apply StronglySorted_app_2; [| done | repeat constructor].
  intros a b Ha Hb. apply list_elem_of_singleton in Hb as ->.
  rewrite Forall_forall in Hx. apply Hx.
  apply list_elem_of_In, (proj2 (in_rev l a)). by apply list_elem_of_In.
Qed.

Lemma same_key_same_element {A} (key : A -> Z) l x y :
  NoDup (map key l) -> In x l -> In y l -> key x = key y -> x = y.
Proof.
  induction l as [| a l IH]; [done |].
  simpl. intros Hnodup Hx Hy Hkey. apply NoDup_cons in Hnodup as [Hfresh Hnodup].
  destruct Hx as [-> | Hx], Hy as [-> | Hy]; [done | | | by apply IH].
  - exfalso. apply Hfresh. rewrite Hkey. by apply list_elem_of_fmap_2, list_elem_of_In.
  - exfalso. apply Hfresh. rewrite <- Hkey. by apply list_elem_of_fmap_2, list_elem_of_In.
Qed.

Lemma rev_flat_map {A B} (f : A -> list B) l :
  rev (flat_map f l) = flat_map (fun a => rev (f a)) (rev l).
Proof.
  induction l as [| a l IH]; [done |].
  simpl. rewrite rev_app_distr, IH, flat_map_app. simpl. by rewrite app_nil_r.
Qed.

Lemma flat_map_same {A B} (f g : A -> list B) l :
  (forall a, In a l -> f a = g a) -> flat_map f l = flat_map g l.
Proof.
  induction l as [| a l IH]; [done |].
  intros Hfg. simpl. rewrite Hfg by (by left). rewrite IH; [done |].
  intros x Hx. apply Hfg. by right.
Qed.

Section CleanupFacts.
Context {W : Type} `{!Client W}.
Variable json_Unmarshal : list Byte.byte -> error.t + Unstructured.t.
Variable sort_Slice : forall A : Type, (A -> A -> bool) -> list A -> list A.

Local Abbreviation deleteComponents := (later.deleteComponents json_Unmarshal).
Local Abbreviation deleteGroups := (later.deleteGroups json_Unmarshal sort_Slice).
Local Abbreviation finalizeAppBundle := (later.finalizeAppBundle json_Unmarshal sort_Slice).
Local Abbreviation resolved := (resolved json_Unmarshal).

Lemma r_Delete_run o (s : St W) :
  later.r_Delete o s
  = (fst (Delete o (world s)),
     mkSt (snd (Delete o (world s))) (calls s ++ [CallDelete o])).
Proof. unfold later.r_Delete, logged. by destruct (Delete o (world s)). Qed.

Lemma deleteComponents_log b g cs (s : St W) :
  calls (snd (deleteComponents b cs s))
  = (calls s ++ map CallDelete (omap (fun gc : Group.t * Component.t => resolved b (snd gc)) (map (pair g) cs)))%list.
Proof.
  revert s. induction cs as [| c cs IH]; intros s; [by rewrite app_nil_r |].
  simpl. unfold resolved at 1. simpl.
  destruct (json_Unmarshal (Component.Template c)) as [e | obj]; [apply IH |].
  rewrite bind_run, r_Delete_run. simpl. rewrite IH. simpl. by rewrite <- app_assoc.
Qed.

Lemma deleteGroups_log b gs (s : St W) :
  calls (snd (deleteGroups b gs s))
  = (calls s
       ++ map CallDelete
            (omap (fun gc : Group.t * Component.t => resolved b (snd gc))
               (flat_map (fun g => map (pair g)
                                     (sort_Slice _ later.componentAfter (Group.Components g)))
                         gs)))%list.
Proof.
  revert s. induction gs as [| g gs IH]; intros s; [by rewrite app_nil_r |].
  simpl. rewrite bind_run, IH, (deleteComponents_log b g).
  by rewrite omap_app, map_app, <- app_assoc.
Qed.

Lemma cleanup_log b (s : St W) :
  fst (finalizeAppBundle b s) = None
  /\ calls (snd (finalizeAppBundle b s))
     = (calls s
          ++ map CallDelete
               (omap (fun gc : Group.t * Component.t => resolved b (snd gc))
                     (cleanupPlan sort_Slice b)))%list.
Proof.
  unfold later.finalizeAppBundle. rewrite bind_run. simpl.
  split; [done |]. apply deleteGroups_log.
Qed.

(** X18: cleanup never fails, whatever the deletes answer: it returns no
    error, and its calls are one delete for each component whose manifest
    parses, in cleanup order (groups by descending order, components by
    descending order within their group), of the manifest in the namespace it
    names or else the bundle's; components whose manifest does not parse are
    skipped. *)
Theorem cleanup_deletes_every_resource b (s : St W) :
  let r := finalizeAppBundle b s in
  fst r = None
  /\ calls (snd r)
     = (calls s
          ++ map CallDelete
               (omap (fun gc : Group.t * Component.t => resolved b (snd gc)) (cleanupPlan sort_Slice b)))%list.
Proof.
  cbv zeta. unfold later.finalizeAppBundle. rewrite bind_run. simpl.
  split; [done |]. apply deleteGroups_log.
Qed.

End CleanupFacts.

Section CleanupOrder.
Variable sort_Slice : forall A : Type, (A -> A -> bool) -> list A -> list A.
Hypothesis ascending : sortContract sort_Slice.
Hypothesis descending : descendingContract sort_Slice.

Lemma descending_is_reversed {A} (key : A -> Z) (l : list A) :
  NoDup (map key l) ->
  sort_Slice A (fun a b => (key a >? key b)%Z) l
  = rev (sort_Slice A (fun a b => (key a <? key b)%Z) l).
Proof.
  intros Hnodup.
  destruct (ascending A key l) as [Hperm Hsorted].
  destruct (descending A key l) as [Hperm' Hsorted'].
  cbv zeta in *.
  apply (StronglySorted_unique_strong (fun a b => key b <= key a)).
  - intros x y Hx Hy Hxy Hyx.
    apply (same_key_same_element key l); [done | | | lia].
    + apply (Permutation_in _ Hperm'). by apply list_elem_of_In.
    + apply (Permutation_in _ Hperm), in_rev. by apply list_elem_of_In.
  - exact Hsorted'.
  - by apply (StronglySorted_rev _ _ Hsorted).
  - by rewrite Hperm', <- Permutation_rev, Hperm.
Qed.

(** X19: when the groups have distinct orders and so have the components
    of each group, cleanup takes the components in exactly the reverse of the
    order in which a pass deploys them. *)
Theorem cleanup_reverses_deployment b :
  NoDup (map Group.Order (AppBundleSpec.Groups (AppBundle.Spec b))) ->
  Forall (fun g => NoDup (map Component.Order (Group.Components g)))
         (AppBundleSpec.Groups (AppBundle.Spec b)) ->
  cleanupPlan sort_Slice b = rev (plan sort_Slice b).
Proof.
  intros Hgroups Hcomponents. unfold cleanupPlan, plan.
  unfold later.groupAfter, groupLess.
  rewrite (descending_is_reversed Group.Order _ Hgroups), rev_flat_map.
  apply flat_map_same. intros g Hg.
  unfold later.componentAfter, componentLess.
  rewrite <- map_rev. f_equal.
  apply (descending_is_reversed Component.Order).
  rewrite Forall_forall in Hcomponents. apply Hcomponents, list_elem_of_In.
  destruct (ascending _ Group.Order (AppBundleSpec.Groups (AppBundle.Spec b)))
    as [Hperm _].
  apply (Permutation_in _ Hperm), in_rev. exact Hg.
Qed.

End CleanupOrder.

(** ** Cleanup and deployment *)

Lemma resolved_desired json_Unmarshal b g c obj :
  desired json_Unmarshal controllerutil.SetControllerReference b g c = Some obj ->
  exists r,
    resolved json_Unmarshal b c = Some r /\ Unstructured.Ref r = Unstructured.Ref obj.
Proof.
  unfold desired, resolved.
  destruct (json_Unmarshal (Component.Template c)) as [e | parsed]; [discriminate |].
  destruct (controllerutil.SetControllerReference _ _) as [e | owned] eqn:Hown;
    [discriminate |].
  intros [= <-]. apply SetControllerReference_accepted in Hown as [-> _].
  eexists. split; [reflexivity |].
  unfold Unstructured.Ref, decorate. simpl. by destruct (_ && _).
Qed.

Section CleanupAfterDeployment.
Context {W : Type} `{!Client W}.
Variable json_Unmarshal : list Byte.byte -> error.t + Unstructured.t.
Variable sort_Slice : forall A : Type, (A -> A -> bool) -> list A -> list A.
Hypothesis ascending : sortContract sort_Slice.
Hypothesis descending : descendingContract sort_Slice.

Local Abbreviation deployGroups :=
  (deployGroups json_Unmarshal sort_Slice controllerutil.SetControllerReference).
Local Abbreviation finalizeAppBundle := (later.finalizeAppBundle json_Unmarshal sort_Slice).

Lemma plan_cleanupPlan b gc :
  In gc (plan sort_Slice b) -> In gc (cleanupPlan sort_Slice b).
Proof.
  unfold plan, cleanupPlan. rewrite !in_flat_map. intros (g & Hg & Hgc).
  exists g. split.
  - destruct (ascending _ Group.Order (AppBundleSpec.Groups (AppBundle.Spec b)))
      as [Hup _].
    destruct (descending _ Group.Order (AppBundleSpec.Groups (AppBundle.Spec b)))
      as [Hdown _].
    apply (Permutation_in _ (Permutation_sym Hdown)), (Permutation_in _ Hup), Hg.
  - apply in_map_iff in Hgc as (c & <- & Hc). apply in_map.
    destruct (ascending _ Component.Order (Group.Components g)) as [Hup _].
    destruct (descending _ Component.Order (Group.Components g)) as [Hdown _].
    apply (Permutation_in _ (Permutation_sym Hdown)), (Permutation_in _ Hup), Hc.
Qed.


End CleanupAfterDeployment.

Lemma deployment_ready_iff_counters_match_witness :
  later.isDeploymentReady samples.Sprint samples.workload = (true, None).
Proof.
  apply (deployment_ready_iff_counters_match samples.Sprint samples.workload (Some 3) 3).
  - vm_compute. reflexivity.
  - reflexivity.
  - lia.
  - repeat split; vm_compute; reflexivity.
Defined.

Lemma statefulset_ready_iff_replicas_ready_witness :
  later.isStatefulSetReady samples.Sprint samples.workload = (true, None).
Proof.
  apply (statefulset_ready_iff_replicas_ready samples.Sprint samples.workload (Some 3) 3).
  - vm_compute. reflexivity.
  - reflexivity.
  - lia.
  - vm_compute. reflexivity.
Defined.

Lemma job_complete_by_first_verdict_witness :
  later.isJobComplete samples.Sprint samples.job = (true, None).
Proof.
  apply (proj1 (job_complete_by_first_verdict samples.Sprint samples.job
                  samples.jobConditions ltac:(vm_compute; reflexivity))).
  exists [samples.condition "Suspended" "False"], (samples.condition "Complete" "True"), [].
  split; [reflexivity |]. split.
  - eexists. split; [reflexivity |]. split; vm_compute; reflexivity.
  - constructor; [| constructor].
    intros (m & [= <-] & Htype & _). vm_compute in Htype. discriminate.
Defined.

Lemma pod_ready_iff_some_condition_ready_witness :
  fst (later.isPodReady samples.Sprint samples.pod) = true.
Proof.
  apply (proj2 (pod_ready_iff_some_condition_ready samples.Sprint samples.pod
                  samples.podConditions ltac:(vm_compute; reflexivity))).
  apply Exists_cons_tl, Exists_cons_hd.
  eexists. split; [reflexivity |]. split; vm_compute; reflexivity.
Defined.

Lemma StronglySorted_weaken {A} (R R' : A -> A -> Prop) l :
  (forall a b, R a b -> R' a b) -> StronglySorted R l -> StronglySorted R' l.
Proof.
  intros HR. induction 1 as [| x l _ IH Hx]; constructor; [done |].
  eapply Forall_impl; [exact Hx |]. intros y. apply HR.
Qed.

Lemma insertionSort_descendingContract : descendingContract demo.insertionSort.
Proof.
  intros A key l. cbv zeta. unfold demo.insertionSort. split.
  - by rewrite insertionSortFrom_perm.
  - apply (StronglySorted_weaken (fun a b => - key a <= - key b)); [intros a b; lia |].
    apply (insertionSortFrom_ascending (fun a => - key a)); [| | constructor].
    + intros x y Hgt. apply Z.gtb_lt in Hgt. lia.
    + intros x y Hle. rewrite Z.gtb_ltb in Hle. apply Z.ltb_ge in Hle. lia.
Qed.

Lemma cleanup_reverses_deployment_witness :
  cleanupPlan demo.insertionSort scenarioA.b = rev (plan demo.insertionSort scenarioA.b).
Proof.
  apply (cleanup_reverses_deployment demo.insertionSort insertionSort_contract
           insertionSort_descendingContract scenarioA.b).
  - apply (bool_decide_unpack _). vm_compute. exact I.
  - apply Forall_cons; split; [| apply Forall_cons; split; [| apply Forall_nil_2]].
    all: apply (bool_decide_unpack _); vm_compute; exact I.
Defined.

